(** * A shallow embedding of the resource API layer

    The development follows the Python sources file by file:
    - [base.py]: the operation registry ([MethodMapping], [action]), the
      controller contract ([check_permission]), the two dispatch engines
      ([SingleResourceAsyncHttpTransport], [ManyResourceAsyncHttpTransport])
      and the router ([HttpRouter]);
    - [swagger.py]: the OpenAPI generator.

    Python dictionaries are insertion ordered, so they are association lists
    whose update keeps the position of an existing key.  Exceptions are an
    explicit [result]; the per-request mutable objects (the controller's
    [Metadata], the log, the business calls made) are threaded through a
    small state-and-exception monad. *)

From Stdlib Require Import String Ascii List ZArith Bool Lia Arith.
From Stdlib Require Import DecimalString DecimalZ.
Import ListNotations.
Local Open Scope list_scope.
Local Open Scope string_scope.

Set Implicit Arguments.
Set Warnings "-register-all".

(* ================================================================== *)
(** * Python substrate: strings, dictionaries, exceptions              *)
(* ================================================================== *)

Module PyStr.

(** [str.lower] on ASCII text. *)
Definition lower_ascii (c : ascii) : ascii :=
  let n := nat_of_ascii c in
  if (65 <=? n)%nat && (n <=? 90)%nat then ascii_of_nat (n + 32) else c.

Fixpoint lower (s : string) : string :=
  match s with
  | EmptyString => EmptyString
  | String c s' => String (lower_ascii c) (lower s')
  end.

Definition upper_ascii (c : ascii) : ascii :=
  let n := nat_of_ascii c in
  if (97 <=? n)%nat && (n <=? 122)%nat then ascii_of_nat (n - 32) else c.

Fixpoint upper (s : string) : string :=
  match s with
  | EmptyString => EmptyString
  | String c s' => String (upper_ascii c) (upper s')
  end.

(** [s.startswith(p)]. *)
Definition startswith (p s : string) : bool := String.prefix p s.

(** [p in s] for strings. *)
Fixpoint contains (p s : string) : bool :=
  if String.prefix p s then true
  else match s with
       | EmptyString => false
       | String _ s' => contains p s'
       end.

(** [s.replace(old, new)] for a non-empty [old]: scan left to right, and
    after a match skip the rest of the matched text. *)
Fixpoint replace_from (old new : string) (skip : nat) (s : string) : string :=
  match s with
  | EmptyString => EmptyString
  | String c s' =>
      match skip with
      | S k => replace_from old new k s'
      | O =>
          if String.prefix old s
          then new ++ replace_from old new (String.length old - 1) s'
          else String c (replace_from old new 0 s')
      end
  end.

Definition replace (old new s : string) : string := replace_from old new 0 s.

(** [s[1:]]. *)
Definition tail (s : string) : string :=
  match s with
  | EmptyString => EmptyString
  | String _ s' => s'
  end.

(** [str(n)] for an integer. *)
Definition of_Z (z : Z) : string := NilZero.string_of_int (Z.to_int z).

End PyStr.

(** Insertion-ordered dictionaries. *)
Module PyDict.
Section Generic.
Variables K V : Type.
Variable eqb : K -> K -> bool.

Definition t := list (K * V).

Fixpoint get (k : K) (d : t) : option V :=
  match d with
  | [] => None
  | (k', v) :: d' => if eqb k k' then Some v else get k d'
  end.

Definition mem (k : K) (d : t) : bool :=
  match get k d with Some _ => true | None => false end.

(** [d[k] = v]: an existing key keeps its position. *)
Fixpoint set (k : K) (v : V) (d : t) : t :=
  match d with
  | [] => [(k, v)]
  | (k', v') :: d' =>
      if eqb k k' then (k', v) :: d' else (k', v') :: set k v d'
  end.

(** [d.setdefault(k, v)], for its effect on [d]. *)
Definition setdefault (k : K) (v : V) (d : t) : t :=
  if mem k d then d else (d ++ [(k, v)])%list.

(** [d.pop(k, None)], for its effect on [d]. *)
Fixpoint remove (k : K) (d : t) : t :=
  match d with
  | [] => []
  | (k', v') :: d' => if eqb k k' then d' else (k', v') :: remove k d'
  end.

(** [a | b]: the items of [a], updated and extended by those of [b]. *)
Definition merge (a b : t) : t :=
  fold_left (fun acc kv => set (fst kv) (snd kv) acc) b a.

Definition values (d : t) : list V := map snd d.
End Generic.
End PyDict.

Abbreviation dict V := (list (string * V)).
Abbreviation dget := (PyDict.get String.eqb).
Abbreviation dmem := (PyDict.mem String.eqb).
Abbreviation dset := (PyDict.set String.eqb).
Abbreviation dremove := (PyDict.remove String.eqb).
Abbreviation dmerge := (PyDict.merge String.eqb).
Abbreviation dsetdefault := (PyDict.setdefault String.eqb).

(** The exception classes the engine distinguishes.  [ValidationError] and
    [JSONDecodeError] are subclasses of [ValueError]. *)
Inductive exn_class :=
| ValueError | ValidationError | JSONDecodeError
| TypeError | AttributeError | Http404 | OtherException.

Record exn := mkExn {
  exn_cls : exn_class;
  exn_str : string;            (* str(e) *)
  exn_arg0 : option string;    (* str(e.args[0]) when e.args is not empty *)
  exn_errors : string          (* str(e.errors()) of a ValidationError *)
}.

Definition is_ValidationError (e : exn) : bool :=
  match exn_cls e with ValidationError => true | _ => false end.

(** [isinstance(e, ValueError)]. *)
Definition is_ValueError (e : exn) : bool :=
  match exn_cls e with
  | ValueError | ValidationError | JSONDecodeError => true
  | _ => false
  end.

Definition Http404_exn (msg : string) : exn :=
  mkExn Http404 msg (if String.eqb msg "" then None else Some msg) "".

Inductive result (A : Type) :=
| Ok (a : A)
| Raise (e : exn).
Arguments Ok {A} a.
Arguments Raise {A} e.

Definition rbind {A B} (r : result A) (k : A -> result B) : result B :=
  match r with
  | Ok a => k a
  | Raise e => Raise e
  end.

(** A comprehension [[f(x) for x in xs]]: the first failure propagates. *)
Fixpoint rmap {A B} (f : A -> result B) (xs : list A) : result (list B) :=
  match xs with
  | [] => Ok []
  | x :: xs' =>
      match f x with
      | Raise e => Raise e
      | Ok y => match rmap f xs' with
                | Raise e => Raise e
                | Ok ys => Ok (y :: ys)
                end
      end
  end.

(* ================================================================== *)
(** * Data: JSON, responses, requests, Python values and types         *)
(* ================================================================== *)

Inductive json :=
| JNull
| JBool (b : bool)
| JNum (z : Z)
| JStr (s : string)
| JArr (items : list json)
| JObj (fields : list (string * json)).

(** A pydantic model class: its identity (the class object), its
    [__name__] and what [model_json_schema] answers for it. *)
Record model := mkModel {
  model_ident : string;
  model_name : string;
  model_json_schema : json
}.

Definition model_eqb (a b : model) : bool :=
  String.eqb (model_ident a) (model_ident b).

(** A model instance, observed through [model_dump(mode='json')], which
    always answers a dict. *)
Record instance := mkInstance {
  inst_of : string;
  inst_dump : list (string * json)
}.

Record HttpResponse := mkResponse {
  status_code : Z;
  content : string;
  headers : list (string * string)
}.

Record HttpRequest := mkRequest {
  method : string;
  content_type : string;
  body : string;
  GET : list (string * list string);   (* the query multi-map *)
  path : string
}.

Inductive value :=
| VNone
| VBool (b : bool)
| VInt (z : Z)
| VStr (s : string)
| VList (items : list value)
| VInst (i : instance)
| VResp (r : HttpResponse).

(** Type annotations, as far as the code inspects them. *)
Inductive prim := Pstr | Pint | Pfloat | Pbool | Pdict | Plist.

Inductive pytype :=
| TAny
| TNone                               (* the annotation [None] *)
| TNoneType                           (* [type(None)], inside a Union *)
| TPrim (p : prim)
| TModel (m : model)
| TUnion (args : list pytype)         (* Optional[T] is Union[T, None] *)
| TList (args : list pytype)          (* List[T]; bare List has no args *)
| TDict (args : list pytype)
| TOther (name : string).             (* any other class or alias *)

Definition is_Any (t : pytype) : bool :=
  match t with TAny => true | _ => false end.

Inductive origin := OUnion | Olist | Odict.

(** [typing.get_origin]. *)
Definition get_origin (t : pytype) : option origin :=
  match t with
  | TUnion _ => Some OUnion
  | TList _ => Some Olist
  | TDict _ => Some Odict
  | _ => None
  end.

(** What the code takes from the interpreter and from the libraries it
    calls: calling a type object with one argument, [isinstance] against a
    non-generic type, the JSON codec and the pydantic validator. *)
Record runtime := mkRuntime {
  construct : pytype -> value -> result value;
  isinstance : value -> pytype -> bool;
  json_loads : string -> result json;
  json_dumps : json -> string;
  model_validate : model -> json -> bool -> result instance
}.

(* ================================================================== *)
(** * base.py: resources, handlers, actions, controllers               *)
(* ================================================================== *)

Record resource := mkResource {
  pk : string;
  Create : model;
  Update : model;
  Retrieve : model;
  Retrieve_model_fields : list (string * pytype)
}.

Record Metadata := mkMetadata {
  total_count : option Z;
  content_type_override : option string;
  content_name : option string
}.

Definition Metadata_default : Metadata := mkMetadata None None None.

Inductive param_kind :=
| POSITIONAL_OR_KEYWORD | VAR_POSITIONAL | KEYWORD_ONLY | VAR_KEYWORD.

Record param := mkParam {
  p_name : string;
  p_kind : param_kind;
  p_annotation : option pytype;
  p_has_default : bool
}.

(** A function object: its signature and its behaviour when called with
    keyword arguments on a controller whose metadata it may update.
    Argument binding errors are part of [f_body]. *)
Record pyfunc := mkFunc {
  f_name : string;
  f_params : list param;
  f_return : option pytype;
  f_body : dict value -> Metadata -> result value * Metadata
}.

Record argspec := mkSpec {
  spec_args : list string;
  spec_varkw : option string;
  spec_annotations : dict pytype
}.

Definition is_kind (k : param_kind) (p : param) : bool :=
  match k, p_kind p with
  | POSITIONAL_OR_KEYWORD, POSITIONAL_OR_KEYWORD
  | VAR_POSITIONAL, VAR_POSITIONAL
  | KEYWORD_ONLY, KEYWORD_ONLY
  | VAR_KEYWORD, VAR_KEYWORD => true
  | _, _ => false
  end.

(** [func.__annotations__]: annotated parameters in order, then
    ['return']. *)
Definition annotations_of (f : pyfunc) : dict pytype :=
  let ps := flat_map (fun p => match p_annotation p with
                               | Some t => [(p_name p, t)]
                               | None => []
                               end) (f_params f) in
  match f_return f with
  | Some t => dset "return" t ps
  | None => ps
  end.

(** [inspect.getfullargspec]. *)
Definition getfullargspec (f : pyfunc) : argspec :=
  mkSpec (map p_name (filter (is_kind POSITIONAL_OR_KEYWORD) (f_params f)))
         (option_map p_name (find (is_kind VAR_KEYWORD) (f_params f)))
         (annotations_of f).

(** The marker an [action] decorator leaves on a controller method. *)
Record MethodMapping := mkMapping {
  methods : list string;
  detail : bool;
  url_path : string;
  func : pyfunc;
  mm_resource : option resource
}.

Definition func_name (m : MethodMapping) : string := f_name (func m).

Definition build_methods_map (m : MethodMapping) : dict string :=
  fold_left (fun d meth => dset (PyStr.lower meth) (func_name m) d)
            (methods m) [].

(** [x or default] on an optional, possibly empty, value. *)
Definition or_default {A} (is_empty : A -> bool) (x : option A) (d : A) : A :=
  match x with
  | Some a => if is_empty a then d else a
  | None => d
  end.

Definition str_empty (s : string) : bool := String.eqb s "".
Definition list_empty {A} (l : list A) : bool :=
  match l with [] => true | _ => false end.

(** The decorator [action(methods, detail, url_path, resource)(func)]. *)
Definition action (methods : option (list string)) (detail : bool)
    (url_path : option string) (res : option resource) (func : pyfunc)
  : MethodMapping :=
  mkMapping (or_default list_empty methods ["GET"]) detail
            (or_default str_empty url_path (f_name func)) func res.

(** A permission or throttle check: [validate(user, request)]. *)
Definition check := string -> HttpRequest -> bool * option string.

Inductive attr :=
| AFunc (f : pyfunc)
| AAction (m : MethodMapping)
| AOther (truthy : bool).

(** A controller class.  [c_attrs] lists [dir(controller)] with the value
    of each attribute; [c_context_user] is the [user] attribute of a fresh
    [Context()], if the class gives it one. *)
Record controller := mkController {
  c_name : string;
  c_Resource : resource;
  PERMISSIONS : list check;
  THROTTLERS : list check;
  c_context_user : option string;
  c_attrs : dict attr
}.

(* ================================================================== *)
(** * The per-request state and its monad                              *)
(* ================================================================== *)

Inductive log_level := CRITICAL | ERROR.

Record world := mkWorld {
  w_metadata : Metadata;                    (* self.controller.metadata *)
  w_calls : list (string * dict value);     (* business calls, in order *)
  w_log : list (log_level * string)
}.

Definition world0 : world := mkWorld Metadata_default [] [].

Definition M (A : Type) := world -> result A * world.

Definition ret {A} (a : A) : M A := fun w => (Ok a, w).
Definition raise {A} (e : exn) : M A := fun w => (Raise e, w).
Definition bind {A B} (m : M A) (k : A -> M B) : M B :=
  fun w => match m w with
           | (Ok a, w') => k a w'
           | (Raise e, w') => (Raise e, w')
           end.
Definition lift {A} (r : result A) : M A := fun w => (r, w).
Definition try_except {A} (m : M A) (h : exn -> M A) : M A :=
  fun w => match m w with
           | (Ok a, w') => (Ok a, w')
           | (Raise e, w') => h e w'
           end.

Declare Scope py_scope.
Delimit Scope py_scope with py.
Notation "x <- c ;; k" := (bind c (fun x => k))
  (at level 61, c at next level, right associativity) : py_scope.
Notation "c ;;; k" := (bind c (fun _ => k))
  (at level 61, right associativity) : py_scope.
Local Open Scope py_scope.

Definition get_metadata : M Metadata := fun w => (Ok (w_metadata w), w).
Definition put_metadata (md : Metadata) : M unit :=
  fun w => (Ok tt, mkWorld md (w_calls w) (w_log w)).
Definition logging (lvl : log_level) (msg : string) : M unit :=
  fun w => (Ok tt, mkWorld (w_metadata w) (w_calls w) (w_log w ++ [(lvl, msg)])).

(** [await f] applied to keyword arguments, on the controller instance of
    this request; the call is recorded. *)
Definition invoke (f : pyfunc) (kwargs : dict value) : M value :=
  fun w =>
    let '(r, md) := f_body f kwargs (w_metadata w) in
    (r, mkWorld md (w_calls w ++ [(f_name f, kwargs)]) (w_log w)).

(* ================================================================== *)
(** * base.py: BaseController.check_permission                         *)
(* ================================================================== *)

Definition AttributeError_exn (msg : string) : exn :=
  mkExn AttributeError msg (Some msg) "".
Definition TypeError_exn (msg : string) : exn :=
  mkExn TypeError msg (Some msg) "".

(** One of the two loops of [check_permission]: [Ok false] is the early
    [return False]; [self.context.user] is read at every iteration. *)
Fixpoint run_checks (user : option string) (request : HttpRequest)
    (cs : list check) : result bool :=
  match cs with
  | [] => Ok true
  | c :: cs' =>
      match user with
      | None => Raise (AttributeError_exn "user")
      | Some u =>
          let '(ok, err_msg) := c u request in
          if negb ok then Ok false else run_checks user request cs'
      end
  end.

Definition check_permission (c : controller) (request : HttpRequest)
  : result bool :=
  match run_checks (c_context_user c) request (PERMISSIONS c) with
  | Ok true => run_checks (c_context_user c) request (THROTTLERS c)
  | r => r
  end.

(* ================================================================== *)
(** * base.py: the dispatch engines                                    *)
(* ================================================================== *)

(** Responses of the HTTP substrate.  [HttpResponse(status, content)]
    carries the default content type; [JsonResponse(data, safe)] refuses a
    non-dict when [safe] holds. *)
Definition HttpResponse_ (status : Z) (content : string) : HttpResponse :=
  mkResponse status content [("Content-Type", "text/html; charset=utf-8")].

Definition HttpResponseBadRequest (content : string) : HttpResponse :=
  HttpResponse_ 400 content.

(** The verbs an endpoint has methods for, as the substrate lists them. *)
Definition allowed_methods : string := "GET, POST, PUT, DELETE, HEAD, OPTIONS".

Definition HttpResponseNotAllowed : HttpResponse :=
  mkResponse 405 "" [("Content-Type", "text/html; charset=utf-8");
                     ("Allow", allowed_methods)].

(** [View.options] of the substrate. *)
Definition options_response : HttpResponse :=
  mkResponse 200 "" [("Content-Type", "text/html; charset=utf-8");
                     ("Allow", allowed_methods); ("Content-Length", "0")].

Definition with_status (st : Z) (r : HttpResponse) : HttpResponse :=
  mkResponse st (content r) (headers r).

(** [resp.headers[k] = v]: header names compare case-insensitively. *)
Fixpoint set_header_in (k v : string) (hs : list (string * string))
  : list (string * string) :=
  match hs with
  | [] => [(k, v)]
  | (k', v') :: hs' =>
      if String.eqb (PyStr.lower k) (PyStr.lower k')
      then (k, v) :: hs'
      else (k', v') :: set_header_in k v hs'
  end.

Definition set_header (k v : string) (r : HttpResponse) : HttpResponse :=
  mkResponse (status_code r) (content r) (set_header_in k v (headers r)).

Fixpoint get_header_in (k : string) (hs : list (string * string))
  : option string :=
  match hs with
  | [] => None
  | (k', v') :: hs' =>
      if String.eqb (PyStr.lower k) (PyStr.lower k')
      then Some v' else get_header_in k hs'
  end.

Definition get_header (k : string) (r : HttpResponse) : option string :=
  get_header_in k (headers r).

Definition is_dict (j : json) : bool :=
  match j with JObj _ => true | _ => false end.

Definition isSome {A} (o : option A) : bool :=
  match o with Some _ => true | None => false end.

(** Truth value of an optional string and of an optional integer. *)
Definition truthy_str (o : option string) : bool :=
  match o with Some s => negb (String.eqb s "") | None => false end.
Definition truthy_int (o : option Z) : bool :=
  match o with Some z => negb (Z.eqb z 0) | None => false end.

(** [item.model_dump(mode='json')]: only model instances have it. *)
Definition model_dump (v : value) : result json :=
  match v with
  | VInst i => Ok (JObj (inst_dump i))
  | _ => Raise (AttributeError_exn "model_dump")
  end.

(** [isinstance(val, list) and len(val) == 1], giving [val[0]]. *)
Definition single_item (val : value) : option value :=
  match val with
  | VList [x] => Some x
  | _ => None
  end.

(** [dict(request.GET)]: every query name with the list of its values. *)
Definition _extra_params (request : HttpRequest) : dict value :=
  map (fun kv => (fst kv, VList (map VStr (snd kv)))) (GET request).

Definition _restore_bound_method (meth : pyfunc) : pyfunc :=
  mkFunc (f_name meth)
         [mkParam "args" VAR_POSITIONAL None false;
          mkParam "kwargs" VAR_KEYWORD None false]
         None (f_body meth).

Definition _get_controller_handler_spec (controller_handler : attr)
  : result argspec :=
  match controller_handler with
  | AAction m => Ok (getfullargspec (func m))
  | AFunc f => Ok (getfullargspec f)
  | AOther _ => Raise (TypeError_exn "unsupported callable")
  end.

Inductive transport_kind := Single | Many.

(** A generated endpoint class: [create_type_for] fixes the controller and
    the verb map. *)
Record view_cls := mkView {
  v_kind : transport_kind;
  Controller : controller;
  METHOD_MAP : dict string
}.

Definition default_METHOD_MAP (k : transport_kind) : dict string :=
  match k with
  | Single => [("get", "get_one"); ("put", "update_one");
               ("delete", "delete_one")]
  | Many => [("get", "get_many"); ("put", "update_many");
             ("delete", "delete_many")]
  end.

Definition create_type_for (k : transport_kind) (c : controller)
    (method_map : option (dict string)) : view_cls :=
  mkView k c (or_default list_empty method_map (default_METHOD_MAP k)).

Section Engine.

Variable rt : runtime.

Definition JsonResponse (data : json) (safe : bool) : result HttpResponse :=
  if safe && negb (is_dict data)
  then Raise (TypeError_exn "In order to allow non-dict objects to be serialized set the safe parameter to False.")
  else Ok (mkResponse 200 (json_dumps rt data)
                      [("Content-Type", "application/json")]).

(** The loop of [_clean_args], [ret] being the dictionary built so far. *)
Fixpoint _clean_args_loop (spec : argspec) (items ret : dict value)
  : result (dict value) :=
  match items with
  | [] => Ok ret
  | (name, val) :: rest =>
      match dget name (spec_annotations spec) with
      | Some typ =>
          let typ_is_generic := negb (is_Any typ) && isSome (get_origin typ) in
          match single_item val with
          | Some val0 =>
              if negb (is_Any typ) && negb typ_is_generic
                 && negb (isinstance rt val typ)
              then match construct rt typ val0 with
                   | Ok v => _clean_args_loop spec rest (dset name v ret)
                   | Raise e => Raise e
                   end
              else
                let v := match construct rt typ val with
                         | Ok v => v
                         | Raise _ => val
                         end in
                _clean_args_loop spec rest (dset name v ret)
          | None =>
              let v := match construct rt typ val with
                       | Ok v => v
                       | Raise _ => val
                       end in
              _clean_args_loop spec rest (dset name v ret)
          end
      | None =>
          match spec_varkw spec with
          | Some _ =>
              let v := match single_item val with
                       | Some val0 => val0
                       | None => val
                       end in
              _clean_args_loop spec rest (dset name v ret)
          | None => _clean_args_loop spec rest ret
          end
      end
  end.

Definition _clean_args (handler : pyfunc) (kwargs : dict value)
  : result (dict value) :=
  _clean_args_loop (getfullargspec handler) kwargs [].

(** The callable the transports end up with: an action is re-bound to the
    controller instance, a plain attribute is used as it is. *)
Definition callable_of (handler : attr) : result pyfunc :=
  match handler with
  | AAction m => Ok (_restore_bound_method (func m))
  | AFunc f => Ok f
  | AOther _ => Raise (TypeError_exn "unsupported callable")
  end.

(** The [except Exception as e] clause of the transports; [before_raise]
    is what happens before the bare [raise] (the collection engine logs). *)
Definition on_exception (before_raise : M unit) (e : exn)
  : M (HttpResponse + value) :=
  if is_ValidationError e
  then ret (inl (HttpResponse_ 400 (exn_errors e)))
  else if is_ValueError e
  then ret (inl (HttpResponse_ 400 (match exn_arg0 e with
                                    | Some msg => msg
                                    | None => ""
                                    end)))
  else before_raise;;; raise e.

(** Header overrides taken from the controller's metadata. *)
Definition override_content (md : Metadata) (resp : HttpResponse)
  : HttpResponse :=
  let resp :=
    if truthy_str (content_type_override md)
    then set_header "Content-Type"
           (match content_type_override md with Some s => s | None => "" end)
           resp
    else resp in
  if truthy_str (content_name md)
  then set_header "Content-Disposition"
         (match content_name md with Some s => s | None => "" end) resp
  else resp.

Definition override_total_count (md : Metadata) (resp : HttpResponse)
  : HttpResponse :=
  if truthy_int (total_count md)
  then set_header "X-Total-Count"
         (match total_count md with
          | Some n => PyStr.of_Z n
          | None => ""
          end) resp
  else resp.

Definition overrides (k : transport_kind) (md : Metadata)
    (resp : HttpResponse) : HttpResponse :=
  match k with
  | Single => override_content md resp
  | Many => override_content md (override_total_count md resp)
  end.

(** ** SingleResourceAsyncHttpTransport.transport *)

(** Lines 384-403: encoding of the business result. *)
Definition encode_single (data : value) : M HttpResponse :=
  match data with
  | VNone => raise (Http404_exn "")
  | _ =>
      resp <- lift (match data with
                    | VResp r => Ok r
                    | VList items =>
                        rbind (rmap model_dump items)
                              (fun content => JsonResponse (JArr content) false)
                    | _ =>
                        rbind (model_dump data)
                              (fun content => JsonResponse content true)
                    end);;
      md <- get_metadata;;
      ret (override_content md resp)
  end.

(** Lines 341-357: the identity read from the path becomes [pk]. *)
Definition bind_pk (c : controller) (handler : attr) (resource : resource)
    (request : HttpRequest) (kwargs : dict value) : M (dict value) :=
  match dget (pk resource) kwargs with
  | None => raise (Http404_exn "Missing retrieve resource pk")
  | Some raw =>
      spec <- lift (_get_controller_handler_spec handler);;
      if existsb (String.eqb "pk") (spec_args spec)
      then
        match dget (pk resource) (Retrieve_model_fields resource) with
        | None =>
            logging CRITICAL ("<class '" ++ c_name c ++ "'>." ++ path request
                              ++ " empty pk filed metadata");;;
            ret (dset "pk" raw (dremove (pk resource) kwargs))
        | Some annotation =>
            match construct rt annotation raw with
            | Ok v => ret (dset "pk" v (dremove (pk resource) kwargs))
            | Raise e =>
                if is_ValueError e then raise (Http404_exn "") else raise e
            end
        end
      else ret kwargs
  end.

Definition transport_single (c : controller) (handler : attr)
    (resource : resource) (request : HttpRequest) (kwargs : dict value)
  : M HttpResponse :=
  kwargs <- bind_pk c handler resource request kwargs;;
  r <- try_except
         (ok <- lift (check_permission c request);;
          if negb ok then ret (inl (HttpResponse_ 403 ""))
          else
            handler <- lift (callable_of handler);;
            let extra := _extra_params request in
            extra <- lift (_clean_args handler extra);;
            let extra := dremove (pk resource) extra in
            data <- invoke handler (dmerge extra kwargs);;
            ret (inr data))
         (on_exception (ret tt));;
  match r with
  | inl resp => ret resp
  | inr data => encode_single data
  end.

(** ** ManyResourceAsyncHttpTransport.transport *)

(** Lines 444-463: encoding of the business result. *)
Definition encode_many (data : value) : M HttpResponse :=
  match data with
  | VNone => raise (Http404_exn "")
  | _ =>
      resp <- lift (match data with
                    | VResp r => Ok r
                    | VList items =>
                        rbind (rmap model_dump items)
                              (fun content => JsonResponse (JArr content) false)
                    | _ =>
                        rbind (model_dump data)
                              (fun content => JsonResponse content false)
                    end);;
      md <- get_metadata;;
      ret (override_content md (override_total_count md resp))
  end.

Definition transport_many (c : controller) (handler : attr)
    (resource : resource) (request : HttpRequest) (kwargs : dict value)
  : M HttpResponse :=
  let extra := _extra_params request in
  r <- try_except
         (ok <- lift (check_permission c request);;
          if negb ok then ret (inl (HttpResponse_ 403 ""))
          else
            handler <- lift (callable_of handler);;
            let kwargs := dmerge extra kwargs in
            kwargs <- lift (_clean_args handler kwargs);;
            data <- invoke handler kwargs;;
            ret (inr data))
         (on_exception (logging ERROR "Transport Exc"));;
  match r with
  | inl resp => ret resp
  | inr data => encode_many data
  end.

Definition transport (k : transport_kind) :=
  match k with
  | Single => transport_single
  | Many => transport_many
  end.

(** The encoding step of either engine, and the header overrides it
    applies. *)
Definition encode (k : transport_kind) : value -> M HttpResponse :=
  match k with
  | Single => encode_single
  | Many => encode_many
  end.

(** ** BaseAsyncHttpTransport: the verb methods *)

Definition _idempotent_method (k : transport_kind) (c : controller)
    (request : HttpRequest) (controller_handler : attr)
    (resource : resource) (model : option model) (kwargs : dict value)
  : M HttpResponse :=
  if negb (String.eqb (content_type request) "application/json")
     && negb (String.eqb (PyStr.lower (method request)) "delete")
  then ret (HttpResponseBadRequest
              ("Content Type " ++ content_type request ++ " not allowed !"))
  else
    let continue (kwargs : dict value) : M HttpResponse :=
      spec <- lift (_get_controller_handler_spec controller_handler);;
      transport k c controller_handler resource request kwargs in
    match model with
    | Some model =>
        if String.eqb (body request) ""
        then ret (HttpResponseBadRequest "Request has empty body !")
        else
          match
            rbind (json_loads rt (body request)) (fun payload =>
            rbind (match payload with
                   | JArr items =>
                       rbind (rmap (fun item =>
                                      rbind (model_validate rt model item true)
                                            (fun i => Ok (VInst i))) items)
                             (fun data => Ok (VList data))
                   | _ =>
                       rbind (model_validate rt model payload true)
                             (fun i => Ok (VInst i))
                   end) (fun data =>
            Ok (dset "data" data kwargs)))
          with
          | Ok kwargs => continue kwargs
          | Raise e =>
              if is_ValueError e
              then ret (HttpResponseBadRequest (exn_str e))
              else raise e
          end
    | None => continue kwargs
    end.

Definition get (k : transport_kind) (c : controller) (request : HttpRequest)
    (controller_handler : attr) (resource : resource) (kwargs : dict value)
  : M HttpResponse :=
  let extra := _extra_params request in
  transport k c controller_handler resource request (dmerge extra kwargs).

Definition post (k : transport_kind) (c : controller) (request : HttpRequest)
    (controller_handler : attr) (resource : resource) (kwargs : dict value)
  : M HttpResponse :=
  resp <- _idempotent_method k c request controller_handler resource
            (Some (Create resource)) kwargs;;
  if Z.eqb (status_code resp) 200 then ret (with_status 201 resp)
  else ret resp.

Definition put (k : transport_kind) (c : controller) (request : HttpRequest)
    (controller_handler : attr) (resource : resource) (kwargs : dict value)
  : M HttpResponse :=
  _idempotent_method k c request controller_handler resource
    (Some (Update resource)) kwargs.

Definition delete (k : transport_kind) (c : controller)
    (request : HttpRequest) (controller_handler : attr)
    (resource : resource) (kwargs : dict value) : M HttpResponse :=
  resp <- _idempotent_method k c request controller_handler resource
            None kwargs;;
  if Z.eqb (status_code resp) 200 then ret (with_status 204 resp)
  else ret resp.

(** ** Operation lookup and dispatch *)

(** [BaseAsyncHttpTransport._get_controller_method]. *)
Definition _get_controller_method_base (v : view_cls)
    (request : HttpRequest) : option string :=
  let method := PyStr.lower (method request) in
  dget method (METHOD_MAP v).

(** [ManyResourceAsyncHttpTransport._get_controller_method]: a response, or
    the name of the operation (if any). *)
Definition _get_controller_method_many (v : view_cls)
    (request : HttpRequest) : result (HttpResponse + option string) :=
  if String.eqb (PyStr.lower (method request)) "post" then
    if String.eqb (content_type request) "application/json" then
      if String.eqb (body request) ""
      then Ok (inl (HttpResponseBadRequest "Request has empty body !"))
      else
        match json_loads rt (body request) with
        | Ok data =>
            let controller_method := _get_controller_method_base v request in
            let controller_method :=
              match controller_method with
              | None => "create_one"
              | Some m => m
              end in
            let controller_method :=
              if String.eqb controller_method "create_one"
                 && match data with JArr _ => true | _ => false end
              then "create_many" else controller_method in
            Ok (inr (Some controller_method))
        | Raise e =>
            if is_ValueError e
            then Ok (inl (HttpResponseBadRequest (exn_str e)))
            else Raise e
        end
    else Ok (inl (HttpResponseBadRequest
                    ("Content Type " ++ content_type request
                     ++ " not allowed !")))
  else Ok (inr (_get_controller_method_base v request)).

Definition _get_controller_method (v : view_cls) (request : HttpRequest)
  : result (HttpResponse + option string) :=
  match v_kind v with
  | Single => Ok (inr (_get_controller_method_base v request))
  | Many => _get_controller_method_many v request
  end.

(** [View.dispatch] of the substrate: the verb selects the method of the
    endpoint; [head] is served by [get], [options] by the substrate's own
    method, and a verb the endpoint has no method for is not allowed. *)
Definition View_dispatch (v : view_cls) (request : HttpRequest)
    (controller_handler : attr) (resource : resource) (kwargs : dict value)
  : M HttpResponse :=
  let c := Controller v in
  let verb := PyStr.lower (method request) in
  if String.eqb verb "get" || String.eqb verb "head"
  then get (v_kind v) c request controller_handler resource kwargs
  else if String.eqb verb "post"
  then post (v_kind v) c request controller_handler resource kwargs
  else if String.eqb verb "put"
  then put (v_kind v) c request controller_handler resource kwargs
  else if String.eqb verb "delete"
  then delete (v_kind v) c request controller_handler resource kwargs
  else if String.eqb verb "options" then ret options_response
  else ret HttpResponseNotAllowed.

(** [BaseAsyncHttpTransport.dispatch]; [kwargs] are the values captured
    from the path.  A fresh controller, hence a fresh [Metadata], serves
    the request. *)
Definition dispatch (v : view_cls) (request : HttpRequest)
    (kwargs : dict value) : M HttpResponse :=
  resp <- lift (_get_controller_method v request);;
  match resp with
  | inl resp => ret resp
  | inr controller_method =>
      match controller_method with
      | Some controller_method =>
          if negb (str_empty controller_method)
             && dmem controller_method (c_attrs (Controller v))
          then
            put_metadata Metadata_default;;;
            match dget (PyStr.lower controller_method)
                       (c_attrs (Controller v)) with
            | None => raise (AttributeError_exn
                               (PyStr.lower controller_method))
            | Some controller_handler =>
                let resource := c_Resource (Controller v) in
                let resource :=
                  match controller_handler with
                  | AAction m =>
                      match mm_resource m with
                      | Some r => r
                      | None => resource
                      end
                  | _ => resource
                  end in
                View_dispatch v request controller_handler resource kwargs
            end
          else ret HttpResponseNotAllowed
      | None => ret HttpResponseNotAllowed
      end
  end.

End Engine.

(* ================================================================== *)
(** * base.py: HttpRouter                                              *)
(* ================================================================== *)

Record PathConfig := mkPath {
  route : string;
  view : view_cls;
  name : string
}.

Record HttpRouter := mkRouter {
  _base_url : string;
  _routes : list PathConfig
}.

Definition strip_slash (s : string) : string :=
  if PyStr.startswith "/" s then PyStr.tail s else s.

(** [HttpRouter(base_url)]. *)
Definition HttpRouter_init (base_url : string) : HttpRouter :=
  mkRouter (strip_slash base_url) [].

Definition append (self router : HttpRouter) : HttpRouter :=
  mkRouter (_base_url self)
    (_routes self ++
     map (fun sub_route =>
            mkPath (_base_url self ++ "/" ++ route sub_route)
                   (view sub_route)
                   (_base_url self ++ "-" ++ name sub_route))
         (_routes router)).

(** The scan of [dir(controller)] for action markers. *)
Definition scan_mappings (c : controller) : list MethodMapping :=
  flat_map (fun kv =>
              if negb (PyStr.startswith "__" (fst kv))
              then match snd kv with
                   | AAction m => [m]
                   | _ => []
                   end
              else []) (c_attrs c).

Definition retrieve_pk_url (c : controller) : string :=
  "/<" ++ pk (c_Resource c) ++ ">".

(** The route of one action (the body of the loop over [mappings]). *)
Definition action_route (base_url url : string) (c : controller)
    (act_map : MethodMapping) : PathConfig :=
  if detail act_map
  then mkPath (base_url ++ "/" ++ url ++ retrieve_pk_url c ++ "/"
               ++ url_path act_map)
              (create_type_for Single c (Some (build_methods_map act_map)))
              (url ++ "-retrieve-" ++ func_name act_map)
  else mkPath (base_url ++ "/" ++ url ++ "/" ++ url_path act_map)
              (create_type_for Many c (Some (build_methods_map act_map)))
              (url ++ "-many-" ++ func_name act_map).

Definition basic_routes (base_url url : string) (c : controller)
  : list PathConfig :=
  [mkPath (base_url ++ "/" ++ url ++ retrieve_pk_url c)
          (create_type_for Single c None) (url ++ "-retrieve");
   mkPath (base_url ++ "/" ++ url)
          (create_type_for Many c None) (url ++ "-many")].

Definition register (self : HttpRouter) (url : string) (c : controller)
  : HttpRouter :=
  let url := strip_slash url in
  let mappings := scan_mappings c in
  let routes :=
    fold_left (fun routes act_map =>
                 (routes ++ [action_route (_base_url self) url c act_map])%list)
              mappings (_routes self) in
  mkRouter (_base_url self) (routes ++ basic_routes (_base_url self) url c).

(* ================================================================== *)
(** * swagger.py: the OpenAPI generator                                *)
(* ================================================================== *)

Definition _PRIMITIVE_MAP (p : prim) : json :=
  JObj [("type", JStr match p with
                      | Pstr => "string"
                      | Pint => "integer"
                      | Pfloat => "number"
                      | Pbool => "boolean"
                      | Pdict => "object"
                      | Plist => "array"
                      end)].

Definition _model_ref_name (m : model) : string := model_name m.

Definition schema_ref (m : model) : json :=
  JObj [("$ref", JStr ("#/components/schemas/" ++ _model_ref_name m))].

Definition is_NoneType (t : pytype) : bool :=
  match t with TNoneType => true | _ => false end.

Definition string_schema : json := JObj [("type", JStr "string")].

(** [_schema_from_type].  For a Union the schemas of the members other than
    [NoneType] are computed in order ([non_none]). *)
Fixpoint _schema_from_type (t : pytype) : json :=
  match t with
  | TAny | TNone => JObj []
  | TModel m => schema_ref m
  | TUnion [] => string_schema
  | TUnion args =>
      let non_none :=
        (fix schemas (l : list pytype) : list json :=
           match l with
           | [] => []
           | a :: l' =>
               if is_NoneType a then schemas l'
               else _schema_from_type a :: schemas l'
           end) args in
      match non_none with
      | [sch] =>
          if negb (Nat.eqb 1 (List.length args))
          then match sch with
               | JObj fields =>
                   if dmem "$ref" fields
                   then JObj [("allOf", JArr [sch]); ("nullable", JBool true)]
                   else JObj (dset "nullable" (JBool true) fields)
               | _ => sch
               end
          else JObj [("oneOf", JArr non_none)]
      | _ => JObj [("oneOf", JArr non_none)]
      end
  | TList [] => string_schema
  | TList (a :: _) =>
      JObj [("type", JStr "array"); ("items", _schema_from_type a)]
  | TDict _ => JObj [("type", JStr "object")]
  | TPrim p => _PRIMITIVE_MAP p
  | TNoneType | TOther _ => string_schema
  end.

(** [_pydantic_components]: nested definitions are added under their own
    names unless the name is taken; the model itself overwrites. *)
Definition _pydantic_components (models : list model) : json :=
  let schemas :=
    fold_left
      (fun (schemas : dict json) m =>
         let name := _model_ref_name m in
         let js := model_json_schema m in
         let defs := match js with
                     | JObj fields =>
                         match dget "$defs" fields with
                         | Some (JObj defs) => defs
                         | _ => []
                         end
                     | _ => []
                     end in
         let js := match js with
                   | JObj fields => JObj (dremove "$defs" fields)
                   | _ => js
                   end in
         let schemas :=
           fold_left (fun schemas kv => dsetdefault (fst kv) (snd kv) schemas)
                     defs schemas in
         dset name js schemas)
      models [] in
  JObj [("schemas", JObj schemas)].

Record _Operation := mkOp {
  op_method : string;
  op_controller : controller;
  op_handler_name : string;
  op_resource : resource;
  op_detail : bool
}.

(** [_dedupe_models]: first occurrence of each class, in order. *)
Fixpoint _dedupe_models_from (seen : list model) (models : list model)
  : list model :=
  match models with
  | [] => []
  | m :: models' =>
      if existsb (model_eqb m) seen then _dedupe_models_from seen models'
      else m :: _dedupe_models_from (m :: seen) models'
  end.

Definition _dedupe_models (models : list model) : list model :=
  _dedupe_models_from [] models.

(** [_collect_models_from_type], answering the models appended to [out]. *)
Fixpoint _collect_models_from_type (t : pytype) : list model :=
  match t with
  | TModel m => [m]
  | TUnion args =>
      (fix collect (l : list pytype) : list model :=
         match l with
         | [] => []
         | a :: l' =>
             if is_NoneType a then collect l'
             else (_collect_models_from_type a ++ collect l')%list
         end) args
  | TList (a :: _) => _collect_models_from_type a
  | _ => []
  end.

Definition _is_detail_route (route pk : string) : bool :=
  PyStr.contains ("/<" ++ pk ++ ">") route.

Definition _is_many_route (route pk : string) : bool :=
  negb (PyStr.contains ("/<" ++ pk ++ ">") route).

(** [hasattr(controller, name)]. *)
Definition hasattr (c : controller) (name : string) : bool :=
  dmem name (c_attrs c).

(** Truth value of [getattr(controller, name, None)]. *)
Definition attr_truthy (a : option attr) : bool :=
  match a with
  | Some (AOther b) => b
  | Some _ => true
  | None => false
  end.

(** The annotations of the [MethodMapping] class, which is what an action
    marker answers for [__annotations__]. *)
Definition MethodMapping_annotations : dict pytype :=
  [("methods", TList [TPrim Pstr]); ("detail", TPrim Pbool);
   ("url_path", TPrim Pstr); ("func", TOther "Callable");
   ("resource", TUnion [TOther "Type[BaseResource]"; TNoneType])].

(** [getattr(handler, "__annotations__", {})]. *)
Definition annotations_attr (a : option attr) : dict pytype :=
  match a with
  | Some (AFunc f) => annotations_of f
  | Some (AAction _) => MethodMapping_annotations
  | _ => []
  end.

Definition op_key := (string * string * string * bool)%type.

Definition op_key_eqb (a b : op_key) : bool :=
  let '(m1, c1, h1, d1) := a in
  let '(m2, c2, h2, d2) := b in
  String.eqb m1 m2 && String.eqb c1 c2 && String.eqb h1 h2 && Bool.eqb d1 d2.

Definition post_op (c : controller) : _Operation :=
  mkOp "POST" c "create_one" (c_Resource c) false.

(** The operations one route contributes, in order. *)
Definition route_operations (r : PathConfig) : list _Operation :=
  let view_cls := view r in
  let controller := Controller view_cls in
  let resource := c_Resource controller in
  map (fun kv => mkOp (PyStr.upper (fst kv)) controller (snd kv) resource
                      (_is_detail_route (route r) (pk resource)))
      (METHOD_MAP view_cls)
  ++ (if _is_many_route (route r) (pk resource)
         && (hasattr controller "create_one"
             || hasattr controller "create_many")
      then [post_op controller] else []).

Definition _collect_operations (router : HttpRouter) : list _Operation :=
  let ops := flat_map route_operations (_routes router) in
  let uniq :=
    fold_left (fun uniq op =>
                 PyDict.set op_key_eqb
                   (op_method op, c_name (op_controller op),
                    op_handler_name op, op_detail op) op uniq)
              ops [] in
  PyDict.values uniq.

Definition _build_request_body (op : _Operation) : option json :=
  if String.eqb (op_method op) "PUT" then
    Some (JObj [("required", JBool true);
                ("content", JObj [("application/json",
                   JObj [("schema", schema_ref (Update (op_resource op)))])])])
  else if String.eqb (op_method op) "POST" then
    let create_ref := schema_ref (Create (op_resource op)) in
    Some (JObj [("required", JBool true);
                ("content", JObj [("application/json",
                   JObj [("schema",
                     JObj [("oneOf",
                       JArr [create_ref;
                             JObj [("type", JStr "array");
                                   ("items", create_ref)]])])])])])
  else None.

(** The schema [_build_responses] documents for status 200. *)
Definition response_schema (op : _Operation) (handler : option attr) : json :=
  let retrieve := schema_ref (Retrieve (op_resource op)) in
  match (if attr_truthy handler
         then dget "return" (annotations_attr handler) else None) with
  | Some t => _schema_from_type t
  | None =>
      if String.eqb (op_method op) "GET" then
        if op_detail op then retrieve
        else JObj [("type", JStr "array"); ("items", retrieve)]
      else if String.eqb (op_method op) "POST" then
        JObj [("oneOf", JArr [retrieve;
                              JObj [("type", JStr "array");
                                    ("items", retrieve)]])]
      else if String.eqb (op_method op) "PUT" then retrieve
      else JObj []
  end.

Definition _build_responses (op : _Operation) (handler : option attr) : json :=
  JObj [("200", JObj [("description", JStr "OK");
                      ("content", JObj [("application/json",
                         JObj [("schema", response_schema op handler)])])]);
        ("400", JObj [("description", JStr "Bad Request")]);
        ("403", JObj [("description", JStr "Forbidden")]);
        ("404", JObj [("description", JStr "Not Found")]);
        ("429", JObj [("description", JStr "Too Many Requests")])].

Definition is_empty_obj (j : json) : bool :=
  match j with JObj [] => true | _ => false end.

Definition query_parameter (p : param) : json :=
  let ann := match p_annotation p with Some t => t | None => TPrim Pstr end in
  let schema := _schema_from_type ann in
  JObj [("name", JStr (p_name p)); ("in", JStr "query");
        ("required", JBool (negb (p_has_default p)));
        ("schema", if is_empty_obj schema then string_schema else schema)].

Definition _build_parameters (path_str : string) (op : _Operation)
    (handler : option attr) : result (list json) :=
  let pk := pk (op_resource op) in
  let params :=
    if op_detail op && PyStr.contains ("{" ++ pk ++ "}") path_str
    then [JObj [("name", JStr pk); ("in", JStr "path");
                ("required", JBool true); ("schema", string_schema)]]
    else [] in
  if attr_truthy handler then
    let handler :=
      match handler with
      | Some (AAction m) => Some (func m)
      | Some (AFunc f) => Some f
      | _ => None
      end in
    match handler with
    | None => Raise (TypeError_exn "is not a callable object")
    | Some f =>
        Ok (params ++
            map query_parameter
              (filter (fun p =>
                         negb (String.eqb (p_name p) "self"
                               || String.eqb (p_name p) pk
                               || String.eqb (p_name p) "data")
                         && negb (is_kind VAR_KEYWORD p
                                  || is_kind VAR_POSITIONAL p))
                      (f_params f)))%list
    end
  else Ok params.

Definition _build_operation (path_str : string) (op : _Operation)
  : result json :=
  let ctrl := op_controller op in
  let handler := dget (op_handler_name op) (c_attrs ctrl) in
  let summary := (c_name ctrl ++ "." ++ op_handler_name op)%string in
  let tags := [JStr (c_name ctrl)] in
  rbind (_build_parameters path_str op handler) (fun parameters =>
  let request_body := _build_request_body op in
  let responses := _build_responses op handler in
  let operation :=
    [("summary", JStr summary); ("tags", JArr tags);
     ("parameters", JArr parameters); ("responses", responses)] in
  Ok (JObj match request_body with
           | Some rb => dset "requestBody" rb operation
           | None => operation
           end)).

(** [by_path.setdefault(path, {})[verb] = op]. *)
Definition by_path_set (path_oa verb : string) (op : _Operation)
    (by_path : dict (dict _Operation)) : dict (dict _Operation) :=
  let by_path := dsetdefault path_oa [] by_path in
  match dget path_oa by_path with
  | Some methods => dset path_oa (dset verb op methods) by_path
  | None => by_path
  end.

(** What one route adds to [by_path] in [_build_paths]. *)
Definition route_by_path (by_path : dict (dict _Operation)) (r : PathConfig)
  : dict (dict _Operation) :=
  let raw := route r in
  let view_cls := view r in
  let controller := Controller view_cls in
  let resource := c_Resource controller in
  let path_oa := PyStr.replace ("/<" ++ pk resource ++ ">")
                               ("/{" ++ pk resource ++ "}") raw in
  let by_path :=
    fold_left
      (fun by_path kv =>
         let op := mkOp (PyStr.upper (fst kv)) controller (snd kv) resource
                        (_is_detail_route raw (pk resource)) in
         by_path_set path_oa (PyStr.lower (op_method op)) op by_path)
      (METHOD_MAP view_cls) by_path in
  if _is_many_route raw (pk resource)
     && (hasattr controller "create_one" || hasattr controller "create_many")
  then by_path_set path_oa "post" (post_op controller) by_path
  else by_path.

(** The OpenAPI item of one path: one operation per verb. *)
Fixpoint path_item (p : string) (methods : dict _Operation)
    (item : dict json) : result (dict json) :=
  match methods with
  | [] => Ok item
  | (m, op) :: methods' =>
      rbind (_build_operation p op) (fun o =>
      path_item p methods' (dset m o item))
  end.

Fixpoint paths_loop (by_path : dict (dict _Operation)) (paths : dict json)
  : result (dict json) :=
  match by_path with
  | [] => Ok paths
  | (p, methods) :: by_path' =>
      rbind (path_item p methods []) (fun item =>
      let api_path := if PyStr.startswith "/" p then p else ("/" ++ p)%string in
      paths_loop by_path' (dset api_path (JObj item) paths))
  end.

Definition _build_paths (router : HttpRouter) : result (dict json) :=
  let by_path := fold_left route_by_path (_routes router) [] in
  paths_loop by_path [].

(** The model list [build] gathers before deduplication. *)
Definition op_models (op : _Operation) : list model :=
  [Create (op_resource op); Update (op_resource op);
   Retrieve (op_resource op)]
  ++ (let handler := dget (op_handler_name op) (c_attrs (op_controller op)) in
      if attr_truthy handler
      then flat_map (fun kv => _collect_models_from_type (snd kv))
                    (annotations_attr handler)
      else []).

Definition build_models (router : HttpRouter) : list model :=
  flat_map op_models (_collect_operations router).

(** [OpenAPIGenerator(router, title, version).build()]. *)
Definition build (router : HttpRouter) (title version : string)
  : result json :=
  let components := _pydantic_components (_dedupe_models (build_models router)) in
  rbind (_build_paths router) (fun paths =>
  Ok (JObj [("openapi", JStr "3.0.3");
            ("info", JObj [("title", JStr title); ("version", JStr version)]);
            ("paths", JObj paths);
            ("components", components)])).

(** [OpenAPIGenerator(router, title, version)]. *)
Record OpenAPIGenerator := mkGenerator {
  g_router : HttpRouter;
  g_title : string;
  g_version : string
}.

(** [OpenAPIJsonView.get]: the document, served with [safe=True]. *)
Definition OpenAPIJsonView_get (rt : runtime) (generator : OpenAPIGenerator)
    (request : HttpRequest) : result HttpResponse :=
  rbind (build (g_router generator) (g_title generator) (g_version generator))
        (fun schema => JsonResponse rt schema true).

(** [s.rstrip(c)] for a single character [c]. *)
Fixpoint rstrip (c : ascii) (s : string) : string :=
  match s with
  | EmptyString => EmptyString
  | String a s' =>
      match rstrip c s' with
      | EmptyString => if Ascii.eqb a c then EmptyString
                       else String a EmptyString
      | rest => String a rest
      end
  end.

Record SwaggerRouter := mkSwagger {
  s_router : HttpRouter;
  s_title : string;
  s_version : string;
  s_base_url : string
}.

(** [SwaggerRouter(router, title, version, base_url)]. *)
Definition SwaggerRouter_init (router : HttpRouter) (title version : string)
    (base_url : string) : SwaggerRouter :=
  mkSwagger router title version (rstrip "/" base_url).

(** What [SwaggerRouter.urls] attaches to the two views: the generator of
    the document endpoint and the [schema_url] of the documentation page. *)
Definition urls_generator (self : SwaggerRouter) : OpenAPIGenerator :=
  mkGenerator (s_router self) (s_title self) (s_version self).

Definition schema_url (self : SwaggerRouter) : string :=
  if negb (str_empty (s_base_url self))
  then s_base_url self ++ "/openapi.json"
  else "/openapi.json".

(* ================================================================== *)
(** * Vocabulary of the properties                                    *)
(* ================================================================== *)

Definition json_headers : list (string * string) :=
  [("Content-Type", "application/json")].

(** The [X-Total-Count] header a response carries before the engine looks
    at the metadata: only a raw response can have one. *)
Definition own_total_count (data : value) : option string :=
  match data with
  | VResp r => get_header "X-Total-Count" r
  | _ => None
  end.

Definition is_array (j : json) : bool :=
  match j with JArr _ => true | _ => false end.

(** The verdict of one check. *)
Definition passes (u : string) (request : HttpRequest) (chk : check) : bool :=
  fst (chk u request).

(** Computations that make no business call. *)
Definition keeps_calls {A} (m : M A) : Prop :=
  forall w, w_calls (snd (m w)) = w_calls w.

(** What [_clean_args] keeps for one item, if it keeps anything. *)
Definition clean_item (rt : runtime) (spec : argspec) (name : string)
    (val : value) : result (option value) :=
  rbind (_clean_args_loop rt spec [(name, val)] [])
        (fun one => Ok (dget name one)).

(** The payload as [_idempotent_method] validates it. *)
Definition validated (rt : runtime) (m : model) (payload : json)
  : result value :=
  match payload with
  | JArr items =>
      rbind (rmap (fun item => model_validate rt m item true) items)
            (fun insts => Ok (VList (map VInst insts)))
  | _ => rbind (model_validate rt m payload true) (fun i => Ok (VInst i))
  end.

(** Occurrence of a character in a string. *)
Fixpoint has_char (c : ascii) (s : string) : bool :=
  match s with
  | EmptyString => false
  | String a s' => Ascii.eqb c a || has_char c s'
  end.

(** Navigation in a JSON document. *)
Definition jget (k : string) (j : json) : option json :=
  match j with
  | JObj fields => dget k fields
  | _ => None
  end.

Fixpoint jpath (ks : list string) (j : json) : option json :=
  match ks with
  | [] => Some j
  | k :: ks' =>
      match jget k j with
      | Some j' => jpath ks' j'
      | None => None
      end
  end.

(** The nested definitions of a model's JSON schema and the schema without
    them, as [_pydantic_components] splits it. *)
Definition model_defs (m : model) : dict json :=
  match model_json_schema m with
  | JObj fields =>
      match dget "$defs" fields with
      | Some (JObj defs) => defs
      | _ => []
      end
  | _ => []
  end.

Definition own_schema (m : model) : json :=
  match model_json_schema m with
  | JObj fields => JObj (dremove "$defs" fields)
  | _ => model_json_schema m
  end.

Definition add_model (schemas : dict json) (m : model) : dict json :=
  dset (_model_ref_name m) (own_schema m)
       (fold_left (fun schemas kv => dsetdefault (fst kv) (snd kv) schemas)
                  (model_defs m) schemas).

(** The last model of a list that bears a given [__name__]. *)
Definition last_named (name : string) (models : list model) : option model :=
  find (fun m => String.eqb name (model_name m)) (rev models).

(** Identifiers stand for class objects: equal identifiers, same model. *)
Definition ident_sound (models : list model) : Prop :=
  forall m1 m2, In m1 models -> In m2 models ->
                model_ident m1 = model_ident m2 -> m1 = m2.

(** The OpenAPI path of a route, and the key it gets in [paths]. *)
Definition path_oa_of (r : PathConfig) : string :=
  let pk := pk (c_Resource (Controller (view r))) in
  PyStr.replace ("/<" ++ pk ++ ">") ("/{" ++ pk ++ "}") (route r).

Definition api_path (p : string) : string :=
  if PyStr.startswith "/" p then p else "/" ++ p.

(** Keys are unique in [by_path] and in each of its verb maps. *)
Definition wf_by_path (by_path : dict (dict _Operation)) : Prop :=
  NoDup (map fst by_path)
  /\ Forall (fun methods => NoDup (map fst methods)) (map snd by_path).

(** Every route of the router lies under its base path. *)
Definition well_prefixed (router : HttpRouter) : Prop :=
  forall r, In r (_routes router) ->
            exists rest, route r = _base_url router ++ "/" ++ rest.

(** The return annotation [_build_responses] goes by, if any. *)
Definition return_annotation (handler : option attr) : option pytype :=
  if attr_truthy handler then dget "return" (annotations_attr handler)
  else None.

(** A value with a one-element list unwrapped. *)
Definition unwrap (val : value) : value :=
  match single_item val with
  | Some val0 => val0
  | None => val
  end.

(** Values that have [model_dump]. *)
Definition is_instance (v : value) : bool :=
  match v with VInst _ => true | _ => false end.

(** The header a business result carries before the engine looks at the
    metadata: a raw response has its own, an encoded one the JSON content
    type alone. *)
Definition own_header (name : string) (data : value) : option string :=
  match data with
  | VResp r => get_header name r
  | _ => get_header_in name json_headers
  end.

(** No key of [d] is one of [names].  Python refuses a call that spreads
    [d] as keyword arguments next to parameters of these names. *)
Definition no_key_in {V} (names : list string) (d : dict V) : bool :=
  forallb (fun kv => negb (existsb (String.eqb (fst kv)) names)) d.

(** The parameters the engine passes by itself where it spreads the query
    and path values as keyword arguments. *)
Definition engine_parameters : list string :=
  ["self"; "cls"; "handler"; "resource"; "request"; "context"].

(** Computations whose outcome and metadata are settled by the metadata
    they start from, whatever calls were made and logged before. *)
Definition metadata_led {A} (m : M A) : Prop :=
  forall w1 w2,
    w_metadata w1 = w_metadata w2 ->
    fst (m w1) = fst (m w2)
    /\ w_metadata (snd (m w1)) = w_metadata (snd (m w2)).

(** Routers made with the constructor, [register] and [append]. *)
Inductive built : HttpRouter -> Prop :=
| built_init (base_url : string) : built (HttpRouter_init base_url)
| built_register (self : HttpRouter) (url : string) (c : controller) :
    built self -> built (register self url c)
| built_append (self router : HttpRouter) :
    built self -> built router -> built (append self router).

(** The key [_collect_operations] deduplicates by. *)
Definition op_key_of (op : _Operation) : op_key :=
  (op_method op, c_name (op_controller op), op_handler_name op, op_detail op).

(** The [$ref] targets that occur in a JSON value. *)
Fixpoint refs (j : json) : list string :=
  match j with
  | JObj fields =>
      (fix in_fields (l : list (string * json)) : list string :=
         match l with
         | [] => []
         | (k, v) :: l' =>
             (match v with
              | JStr s => if String.eqb k "$ref" then [s] else []
              | _ => refs v
              end ++ in_fields l')%list
         end) fields
  | JArr items =>
      (fix in_items (l : list json) : list string :=
         match l with
         | [] => []
         | v :: l' => (refs v ++ in_items l')%list
         end) items
  | _ => []
  end.

(** The last character of a string. *)
Fixpoint last_char (s : string) : option ascii :=
  match s with
  | EmptyString => None
  | String a EmptyString => Some a
  | String _ s' => last_char s'
  end.

(** [n] slashes. *)
Fixpoint slashes (n : nat) : string :=
  match n with
  | O => EmptyString
  | S n' => String "/" (slashes n')
  end.

(** The target of the reference to a model. *)
Definition ref_target (m : model) : string :=
  "#/components/schemas/" ++ _model_ref_name m.

(** What a schema of [_schema_from_type] looks like: an object whose
    [nullable], if any, is [true], holding the references of the models
    collected from the type. *)
Definition shaped (t : pytype) : Prop :=
  exists fields,
    _schema_from_type t = JObj fields
    /\ (dget "nullable" fields = None
        \/ dget "nullable" fields = Some (JBool true))
    /\ refs (JObj fields) = map ref_target (_collect_models_from_type t).

(** Operations whose handler the generator can inspect: a function, an
    action, a false attribute or none at all. *)
Definition inspectable (op : _Operation) : Prop :=
  dget (op_handler_name op) (c_attrs (op_controller op))
  <> Some (AOther true).

(** Every operation filed in [by_path] satisfies [Q]. *)
Definition all_ops (Q : _Operation -> Prop) (B : dict (dict _Operation))
  : Prop :=
  Forall (fun ms => Forall Q (map snd ms)) (map snd B).

(** The [$ref] targets of an optional part of a document. *)
Definition refs_of (o : option json) : list string :=
  match o with
  | Some j => refs j
  | None => []
  end.

(** Controllers stand for classes: among the routes of a router, equal
    class names, same controller. *)
Definition names_sound (router : HttpRouter) : Prop :=
  forall r1 r2,
    In r1 (_routes router) -> In r2 (_routes router) ->
    c_name (Controller (view r1)) = c_name (Controller (view r2)) ->
    Controller (view r1) = Controller (view r2).

(** Whether [_clean_args] has a place for [name]: the handler annotates
    it or has a catch-all keyword parameter. *)
Definition kept (spec : argspec) (name : string) : Prop :=
  dmem name (spec_annotations spec) = true \/ spec_varkw spec <> None.

(* ================================================================== *)
(** * A concrete runtime                                               *)
(* ================================================================== *)

(** An executable instance of [runtime], used to run the engine on
    concrete requests.  It follows CPython and the libraries on the inputs
    used in this file: [int], [str], [bool], [list] and subscripted [List]
    called on strings, integers and lists of them; every other call of a
    type object answers [TypeError]. *)
Module Demo.

Definition digit_of (c : ascii) : option Z :=
  let n := nat_of_ascii c in
  if (48 <=? n)%nat && (n <=? 57)%nat then Some (Z.of_nat (n - 48)) else None.

Fixpoint parse_digits (acc : Z) (s : string) : option Z :=
  match s with
  | EmptyString => Some acc
  | String c s' =>
      match digit_of c with
      | Some d => parse_digits (acc * 10 + d) s'
      | None => None
      end
  end.

(** [int(s)] on an optional sign followed by ASCII digits. *)
Definition int_of_str (s : string) : option Z :=
  match s with
  | EmptyString => None
  | String "-" (String _ _ as s') => option_map Z.opp (parse_digits 0 s')
  | String "+" (String _ _ as s') => parse_digits 0 s'
  | String "-" _ | String "+" _ => None
  | _ => parse_digits 0 s
  end.

Fixpoint join (sep : string) (l : list string) : string :=
  match l with
  | [] => ""
  | [x] => x
  | x :: l' => x ++ sep ++ join sep l'
  end.

(** [repr(v)], for strings free of quotes and escapes. *)
Fixpoint repr (v : value) : string :=
  match v with
  | VNone => "None"
  | VBool true => "True"
  | VBool false => "False"
  | VInt z => PyStr.of_Z z
  | VStr s => "'" ++ s ++ "'"
  | VList items => "[" ++ join ", " (map repr items) ++ "]"
  | VInst i => "<" ++ inst_of i ++ ">"
  | VResp _ => "<HttpResponse>"
  end.

Definition truth (v : value) : bool :=
  match v with
  | VNone | VBool false | VInt 0%Z | VStr EmptyString | VList [] => false
  | _ => true
  end.

Definition ValueError_exn (msg : string) : exn :=
  mkExn ValueError msg (Some msg) "".

Definition construct (t : pytype) (v : value) : result value :=
  match t, v with
  | TPrim Pint, VStr s =>
      match int_of_str s with
      | Some z => Ok (VInt z)
      | None => Raise (ValueError_exn
                         ("invalid literal for int() with base 10: " ++ repr v))
      end
  | TPrim Pint, VInt z => Ok (VInt z)
  | TPrim Pint, VBool b => Ok (VInt (if b then 1 else 0))
  | TPrim Pstr, VStr s => Ok (VStr s)
  | TPrim Pstr, _ => Ok (VStr (repr v))
  | TPrim Pbool, _ => Ok (VBool (truth v))
  | TPrim Plist, VList items => Ok (VList items)
  | TList _, VList items => Ok (VList items)
  | _, _ => Raise (TypeError_exn "cannot be called with this argument")
  end.

Definition isinstance (v : value) (t : pytype) : bool :=
  match t, v with
  | TPrim Pstr, VStr _ => true
  | TPrim Pint, VInt _ => true
  | TPrim Pint, VBool _ => true
  | TPrim Pbool, VBool _ => true
  | TPrim Plist, VList _ => true
  | TModel m, VInst i => String.eqb (model_ident m) (inst_of i)
  | _, _ => false
  end.

Definition JSONDecodeError_exn : exn :=
  let msg := "Expecting value: line 1 column 1 (char 0)" in
  mkExn JSONDecodeError msg (Some msg) "".

(** [json.loads] on the request bodies used below; anything else here is
    text that does not start a JSON value. *)
Definition json_loads (s : string) : result json :=
  match dget s [("{}", JObj []); ("[]", JArr []);
                ("[{}]", JArr [JObj []]);
                ("[{}, {}]", JArr [JObj []; JObj []]);
                ("[{}, 5]", JArr [JObj []; JNum 5]);
                ("5", JNum 5)] with
  | Some j => Ok j
  | None => Raise JSONDecodeError_exn
  end.

Definition dq : string := String "034"%char "".

(** [json.dumps] for strings free of escapes. *)
Fixpoint json_dumps (j : json) : string :=
  match j with
  | JNull => "null"
  | JBool true => "true"
  | JBool false => "false"
  | JNum z => PyStr.of_Z z
  | JStr s => dq ++ s ++ dq
  | JArr items => "[" ++ join ", " (map json_dumps items) ++ "]"
  | JObj fields =>
      "{" ++ join ", " (map (fun kv => dq ++ fst kv ++ dq ++ ": "
                                       ++ json_dumps (snd kv)) fields) ++ "}"
  end.

Definition required_of (m : model) : list string :=
  match model_json_schema m with
  | JObj fields =>
      match dget "required" fields with
      | Some (JArr names) =>
          flat_map (fun n => match n with JStr s => [s] | _ => [] end) names
      | _ => []
      end
  | _ => []
  end.

Definition ValidationError_exn (field : string) : exn :=
  mkExn ValidationError ("1 validation error: " ++ field)
        (Some field) ("[{'type': 'missing', 'loc': ('" ++ field ++ "',)}]").

(** A validator that tolerates extra fields and demands the required ones
    of the schema. *)
Definition model_validate (m : model) (obj : json) (strict : bool)
  : result instance :=
  match obj with
  | JObj fields =>
      match find (fun n => negb (dmem n fields)) (required_of m) with
      | Some missing => Raise (ValidationError_exn missing)
      | None => Ok (mkInstance (model_ident m) fields)
      end
  | _ => Raise (ValidationError_exn "model_type")
  end.

Definition rt : runtime :=
  mkRuntime construct isinstance json_loads json_dumps model_validate.

End Demo.

(* ================================================================== *)
(** * sample.py: the sample resources and controller                   *)
(* ================================================================== *)

Module Sample.

Definition object_schema (title : string) (props : list (string * string))
    (required : list string) : json :=
  JObj [("additionalProperties", JBool true);
        ("properties",
         JObj (map (fun kv => (fst kv, JObj [("type", JStr (snd kv))])) props));
        ("required", JArr (map JStr required));
        ("title", JStr title); ("type", JStr "object")].

Definition BaseCreate : model :=
  mkModel "BaseResource.Create" "Create" (object_schema "Create" [] []).
Definition BaseUpdate : model :=
  mkModel "BaseResource.Update" "Update" (object_schema "Update" [] []).
Definition BaseRetrieve : model :=
  mkModel "BaseResource.Retrieve" "Retrieve" (object_schema "Retrieve" [] []).

Definition BaseResource : resource :=
  mkResource "id" BaseCreate BaseUpdate BaseRetrieve [].

Definition xy := [("x", "integer"); ("y", "string")].

Definition SampleCreate : model :=
  mkModel "SampleResource.Create" "Create"
          (object_schema "Create" xy ["x"; "y"]).
Definition SampleUpdate : model :=
  mkModel "SampleResource.Update" "Update"
          (object_schema "Update" xy ["x"; "y"]).
Definition SampleRetrieve : model :=
  mkModel "SampleResource.Retrieve" "Retrieve"
          (object_schema "Retrieve"
             (xy ++ [("id", "integer"); ("comment", "string")])
             ["x"; "y"; "id"]).

Definition SampleResource : resource :=
  mkResource "id" SampleCreate SampleUpdate SampleRetrieve
    [("x", TPrim Pint); ("y", TPrim Pstr); ("id", TPrim Pint);
     ("comment", TUnion [TPrim Pstr; TNoneType])].

Definition AlterCreate : model :=
  mkModel "AlterResource.Create" "Create"
          (object_schema "Create" [("z", "string")] ["z"]).
Definition AlterUpdate : model :=
  mkModel "AlterResource.Update" "Update"
          (object_schema "Update" [("z", "string")] ["z"]).
Definition AlterRetrieve : model :=
  mkModel "AlterResource.Retrieve" "Retrieve"
          (object_schema "Retrieve" [("z", "string"); ("id", "integer")]
             ["z"; "id"]).

Definition AlterResource : resource :=
  mkResource "id" AlterCreate AlterUpdate AlterRetrieve
    [("z", TPrim Pstr); ("id", TPrim Pint)].

Definition retrieve (id x : Z) (y : string) (comment : json) : instance :=
  mkInstance "SampleResource.Retrieve"
    [("x", JNum x); ("y", JStr y); ("id", JNum id); ("comment", comment)].

(** The class-level [storage] as the module defines it. *)
Definition storage : list (Z * instance) :=
  [(1%Z, retrieve 1 123 "value-1" JNull);
   (2%Z, retrieve 2 321 "value-2" JNull)].

Definition storage_get (pk : value) : value :=
  match pk with
  | VInt z =>
      match find (fun kv => Z.eqb (fst kv) z) storage with
      | Some kv => VInst (snd kv)
      | None => VNone
      end
  | _ => VNone
  end.

Definition self_ := mkParam "self" POSITIONAL_OR_KEYWORD None false.
Definition arg (n : string) (t : option pytype) (dflt : bool) :=
  mkParam n POSITIONAL_OR_KEYWORD t dflt.
Definition varkw (n : string) := mkParam n VAR_KEYWORD None false.

Definition pure_body (f : dict value -> result value)
  : dict value -> Metadata -> result value * Metadata :=
  fun kwargs md => (f kwargs, md).

Definition get_one : pyfunc :=
  mkFunc "get_one" [self_; arg "pk" (Some (TPrim Pint)) false; varkw "filters"]
         (Some (TUnion [TModel SampleRetrieve; TNoneType]))
         (pure_body (fun kw => match dget "pk" kw with
                               | Some pk => Ok (storage_get pk)
                               | None => Raise (TypeError_exn "pk")
                               end)).

Definition list_params :=
  [self_; arg "order_by" (Some TAny) true; arg "limit" (Some (TPrim Pint)) true;
   arg "offset" (Some TAny) true; varkw "filters"].

Definition get_many : pyfunc :=
  mkFunc "get_many" list_params (Some (TList [TModel SampleRetrieve]))
         (fun kw md =>
            let values := map (fun kv => VInst (snd kv)) storage in
            (Ok (VList values),
             mkMetadata (Some (Z.of_nat (List.length values)))
                        (content_type_override md) (content_name md))).

Definition new_resource (new_id : Z) (data : value) : result value :=
  match data with
  | VInst i =>
      Ok (VInst (mkInstance "SampleResource.Retrieve"
                            (dset "id" (JNum new_id) (inst_dump i))))
  | _ => Raise (AttributeError_exn "model_dump")
  end.

Definition create_one : pyfunc :=
  mkFunc "create_one"
         [self_; arg "data" (Some (TModel SampleCreate)) false; varkw "extra"]
         (Some (TModel SampleRetrieve))
         (pure_body (fun kw => match dget "data" kw with
                               | Some data => new_resource 3 data
                               | None => Raise (TypeError_exn "data")
                               end)).

Fixpoint create_all (next_id : Z) (items : list value) : result (list value) :=
  match items with
  | [] => Ok []
  | rec :: items' =>
      rbind (new_resource next_id rec) (fun r =>
      rbind (create_all (next_id + 1) items') (fun rs => Ok (r :: rs)))
  end.

Definition create_many : pyfunc :=
  mkFunc "create_many"
         [self_; arg "data" (Some (TList [TModel BaseCreate])) false;
          varkw "extra"]
         (Some (TList [TModel BaseRetrieve]))
         (pure_body (fun kw => match dget "data" kw with
                               | Some (VList items) =>
                                   rbind (create_all 3 items)
                                         (fun rs => Ok (VList rs))
                               | Some _ => Raise (TypeError_exn "not iterable")
                               | None => Raise (TypeError_exn "data")
                               end)).

Definition update_one : pyfunc :=
  mkFunc "update_one"
         [self_; arg "pk" (Some (TPrim Pint)) false;
          arg "data" (Some (TModel SampleUpdate)) false; varkw "extra"]
         (Some (TUnion [TModel SampleRetrieve; TNoneType]))
         (pure_body (fun kw =>
            match dget "pk" kw, dget "data" kw with
            | Some pk, Some (VInst d) =>
                match storage_get pk with
                | VInst r =>
                    Ok (VInst (mkInstance (inst_of r)
                                 (dmerge (inst_dump r) (inst_dump d))))
                | _ => Ok VNone
                end
            | _, _ => Raise (TypeError_exn "pk, data")
            end)).

Definition delete_one : pyfunc :=
  mkFunc "delete_one" [self_; arg "pk" (Some TAny) false; varkw "extra"]
         (Some (TUnion [TModel BaseRetrieve; TNoneType]))
         (pure_body (fun kw => match dget "pk" kw with
                               | Some pk => Ok (storage_get pk)
                               | None => Raise (TypeError_exn "pk")
                               end)).

Definition delete_many : pyfunc :=
  mkFunc "delete_many"
         [self_; arg "id" (Some (TList [TPrim Pint])) true; varkw "extra"]
         (Some (TList [TModel BaseRetrieve]))
         (pure_body (fun kw =>
            match dget "id" kw with
            | Some (VList ids) =>
                rbind (rmap (fun pk => rbind (Demo.construct (TPrim Pint) pk)
                                             (fun k => Ok (storage_get k))) ids)
                      (fun rs => Ok (VList (filter Demo.truth rs)))
            | _ => Ok (VList [])
            end)).

Definition detailed (name : string) : pyfunc :=
  mkFunc name [self_; arg "pk" None false; varkw "extra"]
         (Some (TUnion [TModel BaseRetrieve; TNoneType]))
         (pure_body (fun kw =>
            Ok (VInst (mkInstance "SampleResource.Retrieve"
                         [("x", JNum 0); ("y", JStr "0");
                          ("id", match dget "pk" kw with
                                 | Some (VInt z) => JNum z
                                 | Some (VStr s) => JStr s
                                 | _ => JNull
                                 end);
                          ("comment", JStr "detailed")])))).

Definition action_detail : MethodMapping :=
  action None true None None (detailed "action_detail").

Definition action_detail_all_methods : MethodMapping :=
  action (Some ["GET"; "POST"]) true (Some "all-methods") None
         (detailed "action_detail_all_methods").

Definition action_alter_resource : MethodMapping :=
  action None true (Some "alter-resource") (Some AlterResource)
         (mkFunc "action_alter_resource"
                 [self_; arg "pk" None false; varkw "extra"]
                 (Some (TUnion [TModel AlterRetrieve; TNoneType]))
                 (pure_body (fun _ =>
                    Ok (VInst (mkInstance "AlterResource.Retrieve"
                                 [("z", JStr "alter"); ("id", JNum 1)]))))).

Definition action_detail_many : MethodMapping :=
  action None false (Some "action-many") None
         (mkFunc "action_detail_many" list_params
                 (Some (TList [TModel SampleRetrieve]))
                 (pure_body (fun _ =>
                    Ok (VList [VInst (retrieve 1 0 "0" JNull)])))).

(** [dir(SampleController)], as far as the engine and the router look. *)
Definition sample_attrs : dict attr :=
  [("PERMISSIONS", AOther false); ("Resource", AOther true);
   ("THROTTLERS", AOther false); ("__doc__", AOther false);
   ("action_alter_resource", AAction action_alter_resource);
   ("action_detail", AAction action_detail);
   ("action_detail_all_methods", AAction action_detail_all_methods);
   ("action_detail_many", AAction action_detail_many);
   ("create_many", AFunc create_many); ("create_one", AFunc create_one);
   ("delete_many", AFunc delete_many); ("delete_one", AFunc delete_one);
   ("get_many", AFunc get_many); ("get_one", AFunc get_one);
   ("storage", AOther true); ("update_one", AFunc update_one)].

Definition SampleController : controller :=
  mkController "SampleController" SampleResource [] [] None sample_attrs.

(** The same controller behind a permission that always refuses, with a
    context that carries a user. *)
Definition denied : check := fun _ _ => (false, Some "denied").

Definition GuardedController : controller :=
  mkController "GuardedController" SampleResource [denied] [] (Some "anon")
               sample_attrs.

(** A handler with a string-typed parameter, an unannotated one and no
    catch-all: [search(self, name: str, tag)]. *)
Definition search : pyfunc :=
  mkFunc "search" [self_; arg "name" (Some (TPrim Pstr)) false;
                   arg "tag" None false]
         None (pure_body (fun _ => Ok (VList []))).

(** A collection action that takes POST:
    [@action(methods=['POST'], detail=False, url_path='import')]. *)
Definition import_items : MethodMapping :=
  action (Some ["POST"]) false (Some "import") None
         (mkFunc "import_items" [self_; varkw "extra"] None
                 (pure_body (fun _ => Ok (VList [])))).

Definition ImportController : controller :=
  mkController "ImportController" SampleResource [] [] None
               (sample_attrs ++ [("import_items", AAction import_items)])%list.

Definition import_view : view_cls :=
  view (action_route "api" "sample" ImportController import_items).

(** A collection action whose path suffix holds a placeholder:
    [@action(detail=False, url_path='<id>/export')]. *)
Definition export : MethodMapping :=
  action None false (Some "<id>/export") None
         (mkFunc "export" [self_; varkw "extra"] None
                 (pure_body (fun _ => Ok (VList [])))).

Definition ExportController : controller :=
  mkController "ExportController" SampleResource [] [] None
               [("export", AAction export); ("get_many", AFunc get_many);
                ("get_one", AFunc get_one)].

(** A resource whose identity is declared [Optional[int]], and its
    controller. *)
Definition OptionalIdResource : resource :=
  mkResource "id" SampleCreate SampleUpdate SampleRetrieve
    [("x", TPrim Pint); ("y", TPrim Pstr);
     ("id", TUnion [TPrim Pint; TNoneType])].

Definition OptionalIdController : controller :=
  mkController "OptionalIdController" OptionalIdResource [] [] None
               sample_attrs.

Definition router : HttpRouter :=
  register (HttpRouter_init "/api") "/sample" SampleController.

(** The OpenAPI document of the sample router. *)
Definition document : json :=
  match build router "API" "0.1.0" with
  | Ok doc => doc
  | Raise _ => JNull
  end.

Definition request (verb ctype body : string)
    (query : list (string * list string)) (path : string) : HttpRequest :=
  mkRequest verb ctype body query path.

Definition single (c : controller) : view_cls := create_type_for Single c None.
Definition many (c : controller) : view_cls := create_type_for Many c None.

End Sample.

(* ================================================================== *)
(** * sample.py: the business methods on the storage they share        *)
(* ================================================================== *)

(** [SampleController.storage] is a class attribute: one dictionary, from
    integer identities to Retrieve instances, that every request reads and
    updates in place.  Here each method takes the storage and answers the
    storage it leaves, also when it raises.  Identities are integers, as
    the engine binds them for a resource whose [id] is declared [int]. *)
Module Stored.

Definition Storage := list (Z * instance).

Section Methods.

(** What the methods take from pydantic and from the interpreter: the
    constructor call [Retrieve(id=new_id, **data.model_dump(mode='python'))],
    [resource.model_copy(update=data.model_dump())], and [int(pk)]. *)
Variable Retrieve_new : Z -> instance -> result instance.
Variable model_copy : instance -> instance -> instance.
Variable int_ : value -> result Z.

Definition get_one (pk : Z) (storage : Storage) : option instance :=
  PyDict.get Z.eqb pk storage.

(** [max(self.storage.keys())]; the text of the error is the interpreter's
    and varies with its version. *)
Definition max_key (storage : Storage) : result Z :=
  match storage with
  | [] => Raise (mkExn ValueError "max() arg is an empty sequence"
                       (Some "max() arg is an empty sequence") "")
  | (k, _) :: rest => Ok (fold_left Z.max (map fst rest) k)
  end.

Definition create_one (data : instance) (storage : Storage)
  : result instance * Storage :=
  match max_key storage with
  | Raise e => (Raise e, storage)
  | Ok max_id =>
      let new_id := (max_id + 1)%Z in
      match Retrieve_new new_id data with
      | Raise e => (Raise e, storage)
      | Ok new_resource =>
          (Ok new_resource, PyDict.set Z.eqb new_id new_resource storage)
      end
  end.

Fixpoint create_many (data : list instance) (storage : Storage)
  : result (list instance) * Storage :=
  match data with
  | [] => (Ok [], storage)
  | rec :: data' =>
      match create_one rec storage with
      | (Raise e, storage) => (Raise e, storage)
      | (Ok r, storage) =>
          match create_many data' storage with
          | (Raise e, storage) => (Raise e, storage)
          | (Ok res, storage) => (Ok (r :: res), storage)
          end
      end
  end.

(** A model instance is always true, so [if resource] tests for [None]. *)
Definition update_one (pk : Z) (data : instance) (storage : Storage)
  : option instance * Storage :=
  match PyDict.get Z.eqb pk storage with
  | Some resource =>
      let updated := model_copy resource data in
      (Some updated, PyDict.set Z.eqb pk updated storage)
  | None => (None, storage)
  end.

Definition delete_one (pk : Z) (storage : Storage)
  : option instance * Storage :=
  match PyDict.get Z.eqb pk storage with
  | Some resource => (Some resource, PyDict.remove Z.eqb pk storage)
  | None => (None, storage)
  end.

(** The loop of [delete_many]. *)
Fixpoint delete_each (id : list value) (storage : Storage)
  : result (list instance) * Storage :=
  match id with
  | [] => (Ok [], storage)
  | pk :: id' =>
      match int_ pk with
      | Raise e => (Raise e, storage)
      | Ok k =>
          let '(resource, storage) := delete_one k storage in
          match delete_each id' storage with
          | (Raise e, storage) => (Raise e, storage)
          | (Ok ret, storage) =>
              (Ok match resource with
                  | Some r => r :: ret
                  | None => ret
                  end, storage)
          end
      end
  end.

Definition delete_many (id : option (list value)) (storage : Storage)
  : result (list instance) * Storage :=
  match id with
  | None | Some [] => (Ok [], storage)
  | Some id => delete_each id storage
  end.

(** [get_many] also sets the total count of the controller's metadata. *)
Definition get_many (storage : Storage) (md : Metadata)
  : list instance * Metadata :=
  let values := PyDict.values storage in
  (values, mkMetadata (Some (Z.of_nat (List.length values)))
                      (content_type_override md) (content_name md)).

End Methods.

End Stored.

(* ================================================================== *)
(** * Further controllers                                              *)
(* ================================================================== *)

Module Fixtures.

(** A permission is configured, but the context class gives no [user]. *)
Definition NoUserController : controller :=
  mkController "NoUserController" Sample.SampleResource [Sample.denied] []
               None Sample.sample_attrs.

(** An action whose function name is not in lower case:
    [@action(detail=False, url_path='export')
     async def doExport(self, **extra)]. *)
Definition doExport : MethodMapping :=
  action None false (Some "export") None
         (mkFunc "doExport" [Sample.self_; Sample.varkw "extra"] None
                 (Sample.pure_body (fun _ => Ok (VList [])))).

Definition CamelController : controller :=
  mkController "CamelController" Sample.SampleResource [] [] None
               [("doExport", AAction doExport);
                ("get_many", AFunc Sample.get_many);
                ("get_one", AFunc Sample.get_one)].

Definition camel_view : view_cls :=
  view (action_route "api" "sample" CamelController doExport).

(** A single-entity handler with a typed query parameter:
    [async def get_one(self, pk: int, expand: bool = False)]. *)
Definition get_expanded : pyfunc :=
  mkFunc "get_one"
         [Sample.self_; Sample.arg "pk" (Some (TPrim Pint)) false;
          Sample.arg "expand" (Some (TPrim Pbool)) true]
         None
         (Sample.pure_body (fun kw => match dget "pk" kw with
                                      | Some pk => Ok (Sample.storage_get pk)
                                      | None => Raise (TypeError_exn "pk")
                                      end)).

Definition ExpandController : controller :=
  mkController "ExpandController" Sample.SampleResource [] [] None
               [("get_one", AFunc get_expanded)].

(** A resource whose schemas demand no field, with an integer identity,
    and a controller that updates it. *)
Definition OpenResource : resource :=
  mkResource "id" Sample.BaseCreate Sample.BaseUpdate Sample.BaseRetrieve
             [("id", TPrim Pint)].

Definition OpenController : controller :=
  mkController "OpenController" OpenResource [] [] None
               [("update_one", AFunc Sample.update_one)].

(** What the stored methods take from pydantic and the interpreter, for
    data made of an integer [x] and a string [y]. *)
Definition Retrieve_new (new_id : Z) (data : instance) : result instance :=
  match inst_dump data with
  | [("x", JNum x); ("y", JStr y)] => Ok (Sample.retrieve new_id x y JNull)
  | _ => Raise (Demo.ValidationError_exn "x")
  end.

Definition model_copy (resource data : instance) : instance :=
  mkInstance (inst_of resource) (dmerge (inst_dump resource) (inst_dump data)).

Definition int_ (pk : value) : result Z :=
  match Demo.construct (TPrim Pint) pk with
  | Ok (VInt z) => Ok z
  | Ok _ => Raise (TypeError_exn "int")
  | Raise e => Raise e
  end.

Definition xy (x : Z) (y : string) : instance :=
  mkInstance "SampleResource.Create" [("x", JNum x); ("y", JStr y)].

(** The listing operation of the sample document. *)
Definition sample_listing : json :=
  match jpath ["paths"; "/api/sample"; "get"] Sample.document with
  | Some o => o
  | None => JNull
  end.

(** The paths of the sample document. *)
Definition sample_paths : dict json :=
  match _build_paths Sample.router with
  | Ok paths => paths
  | Raise _ => []
  end.

End Fixtures.

(* ================================================================== *)
(** * Properties                                                       *)
(* ================================================================== *)

(** ** Dictionaries *)

Section DictFacts.

Context {V : Type}.

Lemma dget_dset_eq (k : string) (v : V) (d : dict V) :
  dget k (dset k v d) = Some v.
Proof.
  induction d as [|[k' v'] d IH]; simpl.
  - now rewrite String.eqb_refl.
  - destruct (String.eqb k k') eqn:E; simpl; rewrite E; auto.
Qed.

Lemma dget_dset_neq (k k' : string) (v : V) (d : dict V) :
  k <> k' -> dget k' (dset k v d) = dget k' d.
Proof.
  intros Hne. induction d as [|[k0 v0] d IH]; simpl.
  - destruct (String.eqb k' k) eqn:E; auto.
    apply String.eqb_eq in E; congruence.
  - destruct (String.eqb k k0) eqn:E; simpl.
    + apply String.eqb_eq in E; subst k0.
      destruct (String.eqb k' k) eqn:E'; auto.
      apply String.eqb_eq in E'; congruence.
    + destruct (String.eqb k' k0); auto.
Qed.

Lemma dset_keys_in (k k' : string) (v : V) (d : dict V) :
  In k' (map fst (dset k v d)) <-> k' = k \/ In k' (map fst d).
Proof.
  induction d as [|[k0 v0] d IH]; simpl.
  - intuition.
  - destruct (String.eqb k k0) eqn:E; simpl.
    + apply String.eqb_eq in E; subst k0. intuition.
    + rewrite IH. intuition.
Qed.

Lemma dset_NoDup (k : string) (v : V) (d : dict V) :
  NoDup (map fst d) -> NoDup (map fst (dset k v d)).
Proof.
  induction d as [|[k0 v0] d IH]; simpl; intros Hnd.
  - constructor; [intros [] | constructor].
  - inversion Hnd as [|? ? Hnotin Hnd']; subst.
    destruct (String.eqb k k0) eqn:E; simpl.
    + constructor; auto.
    + constructor; auto.
      rewrite dset_keys_in. intros [->|Hin]; auto.
      rewrite String.eqb_refl in E; discriminate.
Qed.

Lemma dget_None_notin (k : string) (d : dict V) :
  dget k d = None <-> ~ In k (map fst d).
Proof.
  induction d as [|[k0 v0] d IH]; simpl.
  - intuition.
  - destruct (String.eqb k k0) eqn:E.
    + apply String.eqb_eq in E; subst. split; [discriminate | intuition].
    + apply String.eqb_neq in E. rewrite IH. intuition.
Qed.

Lemma dget_In (k : string) (v : V) (d : dict V) :
  NoDup (map fst d) -> In (k, v) d -> dget k d = Some v.
Proof.
  induction d as [|[k0 v0] d IH]; simpl; intros Hnd Hin; [easy|].
  inversion Hnd as [|? ? Hnotin Hnd']; subst.
  destruct Hin as [Heq|Hin].
  - inversion Heq; subst. now rewrite String.eqb_refl.
  - destruct (String.eqb k k0) eqn:E; auto.
    apply String.eqb_eq in E; subst k0.
    exfalso; apply Hnotin. now apply (in_map fst) in Hin.
Qed.

End DictFacts.

(** ** Decimal text of an integer *)

Lemma of_Z_zero_inv (n : Z) : PyStr.of_Z n = "0" -> n = 0%Z.
Proof.
  unfold PyStr.of_Z. intros H.
  assert (Hz : Z.of_int (Z.to_int n) = n) by apply DecimalZ.of_to.
  destruct (Z.to_int n) as [d|d] eqn:Hd.
  - destruct d; simpl in H; try discriminate.
    + now rewrite <- Hz.
    + destruct d; simpl in H; try discriminate. now rewrite <- Hz.
  - simpl in H. discriminate.
Qed.

(** ** Encoding of the business result (lines 384-403 and 444-463) *)

Section EncodeFacts.

Variable rt : runtime.

Lemma rmap_model_dump (insts : list instance) :
  rmap model_dump (map VInst insts)
  = Ok (map (fun i => JObj (inst_dump i)) insts).
Proof.
  induction insts as [|i insts IH]; simpl; auto.
  now rewrite IH.
Qed.

Lemma overrides_default (k : transport_kind) (r : HttpResponse) :
  overrides k Metadata_default r = r.
Proof. destruct k; reflexivity. Qed.

Lemma overrides_status (k : transport_kind) (md : Metadata)
    (r : HttpResponse) :
  status_code (overrides k md r) = status_code r
  /\ content (overrides k md r) = content r.
Proof.
  destruct k; unfold overrides, override_content, override_total_count;
    repeat match goal with
           | |- context [if ?b then _ else _] => destruct b
           end; simpl; auto.
Qed.

Lemma encode_not_raw (k : transport_kind) (data : value) (w w' : world)
    (resp : HttpResponse) :
  (forall r, data <> VResp r) ->
  encode rt k data w = (Ok resp, w') ->
  exists j, resp = overrides k (w_metadata w)
                     (mkResponse 200 (json_dumps rt j) json_headers)
            /\ w' = w.
Proof.
  intros Hraw.
  destruct k; unfold encode, encode_single, encode_many, bind, lift, ret,
    raise, get_metadata, JsonResponse, rbind;
    destruct data as [| | | |items|i|r]; simpl;
    try discriminate; try (now destruct (Hraw r)).
  all: try (destruct (rmap model_dump items); try discriminate).
  all: intros H; inversion H; subst; eexists; split; reflexivity.
Qed.

End EncodeFacts.



(** ** Response headers *)

Lemma get_set_header_eq (k v : string) (hs : list (string * string)) :
  get_header_in k (set_header_in k v hs) = Some v.
Proof.
  induction hs as [|[k' v'] hs IH]; simpl.
  - now rewrite String.eqb_refl.
  - destruct (String.eqb (PyStr.lower k) (PyStr.lower k')) eqn:E; simpl.
    + now rewrite String.eqb_refl.
    + now rewrite E.
Qed.

Lemma get_set_header_neq (k k' v : string) (hs : list (string * string)) :
  String.eqb (PyStr.lower k) (PyStr.lower k') = false ->
  get_header_in k (set_header_in k' v hs) = get_header_in k hs.
Proof.
  intros Hne. induction hs as [|[k0 v0] hs IH]; simpl.
  - now rewrite Hne.
  - destruct (String.eqb (PyStr.lower k') (PyStr.lower k0)) eqn:E; simpl.
    + apply String.eqb_eq in E. rewrite <- E, Hne. reflexivity.
    + now rewrite IH.
Qed.

Lemma override_content_keeps (k : string) (md : Metadata)
    (r : HttpResponse) :
  String.eqb (PyStr.lower k) "content-type" = false ->
  String.eqb (PyStr.lower k) "content-disposition" = false ->
  get_header k (override_content md r) = get_header k r.
Proof.
  intros H1 H2. unfold override_content, get_header, set_header.
  destruct (truthy_str (content_type_override md));
    destruct (truthy_str (content_name md)); simpl;
    repeat rewrite get_set_header_neq; auto.
Qed.

Section ManyFacts.

Variable rt : runtime.

Lemma encode_many_total_count (data : value) (w w' : world)
    (resp : HttpResponse) :
  encode_many rt data w = (Ok resp, w') ->
  get_header "X-Total-Count" resp
  = if truthy_int (total_count (w_metadata w))
    then option_map PyStr.of_Z (total_count (w_metadata w))
    else own_total_count data.
Proof.
  unfold encode_many, bind, lift, ret, raise, get_metadata.
  destruct data as [| | | |items|i|r]; simpl; try discriminate.
  all: try (destruct (rmap model_dump items); simpl; try discriminate).
  all: intros H; injection H as <- <-.
  all: rewrite override_content_keeps by reflexivity.
  all: unfold override_total_count;
    destruct (total_count (w_metadata w)) as [n|]; simpl;
    [destruct (Z.eqb n 0); simpl|]; try reflexivity.
  all: unfold get_header, set_header; simpl;
    try apply get_set_header_eq; reflexivity.
Qed.

(** The course of the collection transport when the permission checks pass
    and the arguments are bound. *)
Lemma transport_many_run (c : controller) (handler : attr)
    (resource : resource) (request : HttpRequest) (kwargs : dict value)
    (w : world) (h : pyfunc) (kw : dict value) (data : value)
    (md' : Metadata) :
  check_permission c request = Ok true ->
  callable_of handler = Ok h ->
  _clean_args rt h (dmerge (_extra_params request) kwargs) = Ok kw ->
  f_body h kw (w_metadata w) = (Ok data, md') ->
  transport_many rt c handler resource request kwargs w
  = encode_many rt data
      (mkWorld md' (w_calls w ++ [(f_name h, kw)])%list (w_log w)).
Proof.
  intros Hp Hc Hk Hb.
  unfold transport_many, try_except, bind, lift, ret, invoke.
  rewrite Hp. simpl. rewrite Hc, Hk, Hb. reflexivity.
Qed.

End ManyFacts.



(** ** Verb methods *)



(** ** Body validation (lines 238-274) *)

Lemma rmap_validated {A} (f : A -> result instance) (items : list A) :
  rmap (fun item => rbind (f item) (fun i => Ok (VInst i))) items
  = rbind (rmap f items) (fun insts => Ok (map VInst insts)).
Proof.
  induction items as [|x items IH]; simpl; auto.
  destruct (f x) as [i|e]; simpl; auto.
  rewrite IH. destruct (rmap f items); reflexivity.
Qed.

Section ValidationFacts.

Variable rt : runtime.
Variables (k : transport_kind) (c : controller) (request : HttpRequest).
Variables (handler : attr) (resource : resource) (kwargs : dict value).

Lemma wrong_content_type (model : option model) (w : world) :
  String.eqb (content_type request) "application/json" = false ->
  String.eqb (PyStr.lower (method request)) "delete" = false ->
  _idempotent_method rt k c request handler resource model kwargs w
  = (Ok (HttpResponseBadRequest
           ("Content Type " ++ content_type request ++ " not allowed !")), w).
Proof.
  intros Hc Hm. unfold _idempotent_method. now rewrite Hc, Hm.
Qed.

Lemma empty_body (m : model) (w : world) :
  String.eqb (content_type request) "application/json" = true ->
  body request = "" ->
  _idempotent_method rt k c request handler resource (Some m) kwargs w
  = (Ok (HttpResponseBadRequest "Request has empty body !"), w).
Proof.
  intros Hc Hb. unfold _idempotent_method. now rewrite Hc, Hb.
Qed.

Lemma malformed_body (m : model) (w : world) (e : exn) :
  String.eqb (content_type request) "application/json" = true ->
  body request <> "" ->
  json_loads rt (body request) = Raise e ->
  is_ValueError e = true ->
  _idempotent_method rt k c request handler resource (Some m) kwargs w = (Ok (HttpResponseBadRequest (exn_str e)), w).
Proof.
  intros Hc Hb Hl He. unfold _idempotent_method.
  rewrite Hc. apply String.eqb_neq in Hb. rewrite Hb. simpl.
  rewrite Hl. simpl. now rewrite He.
Qed.

Lemma invalid_items (m : model) (w : world) (items : list json) (e : exn) :
  String.eqb (content_type request) "application/json" = true ->
  body request <> "" ->
  json_loads rt (body request) = Ok (JArr items) ->
  rmap (fun item => model_validate rt m item true) items = Raise e ->
  is_ValueError e = true ->
  _idempotent_method rt k c request handler resource (Some m) kwargs w = (Ok (HttpResponseBadRequest (exn_str e)), w).
Proof.
  intros Hc Hb Hl Hv He. unfold _idempotent_method.
  rewrite Hc. apply String.eqb_neq in Hb. rewrite Hb. simpl.
  rewrite Hl. simpl. rewrite rmap_validated, Hv. simpl. now rewrite He.
Qed.

Lemma invalid_object (m : model) (w : world) (payload : json) (e : exn) :
  String.eqb (content_type request) "application/json" = true ->
  body request <> "" ->
  json_loads rt (body request) = Ok payload ->
  is_array payload = false ->
  model_validate rt m payload true = Raise e ->
  is_ValueError e = true ->
  _idempotent_method rt k c request handler resource (Some m) kwargs w = (Ok (HttpResponseBadRequest (exn_str e)), w).
Proof.
  intros Hc Hb Hl Ha Hv He. unfold _idempotent_method.
  rewrite Hc. apply String.eqb_neq in Hb. rewrite Hb. simpl.
  rewrite Hl. simpl.
  destruct payload; try discriminate; rewrite Hv; simpl; now rewrite He.
Qed.

Lemma valid_items (m : model) (w : world) (items : list json)
    (insts : list instance) (spec : argspec) :
  String.eqb (content_type request) "application/json" = true ->
  body request <> "" ->
  json_loads rt (body request) = Ok (JArr items) ->
  rmap (fun item => model_validate rt m item true) items = Ok insts ->
  _get_controller_handler_spec handler = Ok spec ->
  _idempotent_method rt k c request handler resource (Some m) kwargs w
  = transport rt k c handler resource request
      (dset "data" (VList (map VInst insts)) kwargs) w.
Proof.
  intros Hc Hb Hl Hv Hs. unfold _idempotent_method.
  rewrite Hc. apply String.eqb_neq in Hb. rewrite Hb. simpl.
  rewrite Hl. simpl. rewrite rmap_validated, Hv. simpl.
  unfold bind, lift. now rewrite Hs.
Qed.

Lemma valid_object (m : model) (w : world) (payload : json) (i : instance)
    (spec : argspec) :
  String.eqb (content_type request) "application/json" = true ->
  body request <> "" ->
  json_loads rt (body request) = Ok payload ->
  is_array payload = false ->
  model_validate rt m payload true = Ok i ->
  _get_controller_handler_spec handler = Ok spec ->
  _idempotent_method rt k c request handler resource (Some m) kwargs w
  = transport rt k c handler resource request
      (dset "data" (VInst i) kwargs) w.
Proof.
  intros Hc Hb Hl Ha Hv Hs. unfold _idempotent_method.
  rewrite Hc. apply String.eqb_neq in Hb. rewrite Hb. simpl.
  rewrite Hl. simpl.
  destruct payload; try discriminate; rewrite Hv; simpl;
    unfold bind, lift; now rewrite Hs.
Qed.

Lemma delete_exempt (w : world) (spec : argspec) :
  PyStr.lower (method request) = "delete" ->
  _get_controller_handler_spec handler = Ok spec ->
  _idempotent_method rt k c request handler resource None kwargs w = transport rt k c handler resource request kwargs w.
Proof.
  intros Hm Hs. unfold _idempotent_method. rewrite Hm. simpl.
  rewrite andb_false_r. unfold bind, lift. now rewrite Hs.
Qed.

End ValidationFacts.



(** ** Authorization *)

Lemma run_checks_user (u : string) (request : HttpRequest)
    (cs : list check) :
  run_checks (Some u) request cs = Ok (forallb (passes u request) cs).
Proof.
  induction cs as [|chk cs IH]; simpl; auto.
  unfold passes at 1.
  destruct (chk u request) as [ok msg]; simpl.
  destruct ok; simpl; auto.
Qed.

Lemma check_permission_user (c : controller) (u : string)
    (request : HttpRequest) :
  c_context_user c = Some u ->
  check_permission c request
  = Ok (forallb (passes u request) (PERMISSIONS c ++ THROTTLERS c)%list).
Proof.
  intros Hu. unfold check_permission. rewrite Hu, !run_checks_user.
  rewrite forallb_app.
  destruct (forallb (passes u request) (PERMISSIONS c)); reflexivity.
Qed.

Lemma check_permission_denied (c : controller) (u : string)
    (request : HttpRequest) (chk : check) :
  c_context_user c = Some u ->
  In chk (PERMISSIONS c ++ THROTTLERS c)%list ->
  fst (chk u request) = false ->
  check_permission c request = Ok false.
Proof.
  intros Hu Hin Hf. rewrite (check_permission_user c request Hu).
  f_equal. apply not_true_is_false. intros Hall.
  rewrite forallb_forall in Hall. specialize (Hall chk Hin).
  unfold passes in Hall. congruence.
Qed.

Lemma keeps_ret {A} (a : A) : keeps_calls (ret a).
Proof. intros w; reflexivity. Qed.

Lemma keeps_raise {A} (e : exn) : keeps_calls (@raise A e).
Proof. intros w; reflexivity. Qed.

Lemma keeps_lift {A} (r : result A) : keeps_calls (lift r).
Proof. intros w; reflexivity. Qed.

Lemma keeps_logging (lvl : log_level) (msg : string) :
  keeps_calls (logging lvl msg).
Proof. intros w; reflexivity. Qed.

Lemma keeps_put_metadata (md : Metadata) : keeps_calls (put_metadata md).
Proof. intros w; reflexivity. Qed.

Lemma keeps_bind {A B} (m : M A) (f : A -> M B) :
  keeps_calls m -> (forall a, keeps_calls (f a)) -> keeps_calls (bind m f).
Proof.
  intros Hm Hf w. unfold bind. specialize (Hm w).
  destruct (m w) as [[a|e] w1]; simpl in *; auto.
  now rewrite Hf.
Qed.

Create HintDb keeps.
#[local] Hint Resolve keeps_ret keeps_raise keeps_lift keeps_logging
  keeps_put_metadata : keeps.

Section Denied.

Variable rt : runtime.
Variable c : controller.
Variable request : HttpRequest.
Hypothesis denied : check_permission c request = Ok false.

Lemma transport_many_denied (handler : attr) (resource : resource)
    (kwargs : dict value) (w : world) :
  transport_many rt c handler resource request kwargs w
  = (Ok (HttpResponse_ 403 ""), w).
Proof.
  unfold transport_many, try_except, bind, lift. now rewrite denied.
Qed.

Lemma transport_single_denied (handler : attr) (resource : resource)
    (kwargs : dict value) (w : world) :
  transport_single rt c handler resource request kwargs w
  = match bind_pk rt c handler resource request kwargs w with
    | (Ok _, w1) => (Ok (HttpResponse_ 403 ""), w1)
    | (Raise e, w1) => (Raise e, w1)
    end.
Proof.
  unfold transport_single, bind at 1.
  destruct (bind_pk rt c handler resource request kwargs w) as [[kw|e] w1];
    auto.
  unfold try_except, bind, lift. now rewrite denied.
Qed.

Lemma bind_pk_keeps (handler : attr) (resource : resource)
    (kwargs : dict value) :
  keeps_calls (bind_pk rt c handler resource request kwargs).
Proof.
  unfold bind_pk.
  destruct (dget (pk resource) kwargs); auto with keeps.
  apply keeps_bind; auto with keeps. intros spec.
  destruct (existsb _ _); auto with keeps.
  destruct (dget (pk resource) (Retrieve_model_fields resource)).
  - destruct (construct rt p v) as [v'|e]; auto with keeps.
    destruct (is_ValueError e); auto with keeps.
  - apply keeps_bind; auto with keeps.
Qed.

Lemma transport_denied_keeps (k : transport_kind) (handler : attr)
    (resource : resource) (kwargs : dict value) :
  keeps_calls (transport rt k c handler resource request kwargs).
Proof.
  intros w. destruct k; simpl.
  - rewrite transport_single_denied.
    pose proof (bind_pk_keeps handler resource kwargs w) as H.
    destruct (bind_pk rt c handler resource request kwargs w) as [[kw|e] w1];
      exact H.
  - now rewrite transport_many_denied.
Qed.

Lemma _idempotent_method_denied_keeps (k : transport_kind) (handler : attr)
    (resource : resource) (model : option model) (kwargs : dict value) :
  keeps_calls
    (_idempotent_method rt k c request handler resource model kwargs).
Proof.
  unfold _idempotent_method.
  destruct (negb _ && negb _); auto with keeps.
  assert (Hcont : forall kw,
             keeps_calls
               (bind (lift (_get_controller_handler_spec handler))
                     (fun _ => transport rt k c handler resource request kw))).
  { intros kw. apply keeps_bind; auto with keeps.
    intros _. apply transport_denied_keeps. }
  destruct model as [m|]; [|apply Hcont].
  destruct (String.eqb (body request) ""); auto with keeps.
  match goal with
  | |- keeps_calls (match ?r with _ => _ end) => destruct r as [kw|e]
  end; [apply Hcont|].
  destruct (is_ValueError e); auto with keeps.
Qed.

Lemma View_dispatch_denied_keeps (v : view_cls) (handler : attr)
    (resource : resource) (kwargs : dict value) :
  Controller v = c ->
  keeps_calls (View_dispatch rt v request handler resource kwargs).
Proof.
  intros Hc. unfold View_dispatch. rewrite Hc.
  destruct (_ || _); [apply transport_denied_keeps|].
  destruct (String.eqb _ "post").
  { unfold post. apply keeps_bind;
      [apply _idempotent_method_denied_keeps|].
    intros resp. destruct (Z.eqb _ _); auto with keeps. }
  destruct (String.eqb _ "put"); [apply _idempotent_method_denied_keeps|].
  destruct (String.eqb _ "delete").
  { unfold delete. apply keeps_bind;
      [apply _idempotent_method_denied_keeps|].
    intros resp. destruct (Z.eqb _ _); auto with keeps. }
  destruct (String.eqb _ "options"); auto with keeps.
Qed.

Lemma dispatch_denied_keeps (v : view_cls) (kwargs : dict value) :
  Controller v = c ->
  keeps_calls (dispatch rt v request kwargs).
Proof.
  intros Hc. unfold dispatch.
  apply keeps_bind; auto with keeps.
  intros [resp|[controller_method|]]; auto with keeps.
  destruct (negb _ && _); auto with keeps.
  apply keeps_bind; auto with keeps. intros _.
  destruct (dget _ _) as [controller_handler|]; auto with keeps.
  now apply View_dispatch_denied_keeps.
Qed.

End Denied.

(** C2 (as stated) fails: the identity is bound, and the body validated,
    before the permission checks run.  Behind a permission that refuses
    every request, an identity that does not coerce ends in [Http404], a
    wrong content type and a malformed body in 400; only a request that
    reaches the checks is answered 403. *)
Lemma C2_denied_is_not_always_403 :
  check_permission Sample.GuardedController
    (Sample.request "GET" "" "" [] "/api/sample/abc") = Ok false
  /\ dispatch Demo.rt (Sample.single Sample.GuardedController)
       (Sample.request "GET" "" "" [] "/api/sample/abc")
       [("id", VStr "abc")] world0
     = (Raise (Http404_exn ""), world0)
  /\ dispatch Demo.rt (Sample.single Sample.GuardedController)
       (Sample.request "PUT" "text/plain" "{}" [] "/api/sample/1")
       [("id", VStr "1")] world0
     = (Ok (HttpResponseBadRequest "Content Type text/plain not allowed !"),
        world0)
  /\ dispatch Demo.rt (Sample.many Sample.GuardedController)
       (Sample.request "POST" "application/json" "oops" [] "/api/sample")
       [] world0
     = (Ok (HttpResponseBadRequest
              "Expecting value: line 1 column 1 (char 0)"), world0)
  /\ dispatch Demo.rt (Sample.single Sample.GuardedController)
       (Sample.request "GET" "" "" [] "/api/sample/1")
       [("id", VStr "1")] world0
     = (Ok (HttpResponse_ 403 ""), world0).
Proof. repeat split; vm_compute; reflexivity. Qed.

(** C2 (amended): if a configured permission or throttle check returns
    [(false, message)], the business method is never invoked, whatever the
    request; and the transport answers 403 with an empty body whenever its
    authorization step is reached: in the collection engine on entry, in
    the single-entity engine once the identity of the path is bound.  (The
    operation lookup and the body validation come before the transport.) *)
Theorem C2_denied (rt : runtime) (v : view_cls) (request : HttpRequest)
    (kwargs : dict value) (w : world) (u : string) (chk : check) :
  c_context_user (Controller v) = Some u ->
  In chk (PERMISSIONS (Controller v) ++ THROTTLERS (Controller v))%list ->
  fst (chk u request) = false ->
  w_calls (snd (dispatch rt v request kwargs w)) = w_calls w
  /\ (forall handler resource kw w0,
         transport_many rt (Controller v) handler resource request kw w0
         = (Ok (HttpResponse_ 403 ""), w0))
  /\ (forall handler resource kw w0 kw' w1,
         bind_pk rt (Controller v) handler resource request kw w0
         = (Ok kw', w1) ->
         transport_single rt (Controller v) handler resource request kw w0
         = (Ok (HttpResponse_ 403 ""), w1))
  /\ content (HttpResponse_ 403 "") = "".
Proof.
  intros Hu Hin Hf.
  pose proof (check_permission_denied (Controller v) request chk Hu Hin Hf)
    as Hd.
  repeat split.
  - apply dispatch_denied_keeps with (c := Controller v); auto.
  - intros. now apply transport_many_denied.
  - intros handler resource kw w0 kw' w1 Hb.
    rewrite transport_single_denied by exact Hd. now rewrite Hb.
Qed.

(** C2 on the sample: behind the refusing permission a listing makes no
    business call. *)
Lemma C2_denied_witness :
  w_calls (snd (dispatch Demo.rt (Sample.many Sample.GuardedController)
                  (Sample.request "GET" "" "" [] "/api/sample") [] world0))
  = [].
Proof.
  refine (proj1 (@C2_denied Demo.rt (Sample.many Sample.GuardedController)
                   (Sample.request "GET" "" "" [] "/api/sample") [] world0
                   "anon" Sample.denied _ _ _)).
  - reflexivity.
  - left; reflexivity.
  - reflexivity.
Defined.

(** ** Binding of the identity (lines 341-357) *)

Section MergeFacts.

Context {V : Type}.

Lemma dremove_keys_in (k k' : string) (d : dict V) :
  In k' (map fst (dremove k d)) -> In k' (map fst d).
Proof.
  induction d as [|[k0 v0] d IH]; simpl; auto.
  destruct (String.eqb k k0); simpl; intuition.
Qed.

Lemma dremove_NoDup (k : string) (d : dict V) :
  NoDup (map fst d) -> NoDup (map fst (dremove k d)).
Proof.
  induction d as [|[k0 v0] d IH]; simpl; intros Hnd; auto.
  inversion Hnd as [|? ? Hnotin Hnd']; subst.
  destruct (String.eqb k k0); simpl; auto.
  constructor; auto. intros Hin. apply Hnotin.
  eapply dremove_keys_in; eauto.
Qed.

Lemma dmerge_get_notin (k : string) (a b : dict V) :
  ~ In k (map fst b) -> dget k (dmerge a b) = dget k a.
Proof.
  unfold PyDict.merge. revert a.
  induction b as [|[k0 v0] b IH]; simpl; intros a Hnotin; auto.
  rewrite IH by intuition.
  apply dget_dset_neq. intuition.
Qed.

Lemma dmerge_get_right (k : string) (v : V) (a b : dict V) :
  NoDup (map fst b) -> dget k b = Some v -> dget k (dmerge a b) = Some v.
Proof.
  unfold PyDict.merge. revert a.
  induction b as [|[k0 v0] b IH]; simpl; intros a Hnd Hget; [discriminate|].
  inversion Hnd as [|? ? Hnotin Hnd']; subst.
  destruct (String.eqb k k0) eqn:E.
  - apply String.eqb_eq in E; subst k0. inversion Hget; subst v0.
    pose proof (@dmerge_get_notin k (dset k v a) b Hnotin) as H.
    unfold PyDict.merge in H. rewrite H. apply dget_dset_eq.
  - now apply IH.
Qed.

End MergeFacts.

Section SingleFacts.

Variable rt : runtime.
Variables (c : controller) (handler : attr) (resource : resource).
Variables (request : HttpRequest) (kwargs : dict value).

Lemma encode_single_keeps (data : value) : keeps_calls (encode_single rt data).
Proof.
  unfold encode_single. destruct data; auto with keeps.
  all: apply keeps_bind; auto with keeps.
  all: intros resp; apply keeps_bind; auto with keeps.
  all: intros w; reflexivity.
Qed.

Lemma on_exception_keeps (before : M unit) (e : exn) :
  keeps_calls before -> keeps_calls (on_exception before e).
Proof.
  intros Hb. unfold on_exception.
  destruct (is_ValidationError e); auto with keeps.
  destruct (is_ValueError e); auto with keeps.
  apply keeps_bind; auto with keeps.
Qed.

(** The business call the single-entity transport makes once the identity
    is bound, the checks pass and the query arguments are cleaned. *)
Lemma transport_single_calls (w w1 : world) (kw' extra : dict value)
    (h : pyfunc) :
  bind_pk rt c handler resource request kwargs w = (Ok kw', w1) ->
  check_permission c request = Ok true ->
  callable_of handler = Ok h ->
  _clean_args rt h (_extra_params request) = Ok extra ->
  w_calls (snd (transport_single rt c handler resource request kwargs w))
  = (w_calls w1 ++ [(f_name h, dmerge (dremove (pk resource) extra) kw')])%list.
Proof.
  intros Hb Hp Hc Hk.
  unfold transport_single, bind at 1. rewrite Hb.
  unfold bind at 1, try_except, bind, lift, invoke.
  rewrite Hp. simpl. rewrite Hc, Hk.
  destruct (f_body h _ (w_metadata w1)) as [[data|e] md'].
  - unfold ret. apply encode_single_keeps.
  - pose proof (@on_exception_keeps (ret tt) e (keeps_ret tt)) as Hk'.
    match goal with
    | |- context [on_exception (ret tt) e ?w0] =>
        specialize (Hk' w0); destruct (on_exception (ret tt) e w0) as [[r|e'] w2]
    end; simpl in *; auto.
    destruct r as [resp|data]; simpl; auto.
    rewrite encode_single_keeps. exact Hk'.
Qed.

End SingleFacts.




(** ** Cleaning of the query arguments (lines 301-324) *)

(** C7 (as stated) fails on three counts.  A single element that the
    annotated type refuses does not pass through: the constructor's
    exception leaves [_clean_args] (and becomes a 400 in the transports).
    A value of several elements is handed whole to the constructor, and
    [str] accepts it: it is replaced by the text of the list.  And a
    parameter of the explicit signature that carries no annotation is
    dropped when the handler has no catch-all. *)
Lemma C7_clean_args_differs :
  _clean_args Demo.rt Sample.get_many [("limit", VList [VStr "abc"])]
  = Raise (Demo.ValueError_exn
             "invalid literal for int() with base 10: 'abc'")
  /\ fst (dispatch Demo.rt (Sample.many Sample.SampleController)
            (Sample.request "GET" "" "" [("limit", ["abc"])] "/api/sample")
            [] world0)
     = Ok (HttpResponse_ 400 "invalid literal for int() with base 10: 'abc'")
  /\ _clean_args Demo.rt Sample.search
       [("name", VList [VStr "a"; VStr "b"])]
     = Ok [("name", VStr "['a', 'b']")]
  /\ existsb (String.eqb "tag") (spec_args (getfullargspec Sample.search))
     = true
  /\ _clean_args Demo.rt Sample.search [("tag", VList [VStr "x"])] = Ok [].
Proof. repeat split; vm_compute; reflexivity. Qed.

(** C7 (amended): for every keyword argument [name = val] handed to
    [_clean_args].  If the handler annotates [name] with a type that is not
    [Any] and not generic, [val] is a single-element list and is not
    already an instance of the type, the element is unwrapped and passed to
    the type's constructor, whose exception, if any, propagates.  With any
    other annotated [name] the whole value is passed to the constructor:
    its result is used if the call succeeds, and the value passes through
    unchanged if it raises.  A [name] without annotation is kept, a
    single-element list unwrapped, only if the handler declares a catch-all
    keyword parameter, and is dropped otherwise.  The items are treated one
    after the other in this way. *)
Theorem C7_clean_args (rt : runtime) (handler : pyfunc) (name : string)
    (val : value) :
  let spec := getfullargspec handler in
  let annotation := dget name (spec_annotations spec) in
  let whole typ := match construct rt typ val with
                   | Ok v => v
                   | Raise _ => val
                   end in
  (forall typ val0,
      annotation = Some typ ->
      single_item val = Some val0 ->
      is_Any typ = false -> get_origin typ = None ->
      isinstance rt val typ = false ->
      _clean_args rt handler [(name, val)]
      = rbind (construct rt typ val0) (fun v => Ok [(name, v)]))
  /\ (forall typ,
         annotation = Some typ ->
         single_item val = None \/ is_Any typ = true
         \/ get_origin typ <> None \/ isinstance rt val typ = true ->
         _clean_args rt handler [(name, val)] = Ok [(name, whole typ)])
  /\ (forall kw,
         annotation = None -> spec_varkw spec = Some kw ->
         _clean_args rt handler [(name, val)]
         = Ok [(name, match single_item val with
                      | Some val0 => val0
                      | None => val
                      end)])
  /\ (annotation = None -> spec_varkw spec = None ->
      _clean_args rt handler [(name, val)] = Ok [])
  /\ (forall rest ret,
         _clean_args_loop rt spec ((name, val) :: rest) ret
         = rbind (_clean_args rt handler [(name, val)])
                 (fun one => _clean_args_loop rt spec rest (dmerge ret one))).
Proof.
  intros spec annotation whole. unfold _clean_args. fold spec.
  repeat split.
  - intros typ val0 Ha Hs Hany Ho Hi. cbn [_clean_args_loop];
    change (dget name (spec_annotations spec)) with annotation.
    rewrite Ha, Hs, Hany, Ho, Hi; simpl.
    destruct (construct rt typ val0); reflexivity.
  - intros typ Ha Hcases. cbn [_clean_args_loop];
    change (dget name (spec_annotations spec)) with annotation. rewrite Ha.
    destruct (single_item val) as [val0|] eqn:Hs; [|reflexivity].
    destruct Hcases as [H|[H|[H|H]]].
    + discriminate.
    + rewrite H. reflexivity.
    + destruct (get_origin typ); [|congruence].
      destruct (is_Any typ); reflexivity.
    + rewrite H. rewrite !andb_false_r. reflexivity.
  - intros kw Ha Hk. cbn [_clean_args_loop];
    change (dget name (spec_annotations spec)) with annotation. rewrite Ha, Hk. reflexivity.
  - intros Ha Hk. cbn [_clean_args_loop];
    change (dget name (spec_annotations spec)) with annotation. rewrite Ha, Hk. reflexivity.
  - intros rest ret. cbn [_clean_args_loop];
    change (dget name (spec_annotations spec)) with annotation.
    destruct annotation as [typ|].
    + destruct (single_item val) as [val0|]; [|reflexivity].
      destruct (negb (is_Any typ)
                && negb (negb (is_Any typ) && isSome (get_origin typ))
                && negb (isinstance rt val typ)); [|reflexivity].
      destruct (construct rt typ val0); reflexivity.
    + destruct (spec_varkw spec); reflexivity.
Qed.

(** C7 on the sample: [limit=5] reaches [get_many] as the integer 5. *)
Lemma C7_clean_args_witness :
  _clean_args Demo.rt Sample.get_many [("limit", VList [VStr "5"])]
  = Ok [("limit", VInt 5)].
Proof.
  refine (proj1 (@C7_clean_args Demo.rt Sample.get_many "limit"
                   (VList [VStr "5"])) (TPrim Pint) (VStr "5") _ _ _ _ _);
    reflexivity.
Defined.

(** ** POST on the collection engine (lines 465-487) *)

Lemma rmap_length {A B} (f : A -> result B) (xs : list A) (ys : list B) :
  rmap f xs = Ok ys -> List.length ys = List.length xs.
Proof.
  revert ys. induction xs as [|x xs IH]; simpl; intros ys H.
  - now inversion H.
  - destruct (f x); [|discriminate].
    destruct (rmap f xs) as [ys'|]; [|discriminate].
    inversion H; subst. simpl. now rewrite (IH ys').
Qed.

Lemma dget_Some_In {V} (k : string) (v : V) (d : dict V) :
  dget k d = Some v -> In (k, v) d.
Proof.
  induction d as [|[k0 v0] d IH]; simpl; [discriminate|].
  destruct (String.eqb k k0) eqn:E; intros H.
  - apply String.eqb_eq in E. inversion H; subst. now left.
  - right; auto.
Qed.

Lemma dmerge_NoDup {V} (a b : dict V) :
  NoDup (map fst a) -> NoDup (map fst (dmerge a b)).
Proof.
  unfold PyDict.merge. revert a.
  induction b as [|[k v] b IH]; simpl; intros a Ha; auto.
  apply IH. now apply dset_NoDup.
Qed.

Section CleanFacts.

Variable rt : runtime.
Variable spec : argspec.

Lemma clean_step (name : string) (val : value) (rest ret : dict value) :
  _clean_args_loop rt spec ((name, val) :: rest) ret
  = rbind (clean_item rt spec name val)
          (fun o => _clean_args_loop rt spec rest
                      match o with
                      | Some v => dset name v ret
                      | None => ret
                      end).
Proof.
  unfold clean_item. cbn [_clean_args_loop].
  destruct (dget name (spec_annotations spec)) as [typ|].
  - destruct (single_item val) as [val0|].
    + destruct (negb (is_Any typ)
                && negb (negb (is_Any typ) && isSome (get_origin typ))
                && negb (isinstance rt val typ)).
      * destruct (construct rt typ val0); simpl; auto.
        now rewrite String.eqb_refl.
      * simpl. now rewrite String.eqb_refl.
    + simpl. now rewrite String.eqb_refl.
  - destruct (spec_varkw spec); simpl; auto.
    now rewrite String.eqb_refl.
Qed.

Lemma clean_loop_notin (name : string) (items ret out : dict value) :
  _clean_args_loop rt spec items ret = Ok out ->
  ~ In name (map fst items) ->
  dget name out = dget name ret.
Proof.
  revert ret. induction items as [|[n0 v0] items IH]; intros ret H Hnotin.
  - simpl in H. now inversion H.
  - rewrite clean_step in H. simpl in Hnotin.
    destruct (clean_item rt spec n0 v0) as [o|]; [|discriminate].
    simpl in H. apply IH in H; [|intuition].
    rewrite H. destruct o; auto.
    apply dget_dset_neq. intuition.
Qed.

Lemma clean_loop_kept (name : string) (val v : value)
    (items ret out : dict value) :
  NoDup (map fst items) ->
  In (name, val) items ->
  clean_item rt spec name val = Ok (Some v) ->
  _clean_args_loop rt spec items ret = Ok out ->
  dget name out = Some v.
Proof.
  revert ret. induction items as [|[n0 v0] items IH];
    intros ret Hnd Hin Hitem H; [easy|].
  inversion Hnd as [|? ? Hnotin Hnd']; subst.
  rewrite clean_step in H.
  destruct Hin as [Heq|Hin].
  - inversion Heq; subst. rewrite Hitem in H. simpl in H.
    rewrite (clean_loop_notin name _ _ H Hnotin). apply dget_dset_eq.
  - destruct (clean_item rt spec n0 v0) as [o|]; [|discriminate].
    simpl in H. eapply IH; eauto.
Qed.

Lemma clean_item_generic (name : string) (val v : value) (typ : pytype) :
  dget name (spec_annotations spec) = Some typ ->
  is_Any typ = false ->
  get_origin typ <> None ->
  construct rt typ val = Ok v ->
  clean_item rt spec name val = Ok (Some v).
Proof.
  intros Ha Hany Ho Hc. unfold clean_item. cbn [_clean_args_loop].
  rewrite Ha, Hany, Hc.
  destruct (get_origin typ); [|congruence].
  destruct (single_item val); simpl; now rewrite String.eqb_refl.
Qed.

End CleanFacts.

Section PostFacts.

Variable rt : runtime.

Lemma encode_many_keeps (data : value) : keeps_calls (encode_many rt data).
Proof.
  unfold encode_many. destruct data; auto with keeps.
  all: apply keeps_bind; auto with keeps.
  all: intros resp; apply keeps_bind; auto with keeps.
  all: intros w; reflexivity.
Qed.

Lemma transport_many_calls (c : controller) (handler : attr)
    (resource : resource) (request : HttpRequest) (kwargs kw : dict value)
    (w : world) (h : pyfunc) :
  check_permission c request = Ok true ->
  callable_of handler = Ok h ->
  _clean_args rt h (dmerge (_extra_params request) kwargs) = Ok kw ->
  w_calls (snd (transport_many rt c handler resource request kwargs w))
  = (w_calls w ++ [(f_name h, kw)])%list.
Proof.
  intros Hp Hc Hk.
  unfold transport_many, bind at 1, try_except, bind, lift, invoke.
  rewrite Hp. simpl. rewrite Hc, Hk.
  destruct (f_body h kw (w_metadata w)) as [[data|e] md'].
  - unfold ret. apply encode_many_keeps.
  - pose proof (@on_exception_keeps (logging ERROR "Transport Exc") e
                  (keeps_logging ERROR "Transport Exc")) as Hk'.
    match goal with
    | |- context [on_exception _ e ?w0] =>
        specialize (Hk' w0);
        destruct (on_exception (logging ERROR "Transport Exc") e w0)
          as [[r|e'] w2]
    end; simpl in *; auto.
    destruct r as [resp|data]; simpl; auto.
    rewrite encode_many_keeps. exact Hk'.
Qed.

Lemma idempotent_valid (k : transport_kind) (c : controller)
    (request : HttpRequest) (handler : attr) (resource : resource)
    (kwargs : dict value) (m : model) (w : world) (payload : json)
    (data : value) (spec : argspec) :
  content_type request = "application/json" ->
  body request <> "" ->
  json_loads rt (body request) = Ok payload ->
  validated rt m payload = Ok data ->
  _get_controller_handler_spec handler = Ok spec ->
  _idempotent_method rt k c request handler resource (Some m) kwargs w
  = transport rt k c handler resource request (dset "data" data kwargs) w.
Proof.
  intros Hc Hb Hl Hv Hs. unfold _idempotent_method.
  rewrite Hc. apply String.eqb_neq in Hb. rewrite Hb. simpl.
  rewrite Hl. simpl. unfold validated in Hv.
  destruct payload; try rewrite rmap_validated;
    match type of Hv with
    | rbind ?r _ = _ => destruct r; [|discriminate]
    end; simpl in *; inversion Hv; subst;
    unfold bind, lift; now rewrite Hs.
Qed.

Lemma post_calls (k : transport_kind) (c : controller)
    (request : HttpRequest) (handler : attr) (resource : resource)
    (kwargs : dict value) (w : world) :
  w_calls (snd (post rt k c request handler resource kwargs w))
  = w_calls (snd (_idempotent_method rt k c request handler resource
                    (Some (Create resource)) kwargs w)).
Proof.
  unfold post, bind.
  destruct (_idempotent_method _ _ _ _ _ _ _ _ _) as [[resp|e] w1]; auto.
  destruct (Z.eqb _ _); reflexivity.
Qed.

(** The operation a POST resolves to on a collection endpoint. *)
Lemma post_resolution (v : view_cls) (request : HttpRequest)
    (payload : json) :
  v_kind v = Many ->
  PyStr.lower (method request) = "post" ->
  content_type request = "application/json" ->
  body request <> "" ->
  json_loads rt (body request) = Ok payload ->
  _get_controller_method rt v request
  = Ok (inr (Some
       match dget "post" (METHOD_MAP v) with
       | None => if is_array payload then "create_many" else "create_one"
       | Some m =>
           if String.eqb m "create_one" && is_array payload
           then "create_many" else m
       end)).
Proof.
  intros Hk Hm Hc Hb Hl.
  unfold _get_controller_method, _get_controller_method_many,
    _get_controller_method_base.
  rewrite Hk, Hm, Hc. apply String.eqb_neq in Hb. rewrite Hb. simpl.
  rewrite Hl.
  destruct (dget "post" (METHOD_MAP v)) as [m|]; simpl.
  - destruct payload; reflexivity.
  - destruct payload; reflexivity.
Qed.

End PostFacts.




(** ** Routes (lines 531-586) *)

Section StringFacts.

Lemma append_assoc (a b c : string) : (a ++ b) ++ c = a ++ (b ++ c).
Proof. induction a as [|x a IH]; simpl; [reflexivity | now rewrite IH]. Qed.

Lemma prefix_append (p s : string) : String.prefix p (p ++ s) = true.
Proof.
  induction p as [|x p IH]; simpl.
  - now destruct s.
  - destruct (ascii_dec x x); [exact IH | congruence].
Qed.

Lemma contains_prefix (p s : string) :
  String.prefix p s = true -> PyStr.contains p s = true.
Proof. intros H. destruct s; cbn [PyStr.contains]; now rewrite H. Qed.

Lemma contains_append (p a b : string) :
  PyStr.contains p (a ++ p ++ b) = true.
Proof.
  induction a as [|x a IH].
  - change ("" ++ p ++ b) with (p ++ b).
    apply contains_prefix. apply prefix_append.
  - change (String x a ++ p ++ b) with (String x (a ++ p ++ b)).
    cbn [PyStr.contains].
    destruct (String.prefix p (String x (a ++ p ++ b))); [reflexivity|].
    exact IH.
Qed.

Lemma has_char_append (c : ascii) (a b : string) :
  has_char c (a ++ b) = has_char c a || has_char c b.
Proof.
  induction a as [|x a IH]; simpl; auto.
  rewrite IH. now rewrite orb_assoc.
Qed.

Lemma prefix_has_char (c : ascii) (p s : string) :
  String.prefix p s = true -> has_char c p = true -> has_char c s = true.
Proof.
  revert s. induction p as [|x p IH]; intros s Hp Hc; [discriminate|].
  destruct s as [|y s]; simpl in Hp; [discriminate|].
  destruct (ascii_dec x y) as [->|]; [|discriminate].
  simpl in *. apply orb_true_iff in Hc. apply orb_true_iff.
  destruct Hc as [Hc|Hc]; [now left | right; eauto].
Qed.

Lemma contains_has_char (c : ascii) (p s : string) :
  PyStr.contains p s = true -> has_char c p = true -> has_char c s = true.
Proof.
  intros Hs Hc. induction s as [|y s IH].
  - cbn [PyStr.contains] in Hs.
    destruct (String.prefix p "") eqn:E; [|discriminate].
    eapply prefix_has_char; eauto.
  - cbn [PyStr.contains] in Hs.
    destruct (String.prefix p (String y s)) eqn:E.
    + eapply prefix_has_char; eauto.
    + simpl. rewrite (IH Hs). apply orb_true_r.
Qed.

End StringFacts.

Lemma register_fold (base url : string) (c : controller)
    (ms : list MethodMapping) (routes : list PathConfig) :
  fold_left (fun routes act_map =>
               (routes ++ [action_route base url c act_map])%list) ms routes
  = (routes ++ map (action_route base url c) ms)%list.
Proof.
  revert routes. induction ms as [|m ms IH]; intros routes; simpl.
  - now rewrite app_nil_r.
  - rewrite IH, <- app_assoc. reflexivity.
Qed.

(** C8 (as stated) fails: no check keeps the placeholder out of the path
    of a collection action.  The action [export], declared with
    [detail=False] and the suffix ["<id>/export"], gets one route, and
    that route contains the identity segment. *)
Lemma C8_collection_action_with_identity :
  scan_mappings Sample.ExportController = [Sample.export]
  /\ detail Sample.export = false
  /\ map route (_routes (register (HttpRouter_init "/api") "/sample"
                                  Sample.ExportController))
     = ["api/sample/<id>/export"; "api/sample/<id>"; "api/sample"]
  /\ _is_detail_route "api/sample/<id>/export" "id" = true.
Proof. repeat split; vm_compute; reflexivity. Qed.

(** C8 (amended): [register] appends, after the routes the router already
    has, exactly one route per action found by the scan, in the order of
    the scan, and then the two baseline routes (single-entity, then
    collection).  The route of a [detail=true] action is the single-entity
    path followed by its suffix, and so contains the identity segment; the
    route of a [detail=false] action is the collection path followed by its
    suffix, and is free of the identity segment whenever the base path, the
    url and the suffix hold no ["<"]. *)
Theorem C8_register_routes (self : HttpRouter) (url : string)
    (c : controller) :
  let base := _base_url self in
  let url' := strip_slash url in
  let pk := pk (c_Resource c) in
  let collection := base ++ "/" ++ url' in
  let single := collection ++ "/<" ++ pk ++ ">" in
  _routes (register self url c)
  = (_routes self ++ map (action_route base url' c) (scan_mappings c)
     ++ basic_routes base url' c)%list
  /\ map route (basic_routes base url' c) = [single; collection]
  /\ (forall m,
         let r := route (action_route base url' c m) in
         (detail m = true ->
          r = single ++ "/" ++ url_path m /\ _is_detail_route r pk = true)
         /\ (detail m = false ->
             r = collection ++ "/" ++ url_path m
             /\ (has_char "<" base = false ->
                 has_char "<" url' = false ->
                 has_char "<" (url_path m) = false ->
                 _is_detail_route r pk = false))).
Proof.
  intros base url' pk collection single.
  split; [|split; [|intros m r; split; intros Hd; split]].
  - unfold register. cbn [_routes]. fold url' base.
    rewrite register_fold. now rewrite app_assoc.
  - unfold basic_routes, retrieve_pk_url, single, collection. cbn [map route].
    fold pk. now rewrite !append_assoc.
  - unfold r, action_route. rewrite Hd. cbn [route].
    unfold single, collection, retrieve_pk_url. fold pk.
    now rewrite !append_assoc.
  - unfold r, action_route. rewrite Hd. cbn [route].
    unfold _is_detail_route, retrieve_pk_url. fold pk.
    replace (base ++ "/" ++ url' ++ ("/<" ++ pk ++ ">") ++ "/" ++ url_path m)
      with ((base ++ "/" ++ url') ++ ("/<" ++ pk ++ ">") ++ "/" ++ url_path m)
      by now rewrite !append_assoc.
    apply contains_append.
  - unfold r, action_route. rewrite Hd. cbn [route].
    unfold collection. now rewrite !append_assoc.
  - intros Hb Hu Hp. unfold r, action_route. rewrite Hd. cbn [route].
    unfold _is_detail_route.
    destruct (PyStr.contains _ _) eqn:E; [|reflexivity].
    apply (contains_has_char "<") in E; [|reflexivity].
    rewrite !has_char_append, Hb, Hu, Hp in E. discriminate.
Qed.

(** C8 on the sample: the collection action [action_detail_many] lies
    under the collection path, outside the identity segment. *)
Lemma C8_register_routes_witness :
  route (action_route "api" "sample" Sample.SampleController
                      Sample.action_detail_many)
  = "api/sample/action-many"
  /\ _is_detail_route "api/sample/action-many" "id" = false.
Proof.
  split; [reflexivity|].
  refine (proj2 (proj2 (proj2 (proj2
    (@C8_register_routes (HttpRouter_init "/api") "/sample"
       Sample.SampleController)) Sample.action_detail_many) _) _ _ _);
    reflexivity.
Defined.

(** ** The OpenAPI document: components *)

Section ComponentFacts.

Lemma components_fold (models : list model) :
  _pydantic_components models
  = JObj [("schemas", JObj (fold_left add_model models []))].
Proof. reflexivity. Qed.

Lemma dget_app {V} (k : string) (a b : dict V) :
  dget k (a ++ b)%list = match dget k a with
                         | Some x => Some x
                         | None => dget k b
                         end.
Proof.
  induction a as [|[k0 v0] a IH]; simpl; auto.
  destruct (String.eqb k k0); auto.
Qed.

Lemma dsetdefault_keeps {V} (k k' : string) (v x : V) (d : dict V) :
  dget k d = Some x -> dget k (dsetdefault k' v d) = Some x.
Proof.
  intros H. unfold PyDict.setdefault.
  destruct (dmem k' d); auto.
  rewrite dget_app, H. reflexivity.
Qed.

Lemma defs_keep (k : string) (x : json) (defs schemas : dict json) :
  dget k schemas = Some x ->
  dget k (fold_left (fun s kv => dsetdefault (fst kv) (snd kv) s)
                    defs schemas) = Some x.
Proof.
  revert schemas. induction defs as [|[dn ds] defs IH]; simpl; auto.
  intros schemas H. apply IH. now apply dsetdefault_keeps.
Qed.

Lemma add_model_named (schemas : dict json) (m : model) :
  dget (model_name m) (add_model schemas m) = Some (own_schema m).
Proof. unfold add_model, _model_ref_name. apply dget_dset_eq. Qed.

Lemma add_model_keeps (k : string) (x : json) (schemas : dict json)
    (m : model) :
  String.eqb k (model_name m) = false ->
  dget k schemas = Some x ->
  dget k (add_model schemas m) = Some x.
Proof.
  intros Hne H. unfold add_model, _model_ref_name.
  rewrite (@dget_dset_neq json (model_name m) k).
  - now apply defs_keep.
  - intros <-. now rewrite String.eqb_refl in Hne.
Qed.

Lemma components_last (name : string) (models : list model) (m : model)
    (schemas : dict json) :
  last_named name models = Some m ->
  dget name (fold_left add_model models schemas) = Some (own_schema m).
Proof.
  unfold last_named. revert m.
  induction models as [|m0 models IH] using rev_ind; intros m H.
  - discriminate.
  - rewrite rev_app_distr in H. simpl in H.
    rewrite fold_left_app. simpl.
    destruct (String.eqb name (model_name m0)) eqn:E.
    + inversion H; subst m0. apply String.eqb_eq in E. subst name.
      apply add_model_named.
    + apply add_model_keeps; auto.
Qed.

Lemma last_named_some (name : string) (models : list model) (m : model) :
  last_named name models = Some m -> In m models /\ model_name m = name.
Proof.
  unfold last_named. intros H. apply find_some in H. destruct H as [Hin He].
  apply in_rev in Hin. apply String.eqb_eq in He. auto.
Qed.

Lemma last_named_exists (models : list model) (m : model) :
  In m models -> exists m', last_named (model_name m) models = Some m'.
Proof.
  intros Hin. unfold last_named.
  destruct (find _ (rev models)) as [m'|] eqn:E; [eauto|].
  apply find_none with (x := m) in E; [|now apply in_rev in Hin].
  now rewrite String.eqb_refl in E.
Qed.

Lemma dedupe_subset (seen models : list model) (m : model) :
  In m (_dedupe_models_from seen models) -> In m models.
Proof.
  revert seen. induction models as [|x xs IH]; simpl; intros seen H; auto.
  destruct (existsb (model_eqb x) seen).
  - right. eauto.
  - destruct H as [->|H]; [now left | right; eauto].
Qed.

Lemma dedupe_in (seen models : list model) (m : model) :
  ident_sound models ->
  In m models ->
  (exists s, In s seen /\ model_ident s = model_ident m)
  \/ In m (_dedupe_models_from seen models).
Proof.
  revert seen. induction models as [|x xs IH]; intros seen Hs Hin; [easy|].
  assert (Hs' : ident_sound xs).
  { intros a b Ha Hb. apply Hs; now right. }
  simpl. destruct (existsb (model_eqb x) seen) eqn:E.
  - destruct Hin as [->|Hin]; [|now apply IH].
    left. apply existsb_exists in E. destruct E as [s [Hin He]].
    unfold model_eqb in He. apply String.eqb_eq in He. eauto.
  - destruct Hin as [->|Hin]; [right; now left|].
    destruct (IH (x :: seen) Hs' Hin) as [[s [[<-|Hin'] He]]|H].
    + right. left. apply Hs; auto; [now left | now right].
    + left. eauto.
    + right. now right.
Qed.

Lemma dedupe_models_in (models : list model) (m : model) :
  ident_sound models -> In m models -> In m (_dedupe_models models).
Proof.
  intros Hs Hin.
  destruct (@dedupe_in [] models m Hs Hin) as [[s [[] _]]|H]; exact H.
Qed.

End ComponentFacts.

(** ** The OpenAPI document: operations and paths *)

Section PathFacts.

Lemma set_in_values {K V} (eqb : K -> K -> bool) (k : K) (v : V)
    (d : list (K * V)) :
  In v (PyDict.values (PyDict.set eqb k v d)).
Proof.
  unfold PyDict.values.
  induction d as [|[k0 v0] d IH]; simpl; [now left|].
  destruct (eqb k k0); simpl; auto.
Qed.

Lemma collect_last (base : string) (routes : list PathConfig)
    (r : PathConfig) (l : list _Operation) (last : _Operation) :
  route_operations r = (l ++ [last])%list ->
  In last (_collect_operations (mkRouter base (routes ++ [r]))).
Proof.
  intros Hr. unfold _collect_operations. cbn [_routes].
  rewrite flat_map_app. simpl. rewrite app_nil_r, Hr, app_assoc.
  rewrite fold_left_app. simpl. apply set_in_values.
Qed.

Lemma many_route_operations (base url : string) (c : controller) :
  let r := mkPath (base ++ "/" ++ url) (create_type_for Many c None)
                  (url ++ "-many") in
  exists l last,
    route_operations r = (l ++ [last])%list
    /\ op_resource last = c_Resource c.
Proof.
  intros r. unfold route_operations.
  change (METHOD_MAP (view r)) with (default_METHOD_MAP Many).
  change (Controller (view r)) with c.
  set (f := fun kv : string * string =>
              mkOp (PyStr.upper (fst kv)) c (snd kv) (c_Resource c)
                   (_is_detail_route (route r) (pk (c_Resource c)))).
  destruct (_is_many_route _ _ && _).
  - exists (map f (default_METHOD_MAP Many)), (post_op c).
    split; reflexivity.
  - exists (map f [("get", "get_many"); ("put", "update_many")]),
      (f ("delete", "delete_many")).
    split; reflexivity.
Qed.

Lemma register_routes_last (self : HttpRouter) (url : string)
    (c : controller) :
  exists routes,
    _routes (register self url c)
    = (routes ++ [mkPath (_base_url self ++ "/" ++ strip_slash url)
                         (create_type_for Many c None)
                         (strip_slash url ++ "-many")])%list
    /\ forall r, In r routes ->
                 In r (_routes self)
                 \/ exists rest,
                      route r = _base_url self ++ "/" ++ rest.
Proof.
  unfold register. cbn [_routes]. rewrite register_fold.
  unfold basic_routes.
  exists ((_routes self
           ++ map (action_route (_base_url self) (strip_slash url) c)
                  (scan_mappings c))
          ++ [mkPath (_base_url self ++ "/" ++ strip_slash url
                      ++ retrieve_pk_url c)
                     (create_type_for Single c None)
                     (strip_slash url ++ "-retrieve")])%list.
  split.
  - repeat rewrite <- app_assoc. reflexivity.
  - intros r Hin. apply in_app_or in Hin. destruct Hin as [Hin|[<-|[]]].
    + apply in_app_or in Hin. destruct Hin as [Hin|Hin]; auto.
      right. apply in_map_iff in Hin. destruct Hin as [m [<- _]].
      unfold action_route. destruct (detail m); cbn [route]; eauto.
    + right. cbn [route]. eauto.
Qed.

Lemma register_models (self : HttpRouter) (url : string) (c : controller) :
  In (Retrieve (c_Resource c)) (build_models (register self url c)).
Proof.
  destruct (register_routes_last self url c) as [routes [Hr _]].
  destruct (many_route_operations (_base_url self) (strip_slash url) c)
    as [l [last [Hops Hres]]].
  unfold build_models. apply in_flat_map. exists last. split.
  - replace (register self url c)
      with (mkRouter (_base_url self) (_routes (register self url c)))
      by reflexivity.
    rewrite Hr. eapply collect_last; eauto.
  - unfold op_models. rewrite Hres. simpl. auto.
Qed.

(** *** [by_path] *)

Lemma dsetdefault_get {V} (k k' : string) (v : V) (d : dict V) :
  dget k (dsetdefault k' v d)
  = match dget k d with
    | Some x => Some x
    | None => if String.eqb k k' then Some v else None
    end.
Proof.
  unfold PyDict.setdefault, PyDict.mem.
  destruct (dget k' d) eqn:E.
  - destruct (dget k d) eqn:E'; auto.
    destruct (String.eqb k k') eqn:Ek; auto.
    apply String.eqb_eq in Ek; subst. congruence.
  - rewrite dget_app. destruct (dget k d); auto.
Qed.

Lemma by_path_set_same (P k : string) (op : _Operation)
    (B : dict (dict _Operation)) :
  dget P (by_path_set P k op B)
  = Some (dset k op match dget P B with
                    | Some methods => methods
                    | None => []
                    end).
Proof.
  unfold by_path_set. rewrite dsetdefault_get, String.eqb_refl.
  destruct (dget P B); apply dget_dset_eq.
Qed.

Lemma by_path_set_keys (P k p : string) (op : _Operation)
    (B : dict (dict _Operation)) :
  In p (map fst (by_path_set P k op B)) -> p = P \/ In p (map fst B).
Proof.
  unfold by_path_set. rewrite dsetdefault_get, String.eqb_refl.
  assert (Hd : In p (map fst (dsetdefault P [] B)) ->
               p = P \/ In p (map fst B)).
  { unfold PyDict.setdefault. destruct (dmem P B); auto.
    rewrite map_app, in_app_iff. simpl. intuition. }
  destruct (dget P B); intros H; apply dset_keys_in in H;
    destruct H; auto.
Qed.

Lemma dset_Forall {V} (R : V -> Prop) (k : string) (v : V) (d : dict V) :
  R v -> Forall R (map snd d) -> Forall R (map snd (dset k v d)).
Proof.
  intros Hv. induction d as [|[k0 v0] d IH]; simpl; intros H.
  - constructor; auto.
  - inversion H; subst. destruct (String.eqb k k0); simpl; auto.
Qed.

Lemma dget_Forall {V} (R : V -> Prop) (k : string) (v : V) (d : dict V) :
  Forall R (map snd d) -> dget k d = Some v -> R v.
Proof.
  induction d as [|[k0 v0] d IH]; simpl; intros H Hg; [discriminate|].
  inversion H; subst. destruct (String.eqb k k0); auto.
  now inversion Hg; subst.
Qed.

Lemma by_path_set_wf (P k : string) (op : _Operation)
    (B : dict (dict _Operation)) :
  wf_by_path B -> wf_by_path (by_path_set P k op B).
Proof.
  intros [Hnd Hin].
  assert (Hwf : wf_by_path (dsetdefault P [] B)).
  { unfold PyDict.setdefault, PyDict.mem.
    destruct (dget P B) eqn:E; [now split|].
    split.
    - rewrite map_app. simpl. apply NoDup_app; auto.
      + constructor; [intros []|constructor].
      + intros x Hx [<-|[]]. now apply dget_None_notin in E.
    - rewrite map_app. apply Forall_app. split; auto.
      repeat constructor. }
  destruct Hwf as [Hnd' Hin'].
  unfold by_path_set.
  destruct (dget P (dsetdefault P [] B)) as [methods|] eqn:E; [|now split].
  split.
  - now apply dset_NoDup.
  - apply dset_Forall; auto.
    apply dset_NoDup.
    exact (@dget_Forall _ (fun ms => NoDup (map fst ms)) _ _ _ Hin' E).
Qed.

Lemma route_by_path_wf (B : dict (dict _Operation)) (r : PathConfig) :
  wf_by_path B -> wf_by_path (route_by_path B r).
Proof.
  intros Hwf. unfold route_by_path.
  match goal with
  | |- context [fold_left ?f ?l B] =>
      assert (H : wf_by_path (fold_left f l B))
  end.
  { generalize (METHOD_MAP (view r)). intros l. revert B Hwf.
    induction l as [|kv l IH]; simpl; intros B Hwf; auto.
    apply IH. now apply by_path_set_wf. }
  destruct (_ && _); auto. now apply by_path_set_wf.
Qed.

Lemma route_by_path_keys (B : dict (dict _Operation)) (r : PathConfig)
    (p : string) :
  In p (map fst (route_by_path B r)) ->
  p = path_oa_of r \/ In p (map fst B).
Proof.
  unfold route_by_path. fold (path_oa_of r).
  match goal with
  | |- context [fold_left ?f ?l B] =>
      assert (H : In p (map fst (fold_left f l B)) ->
                  p = path_oa_of r \/ In p (map fst B))
  end.
  { generalize (METHOD_MAP (view r)). intros l. revert B.
    induction l as [|kv l IH]; simpl; intros B Hin; auto.
    apply IH in Hin. destruct Hin as [Hin|Hin]; auto.
    apply by_path_set_keys in Hin. exact Hin. }
  destruct (_ && _); auto.
  intros Hin. apply by_path_set_keys in Hin. destruct Hin; auto.
Qed.

Lemma routes_by_path_wf (routes : list PathConfig)
    (B : dict (dict _Operation)) :
  wf_by_path B -> wf_by_path (fold_left route_by_path routes B).
Proof.
  revert B. induction routes as [|r routes IH]; simpl; auto.
  intros B Hwf. apply IH. now apply route_by_path_wf.
Qed.

Lemma routes_by_path_keys (routes : list PathConfig)
    (B : dict (dict _Operation)) (p : string) :
  In p (map fst (fold_left route_by_path routes B)) ->
  (exists r, In r routes /\ p = path_oa_of r) \/ In p (map fst B).
Proof.
  revert B. induction routes as [|r routes IH]; simpl; auto.
  intros B Hin. apply IH in Hin. destruct Hin as [[r' [Hr' ->]]|Hin].
  - left. eauto.
  - apply route_by_path_keys in Hin. destruct Hin as [->|Hin]; eauto.
Qed.

End PathFacts.

Section PathsLoopFacts.

Lemma path_item_notin (P m : string) (methods : dict _Operation)
    (item out : dict json) :
  path_item P methods item = Ok out ->
  ~ In m (map fst methods) ->
  dget m out = dget m item.
Proof.
  revert item. induction methods as [|[m0 op0] methods IH];
    simpl; intros item H Hnotin.
  - now inversion H.
  - destruct (_build_operation P op0) as [o|]; [|discriminate].
    simpl in H. apply IH in H; [|intuition].
    rewrite H. apply dget_dset_neq. intuition.
Qed.

Lemma path_item_get (P m : string) (methods : dict _Operation)
    (item out : dict json) (op : _Operation) :
  path_item P methods item = Ok out ->
  NoDup (map fst methods) ->
  dget m methods = Some op ->
  exists o, _build_operation P op = Ok o /\ dget m out = Some o.
Proof.
  revert item. induction methods as [|[m0 op0] methods IH];
    simpl; intros item H Hnd Hget; [discriminate|].
  inversion Hnd as [|? ? Hnotin Hnd']; subst.
  destruct (_build_operation P op0) as [o|] eqn:Ho; [|discriminate].
  simpl in H. destruct (String.eqb m m0) eqn:E.
  - apply String.eqb_eq in E; subst m0. inversion Hget; subst op0.
    exists o. split; auto.
    rewrite (@path_item_notin _ _ _ _ _ H Hnotin). apply dget_dset_eq.
  - eapply IH; eauto.
Qed.

Lemma paths_loop_notin (a : string) (B : dict (dict _Operation))
    (paths out : dict json) :
  paths_loop B paths = Ok out ->
  (forall p, In p (map fst B) -> api_path p <> a) ->
  dget a out = dget a paths.
Proof.
  revert paths. induction B as [|[p ms] B IH]; simpl; intros paths H Hne.
  - now inversion H.
  - destruct (path_item p ms []) as [item|]; [|discriminate].
    simpl in H.
    assert (Hne' : forall p0, In p0 (map fst B) -> api_path p0 <> a)
      by (intros p0 Hp0; apply Hne; now right).
    rewrite (IH _ H Hne'). apply dget_dset_neq. apply (Hne p). now left.
Qed.

Lemma paths_loop_get (P : string) (B : dict (dict _Operation))
    (paths out : dict json) (ms : dict _Operation) :
  paths_loop B paths = Ok out ->
  NoDup (map fst B) ->
  (forall p, In p (map fst B) -> api_path p = api_path P -> p = P) ->
  dget P B = Some ms ->
  exists item,
    path_item P ms [] = Ok item /\ dget (api_path P) out = Some (JObj item).
Proof.
  revert paths. induction B as [|[p ms0] B IH];
    simpl; intros paths H Hnd Hinj Hget; [discriminate|].
  inversion Hnd as [|? ? Hnotin Hnd']; subst.
  destruct (path_item p ms0 []) as [item|] eqn:Hi; [|discriminate].
  simpl in H. destruct (String.eqb P p) eqn:E.
  - apply String.eqb_eq in E; subst p. inversion Hget; subst ms0.
    exists item. split; auto.
    rewrite (@paths_loop_notin (api_path P) _ _ _ H).
    + apply dget_dset_eq.
    + intros p Hin Heq. apply Hnotin.
      rewrite <- (Hinj p); auto.
  - eapply IH; eauto.
Qed.

Lemma replace_startswith (pk s : string) :
  PyStr.startswith "/" (PyStr.replace ("/<" ++ pk ++ ">") ("/{" ++ pk ++ "}") s)
  = PyStr.startswith "/" s.
Proof.
  unfold PyStr.replace, PyStr.startswith.
  destruct s as [|x s]; [reflexivity|].
  cbn [PyStr.replace_from].
  destruct (String.prefix ("/<" ++ pk ++ ">") (String x s)) eqn:E.
  - change ("/<" ++ pk ++ ">") with (String "/" ("<" ++ pk ++ ">")) in E.
    cbn [String.prefix] in E.
    destruct (ascii_dec "/" x) as [<-|]; [|discriminate E].
    destruct s; reflexivity.
  - cbn [String.prefix]. destruct (ascii_dec "/" x); [|reflexivity].
    match goal with
    | |- String.prefix "" ?a = String.prefix "" ?b =>
        destruct a; destruct b; reflexivity
    end.
Qed.

Lemma replace_absent (old new s : string) :
  PyStr.contains old s = false -> PyStr.replace old new s = s.
Proof.
  unfold PyStr.replace. induction s as [|x s IH]; [reflexivity|].
  cbn [PyStr.contains PyStr.replace_from].
  destruct (String.prefix old (String x s)); [discriminate|].
  intros H. now rewrite IH.
Qed.

Lemma startswith_base (base rest : string) :
  PyStr.startswith "/" (base ++ "/" ++ rest)
  = PyStr.startswith "/" (base ++ "/").
Proof.
  unfold PyStr.startswith. destruct base as [|x base].
  - change ("" ++ "/" ++ rest) with (String "/" rest).
    change ("" ++ "/") with (String "/" "").
    cbn [String.prefix]. destruct (ascii_dec "/" "/"); [|reflexivity].
    now destruct rest.
  - change (String x base ++ "/" ++ rest)
      with (String x (base ++ "/" ++ rest)).
    change (String x base ++ "/") with (String x (base ++ "/")).
    cbn [String.prefix]. destruct (ascii_dec "/" x); [|reflexivity].
    match goal with
    | |- String.prefix "" ?a = String.prefix "" ?b =>
        destruct a; destruct b; reflexivity
    end.
Qed.

Lemma api_path_inj (p q : string) :
  PyStr.startswith "/" p = PyStr.startswith "/" q ->
  api_path p = api_path q -> p = q.
Proof.
  unfold api_path. intros Hs. rewrite Hs.
  destruct (PyStr.startswith "/" q); auto.
  intros H. now inversion H.
Qed.

(** The GET entry the collection route of [register] leaves in
    [by_path]. *)
Lemma many_route_by_path (B : dict (dict _Operation)) (base url : string)
    (c : controller) :
  let r := mkPath (base ++ "/" ++ url) (create_type_for Many c None)
                  (url ++ "-many") in
  exists ms,
    dget (path_oa_of r) (route_by_path B r) = Some ms
    /\ dget "get" ms
       = Some (mkOp "GET" c "get_many" (c_Resource c)
                    (_is_detail_route (route r) (pk (c_Resource c)))).
Proof.
  intros r. unfold route_by_path. fold (path_oa_of r).
  change (METHOD_MAP (view r)) with (default_METHOD_MAP Many).
  change (Controller (view r)) with c.
  set (P := path_oa_of r).
  set (d := _is_detail_route (route r) (pk (c_Resource c))).
  cbn [default_METHOD_MAP fold_left fst snd].
  change (PyStr.lower (op_method (mkOp (PyStr.upper "get") c "get_many"
                                       (c_Resource c) d))) with "get".
  change (PyStr.lower (op_method (mkOp (PyStr.upper "put") c "update_many"
                                       (c_Resource c) d))) with "put".
  change (PyStr.lower (op_method (mkOp (PyStr.upper "delete") c "delete_many"
                                       (c_Resource c) d))) with "delete".
  change (PyStr.upper "get") with "GET".
  destruct (_ && _); eexists; (split; [repeat rewrite by_path_set_same;
                                        reflexivity|]).
  - rewrite !dget_dset_neq by discriminate. apply dget_dset_eq.
  - rewrite !dget_dset_neq by discriminate. apply dget_dset_eq.
Qed.

(** The response schema inside a documented GET operation. *)
Lemma operation_schema (P : string) (op : _Operation) (o : json) :
  op_method op = "GET" ->
  _build_operation P op = Ok o ->
  jpath ["responses"; "200"; "content"; "application/json"; "schema"] o
  = Some (response_schema op (dget (op_handler_name op)
                                   (c_attrs (op_controller op)))).
Proof.
  intros Hm. unfold _build_operation, _build_request_body. rewrite Hm.
  destruct (_build_parameters _ _ _) as [params|]; [|discriminate].
  simpl. intros H. inversion H; subst o. reflexivity.
Qed.

End PathsLoopFacts.



Lemma ident_sound_incl (l l' : list model) :
  (forall m, In m l -> In m l') -> ident_sound l' -> ident_sound l.
Proof. intros Hincl Hs m1 m2 H1 H2. apply Hs; auto. Qed.

Lemma sample_models_sound : ident_sound (build_models Sample.router).
Proof.
  apply ident_sound_incl
    with (l' := [Sample.SampleCreate; Sample.SampleUpdate;
                 Sample.SampleRetrieve; Sample.BaseRetrieve]).
  - intros m Hin. vm_compute in Hin.
    repeat (destruct Hin as [<-|Hin];
            [vm_compute; repeat (first [left; reflexivity | right])|]).
    destruct Hin.
  - intros m1 m2 H1 H2 He. simpl in H1, H2.
    repeat (destruct H1 as [<-|H1]); try destruct H1;
      repeat (destruct H2 as [<-|H2]); try destruct H2;
      try reflexivity; discriminate He.
Defined.


(* ================================================================== *)
(** * Further properties of the code                                   *)
(* ================================================================== *)

(** ** The verb map of an action (lines 43-47) *)

Lemma methods_map_fold (name k : string) (ms : list string) (d : dict string) :
  dget k (fold_left (fun d meth => dset (PyStr.lower meth) name d) ms d)
  = if existsb (fun meth => String.eqb k (PyStr.lower meth)) ms
    then Some name else dget k d.
Proof.
  revert d. induction ms as [|meth ms IH]; intros d; simpl; auto.
  rewrite IH.
  destruct (existsb _ ms); [now rewrite orb_true_r|].
  rewrite orb_false_r.
  destruct (String.eqb k (PyStr.lower meth)) eqn:E.
  - apply String.eqb_eq in E. rewrite E. apply dget_dset_eq.
  - apply dget_dset_neq. intros H. rewrite H, String.eqb_refl in E.
    discriminate.
Qed.

Lemma methods_map_NoDup (name : string) (ms : list string) (d : dict string) :
  NoDup (map fst d) ->
  NoDup (map fst (fold_left (fun d meth => dset (PyStr.lower meth) name d)
                            ms d)).
Proof.
  revert d. induction ms as [|meth ms IH]; intros d Hd; simpl; auto.
  apply IH. now apply dset_NoDup.
Qed.

Lemma methods_map_values (name : string) (ms : list string) (d : dict string) :
  Forall (eq name) (map snd d) ->
  Forall (eq name)
         (map snd (fold_left (fun d meth => dset (PyStr.lower meth) name d)
                             ms d)).
Proof.
  revert d. induction ms as [|meth ms IH]; intros d Hd; simpl; auto.
  apply IH. now apply dset_Forall.
Qed.

(** X1: the verb map of an action answers the function's name for exactly
    the verbs the action lists, compared in lower case, and nothing for any
    other key; a verb listed twice, or in two spellings, has one entry. *)
Theorem X1_build_methods_map (m : MethodMapping) (verb : string) :
  dget verb (build_methods_map m)
  = (if existsb (fun meth => String.eqb verb (PyStr.lower meth)) (methods m)
     then Some (func_name m) else None)
  /\ NoDup (map fst (build_methods_map m))
  /\ Forall (eq (func_name m)) (map snd (build_methods_map m)).
Proof.
  unfold build_methods_map. split; [|split].
  - now rewrite methods_map_fold.
  - apply methods_map_NoDup. constructor.
  - apply methods_map_values. constructor.
Qed.

Lemma methods_map_nonempty (name : string) (ms : list string)
    (d : dict string) :
  ms <> [] \/ d <> [] ->
  fold_left (fun d meth => dset (PyStr.lower meth) name d) ms d <> [].
Proof.
  revert d. induction ms as [|meth ms IH]; intros d H; simpl.
  - destruct H; congruence.
  - apply IH. right. destruct d as [|[k v] d]; simpl; [discriminate|].
    destruct (String.eqb _ k); discriminate.
Qed.

(** X2: the endpoint class generated for an action carries the action's
    own verb map whenever the action lists a verb, which every action made
    by the decorator does ([GET] alone when none is given); a marker with
    an empty verb list gets the engine's default map instead. *)
Theorem X2_action_view_verbs (k : transport_kind) (c : controller)
    (m : MethodMapping) :
  (methods m <> [] ->
   METHOD_MAP (create_type_for k c (Some (build_methods_map m)))
   = build_methods_map m)
  /\ (methods m = [] ->
      METHOD_MAP (create_type_for k c (Some (build_methods_map m)))
      = default_METHOD_MAP k)
  /\ (forall ms d up res f,
         m = action ms d up res f ->
         methods m <> []
         /\ (ms = None \/ ms = Some [] ->
             build_methods_map m = [("get", f_name f)])).
Proof.
  split; [|split].
  - intros Hne. unfold create_type_for, or_default; simpl.
    assert (H : build_methods_map m <> []).
    { unfold build_methods_map. apply methods_map_nonempty. now left. }
    destruct (build_methods_map m); [congruence | reflexivity].
  - intros He. unfold create_type_for, build_methods_map. now rewrite He.
  - intros ms d up res f ->. split.
    + unfold action, or_default; simpl.
      destruct ms as [[|x l]|]; simpl; discriminate.
    + intros [->| ->]; reflexivity.
Qed.

Lemma X2_action_view_verbs_witness :
  METHOD_MAP (create_type_for Single Sample.SampleController
                (Some (build_methods_map Sample.action_detail_all_methods)))
  = [("get", "action_detail_all_methods");
     ("post", "action_detail_all_methods")].
Proof.
  refine (proj1 (@X2_action_view_verbs Single Sample.SampleController
                   Sample.action_detail_all_methods) _).
  discriminate.
Defined.

(** ** Authorization (lines 88-103) *)

Lemma run_checks_no_user (request : HttpRequest) (cs : list check) :
  cs <> [] ->
  exists e, run_checks None request cs = Raise e
            /\ exn_cls e = AttributeError.
Proof.
  destruct cs as [|chk cs]; [congruence|].
  intros _. simpl. eexists; split; reflexivity.
Qed.

(** X3: with a user in the context, [check_permission] answers true
    exactly when every permission and every throttler accepts the request;
    with nothing configured it answers true; and when the context has no
    [user] attribute, any configured check makes it raise
    [AttributeError]. *)
Theorem X3_check_permission (c : controller) (request : HttpRequest) :
  (forall u,
      c_context_user c = Some u ->
      check_permission c request
      = Ok (forallb (passes u request) (PERMISSIONS c)
            && forallb (passes u request) (THROTTLERS c)))
  /\ (PERMISSIONS c = [] -> THROTTLERS c = [] ->
      check_permission c request = Ok true)
  /\ (c_context_user c = None ->
      PERMISSIONS c <> [] \/ THROTTLERS c <> [] ->
      exists e, check_permission c request = Raise e
                /\ exn_cls e = AttributeError).
Proof.
  split; [|split].
  - intros u Hu. rewrite (check_permission_user c request Hu).
    now rewrite forallb_app.
  - intros Hp Ht. unfold check_permission. now rewrite Hp, Ht.
  - intros Hu H. unfold check_permission. rewrite Hu.
    destruct (PERMISSIONS c) as [|p ps] eqn:Hp.
    + simpl. destruct H as [H|H]; [congruence|].
      now apply run_checks_no_user.
    + simpl. eexists; split; reflexivity.
Qed.

(** X3 on the sample resources: behind a permission, a controller whose
    context has no user fails every check with [AttributeError]. *)
Lemma X3_check_permission_witness :
  exists e,
    check_permission Fixtures.NoUserController
      (Sample.request "GET" "" "" [] "/api/sample") = Raise e
    /\ exn_cls e = AttributeError.
Proof.
  refine (proj2 (proj2 (@X3_check_permission Fixtures.NoUserController
                          (Sample.request "GET" "" "" [] "/api/sample")))
                _ _).
  - reflexivity.
  - left. discriminate.
Defined.

(** ** Dispatch (lines 137-164) *)

(** X4: [dispatch] looks the resolved operation up among the controller's
    attributes under its name as it is, but fetches the handler under the
    lower-cased name.  An operation whose name has no lower-case twin among
    the attributes ends in [AttributeError] before anything is called;
    otherwise the lower-case attribute serves the request, on a fresh
    metadata, with the action's own resource when it declares one and the
    controller's otherwise. *)
Theorem X4_dispatch_lower_case (rt : runtime) (v : view_cls)
    (request : HttpRequest) (kwargs : dict value) (w : world) (n : string) :
  _get_controller_method rt v request = Ok (inr (Some n)) ->
  n <> "" ->
  hasattr (Controller v) n = true ->
  let attrs := c_attrs (Controller v) in
  let fresh := mkWorld Metadata_default (w_calls w) (w_log w) in
  (dget (PyStr.lower n) attrs = None ->
   exists e, dispatch rt v request kwargs w = (Raise e, fresh)
             /\ exn_cls e = AttributeError)
  /\ (forall handler,
         dget (PyStr.lower n) attrs = Some handler ->
         dispatch rt v request kwargs w
         = View_dispatch rt v request handler
             match handler with
             | AAction m => match mm_resource m with
                            | Some r => r
                            | None => c_Resource (Controller v)
                            end
             | _ => c_Resource (Controller v)
             end kwargs fresh).
Proof.
  intros Hm Hn Hin attrs fresh.
  assert (Hc : negb (str_empty n) && dmem n (c_attrs (Controller v)) = true).
  { unfold hasattr in Hin. rewrite Hin, andb_true_r.
    unfold str_empty. destruct (String.eqb n "") eqn:E; auto.
    apply String.eqb_eq in E. congruence. }
  split.
  - intros Hg. unfold dispatch, bind, lift, put_metadata, raise.
    rewrite Hm, Hc. fold attrs. rewrite Hg.
    eexists; split; reflexivity.
  - intros handler Hg. unfold dispatch, bind, lift, put_metadata.
    rewrite Hm, Hc. fold attrs. rewrite Hg.
    destruct handler as [f|m|b]; reflexivity.
Qed.

(** X4 on an action named [doExport]: the route is registered, and a GET
    on it fails at the lookup of [doexport]. *)
Lemma X4_dispatch_lower_case_witness :
  exists e,
    dispatch Demo.rt Fixtures.camel_view
      (Sample.request "GET" "" "" [] "/api/sample/export") [] world0
    = (Raise e, world0)
    /\ exn_cls e = AttributeError.
Proof.
  refine (proj1 (@X4_dispatch_lower_case Demo.rt Fixtures.camel_view
                   (Sample.request "GET" "" "" [] "/api/sample/export")
                   [] world0 "doExport" _ _ _) _).
  - reflexivity.
  - discriminate.
  - reflexivity.
  - reflexivity.
Defined.

(** X5: a request whose verb has no entry in the endpoint's verb map, or
    whose operation the controller does not have, is answered 405: no
    controller is made, nothing is called and nothing is logged by the
    engine.  On the collection engine a POST resolves to [create_one] or
    [create_many] when the map has no entry for it, and gets the same
    answer when the controller lacks that operation. *)
Theorem X5_dispatch_not_allowed (rt : runtime) (v : view_cls)
    (request : HttpRequest) (kwargs : dict value) (w : world) :
  let verb := PyStr.lower (method request) in
  let absent o :=
    match o with
    | None => True
    | Some n => n = "" \/ hasattr (Controller v) n = false
    end in
  (v_kind v = Single \/ verb <> "post" ->
   absent (dget verb (METHOD_MAP v)) ->
   dispatch rt v request kwargs w = (Ok HttpResponseNotAllowed, w))
  /\ (forall payload,
         v_kind v = Many -> verb = "post" ->
         content_type request = "application/json" ->
         body request <> "" ->
         json_loads rt (body request) = Ok payload ->
         dget "post" (METHOD_MAP v) = None ->
         hasattr (Controller v)
                 (if is_array payload then "create_many" else "create_one")
         = false ->
         dispatch rt v request kwargs w = (Ok HttpResponseNotAllowed, w))
  /\ status_code HttpResponseNotAllowed = 405%Z.
Proof.
  intros verb absent. split; [|split; [|reflexivity]].
  - intros Hk Ha.
    assert (Hm : _get_controller_method rt v request
                 = Ok (inr (dget verb (METHOD_MAP v)))).
    { unfold _get_controller_method, _get_controller_method_many,
        _get_controller_method_base. fold verb.
      destruct (v_kind v); auto.
      destruct Hk as [Hk|Hk]; [discriminate|].
      destruct (String.eqb verb "post") eqn:E; auto.
      apply String.eqb_eq in E. congruence. }
    unfold dispatch, bind, lift, ret. rewrite Hm.
    destruct (dget verb (METHOD_MAP v)) as [n|]; auto.
    simpl in Ha. destruct Ha as [->|Ha]; auto.
    unfold hasattr in Ha. rewrite Ha. now rewrite andb_false_r.
  - intros payload Hk Hv Hct Hb Hj Hg Ha.
    unfold dispatch, bind, lift, ret.
    rewrite (post_resolution rt v request Hk Hv Hct Hb Hj), Hg.
    unfold hasattr in Ha. rewrite Ha, andb_false_r. reflexivity.
Qed.

(** X5 on the sample: a POST on a single entity is not allowed. *)
Lemma X5_dispatch_not_allowed_witness :
  dispatch Demo.rt (Sample.single Sample.SampleController)
    (Sample.request "POST" "application/json" "{}" [] "/api/sample/1")
    [("id", VStr "1")] world0
  = (Ok HttpResponseNotAllowed, world0).
Proof.
  refine (proj1 (@X5_dispatch_not_allowed Demo.rt
                   (Sample.single Sample.SampleController)
                   (Sample.request "POST" "application/json" "{}" []
                                   "/api/sample/1")
                   [("id", VStr "1")] world0) _ _).
  - left. reflexivity.
  - exact I.
Defined.

(** ** The metadata of a request (lines 83-86 and 147-150) *)

Section MetadataFacts.

Lemma led_ret {A} (a : A) : metadata_led (ret a).
Proof. intros w1 w2 H; split; [reflexivity | exact H]. Qed.

Lemma led_raise {A} (e : exn) : metadata_led (@raise A e).
Proof. intros w1 w2 H; split; [reflexivity | exact H]. Qed.

Lemma led_lift {A} (r : result A) : metadata_led (lift r).
Proof. intros w1 w2 H; split; [reflexivity | exact H]. Qed.

Lemma led_logging (lvl : log_level) (msg : string) :
  metadata_led (logging lvl msg).
Proof. intros w1 w2 H; split; [reflexivity | exact H]. Qed.

Lemma led_get_metadata : metadata_led get_metadata.
Proof.
  intros w1 w2 H; unfold get_metadata; simpl. now rewrite H.
Qed.

Lemma led_invoke (f : pyfunc) (kwargs : dict value) :
  metadata_led (invoke f kwargs).
Proof.
  intros w1 w2 H. unfold invoke. rewrite H.
  destruct (f_body f kwargs (w_metadata w2)) as [r md]. now split.
Qed.

Lemma led_bind {A B} (m : M A) (f : A -> M B) :
  metadata_led m -> (forall a, metadata_led (f a)) -> metadata_led (bind m f).
Proof.
  intros Hm Hf w1 w2 H. unfold bind.
  destruct (Hm w1 w2 H) as [H1 H2].
  destruct (m w1) as [[a|e] w1'], (m w2) as [[a'|e'] w2']; simpl in *;
    inversion H1; subst; auto.
  now apply Hf.
Qed.

Lemma led_try {A} (m : M A) (h : exn -> M A) :
  metadata_led m -> (forall e, metadata_led (h e)) ->
  metadata_led (try_except m h).
Proof.
  intros Hm Hh w1 w2 H. unfold try_except.
  destruct (Hm w1 w2 H) as [H1 H2].
  destruct (m w1) as [[a|e] w1'], (m w2) as [[a'|e'] w2']; simpl in *;
    inversion H1; subst; auto.
  now apply Hh.
Qed.

End MetadataFacts.

Ltac led :=
  repeat first
    [ apply led_ret | apply led_raise | apply led_lift | apply led_logging
    | apply led_get_metadata | apply led_invoke
    | apply led_bind; [|intros ?]
    | apply led_try; [|intros ?]
    | match goal with
      | |- metadata_led (if ?b then _ else _) => destruct b
      | |- metadata_led (match ?x with _ => _ end) => destruct x
      | |- metadata_led (let '(_, _) := ?x in _) => destruct x
      end ].

Section MetadataEngine.

Variable rt : runtime.

Lemma led_encode (k : transport_kind) (data : value) :
  metadata_led (encode rt k data).
Proof. destruct k; unfold encode, encode_single, encode_many; led. Qed.

Lemma led_on_exception (before : M unit) (e : exn) :
  metadata_led before -> metadata_led (on_exception before e).
Proof. intros Hb. unfold on_exception. led. exact Hb. Qed.

Lemma led_transport (k : transport_kind) (c : controller) (handler : attr)
    (resource : resource) (request : HttpRequest) (kwargs : dict value) :
  metadata_led (transport rt k c handler resource request kwargs).
Proof.
  destruct k; unfold transport, transport_single, transport_many, bind_pk.
  - led; try (apply led_on_exception; led).
    all: try apply (led_encode Single).
  - led; try (apply led_on_exception; led).
    all: try apply (led_encode Many).
Qed.

Lemma led_idempotent (k : transport_kind) (c : controller)
    (request : HttpRequest) (handler : attr) (resource : resource)
    (model : option model) (kwargs : dict value) :
  metadata_led
    (_idempotent_method rt k c request handler resource model kwargs).
Proof.
  unfold _idempotent_method. led; apply led_transport.
Qed.

Lemma led_View_dispatch (v : view_cls) (request : HttpRequest)
    (handler : attr) (resource : resource) (kwargs : dict value) :
  metadata_led (View_dispatch rt v request handler resource kwargs).
Proof.
  unfold View_dispatch, get, post, put, delete.
  led; try apply led_transport; try apply led_idempotent.
Qed.

End MetadataEngine.


(** ** Query arguments of a single-entity GET (lines 166-176, 365-370) *)

Lemma dget_dremove_neq {V} (k k' : string) (d : dict V) :
  k <> k' -> dget k' (dremove k d) = dget k' d.
Proof.
  intros Hne. induction d as [|[k0 v0] d IH]; simpl; auto.
  destruct (String.eqb k k0) eqn:E; simpl.
  - apply String.eqb_eq in E; subst k0.
    destruct (String.eqb k' k) eqn:E'; auto.
    apply String.eqb_eq in E'. congruence.
  - now rewrite IH.
Qed.

Lemma extra_params_get (request : HttpRequest) (name : string) :
  dget name (_extra_params request)
  = option_map (fun vals => VList (map VStr vals)) (dget name (GET request)).
Proof.
  unfold _extra_params.
  induction (GET request) as [|[k vals] l IH]; simpl; auto.
  destruct (String.eqb name k); auto.
Qed.

Lemma extra_params_keys (request : HttpRequest) :
  map fst (_extra_params request) = map fst (GET request).
Proof.
  unfold _extra_params. rewrite map_map. reflexivity.
Qed.

Lemma bind_pk_result (rt : runtime) (c : controller) (handler : attr)
    (resource : resource) (request : HttpRequest) (kwargs kw' : dict value)
    (w w1 : world) :
  bind_pk rt c handler resource request kwargs w = (Ok kw', w1) ->
  w_calls w1 = w_calls w
  /\ (NoDup (map fst kwargs) -> NoDup (map fst kw'))
  /\ (forall name, name <> pk resource -> name <> "pk" ->
                   dget name kw' = dget name kwargs).
Proof.
  unfold bind_pk, bind, lift, ret, raise, logging.
  destruct (dget (pk resource) kwargs) as [raw|]; [|discriminate].
  destruct (_get_controller_handler_spec handler) as [spec|e];
    [|discriminate].
  assert (Hb : forall v,
             (NoDup (map fst kwargs) ->
              NoDup (map fst (dset "pk" v (dremove (pk resource) kwargs))))
             /\ (forall name, name <> pk resource -> name <> "pk" ->
                   dget name (dset "pk" v (dremove (pk resource) kwargs))
                   = dget name kwargs)).
  { intros v. split.
    - intros Hnd. now apply dset_NoDup, dremove_NoDup.
    - intros name H1 H2. rewrite dget_dset_neq by congruence.
      apply dget_dremove_neq. congruence. }
  destruct (existsb _ _).
  - destruct (dget (pk resource) (Retrieve_model_fields resource)) as [t|].
    + destruct (construct rt t raw) as [v|e]; simpl.
      * intros H; inversion H; subst. split; [reflexivity | apply Hb].
      * destruct (is_ValueError e); discriminate.
    + simpl. intros H; inversion H; subst. split; [reflexivity | apply Hb].
  - intros H; inversion H; subst. repeat split; auto.
Qed.

(** X7: on a GET of a single entity the query values are merged into the
    keyword arguments before the transport runs, and the transport puts
    these over the values [_clean_args] converted.  So the handler receives
    every query parameter (other than the identity and [pk], and unless
    the path captures a value of the same name) as the raw list of its
    texts, whatever type it declares for it.  No query parameter is
    supposed to bear the name of a parameter of the engine's own methods,
    which Python would refuse. *)
Theorem X7_single_get_raw_query (rt : runtime) (c : controller)
    (handler : attr) (resource : resource) (request : HttpRequest)
    (kwargs : dict value) (w w1 : world) (kw' extra : dict value)
    (h : pyfunc) (name : string) (vals : list string) :
  no_key_in engine_parameters (_extra_params request) = true ->
  no_key_in engine_parameters kwargs = true ->
  NoDup (map fst (GET request)) ->
  dget name (GET request) = Some vals ->
  name <> pk resource -> name <> "pk" ->
  dget name kwargs = None ->
  bind_pk rt c handler resource request
          (dmerge (_extra_params request) kwargs) w = (Ok kw', w1) ->
  check_permission c request = Ok true ->
  callable_of handler = Ok h ->
  _clean_args rt h (_extra_params request) = Ok extra ->
  exists args,
    w_calls (snd (get rt Single c request handler resource kwargs w))
    = (w_calls w ++ [(f_name h, args)])%list
    /\ dget name args = Some (VList (map VStr vals)).
Proof.
  intros _ _ Hnd Hq Hn1 Hn2 Hk Hb Hp Hc Hcl.
  destruct (bind_pk_result _ _ _ _ _ _ _ Hb) as (Hcalls & Hnd' & Hget).
  exists (dmerge (dremove (pk resource) extra) kw'). split.
  - unfold get, transport.
    rewrite (transport_single_calls rt c handler resource request
               (dmerge (_extra_params request) kwargs) w Hb Hp Hc Hcl).
    now rewrite Hcalls.
  - apply dmerge_get_right.
    + apply Hnd'. apply dmerge_NoDup. now rewrite extra_params_keys.
    + rewrite Hget by assumption.
      rewrite dmerge_get_notin by (now apply dget_None_notin).
      rewrite extra_params_get, Hq. reflexivity.
Qed.

(** X7 on a handler that declares [expand: bool]: the text list is what it
    receives, not the boolean. *)
Lemma X7_single_get_raw_query_witness :
  exists args,
    w_calls (snd (get Demo.rt Single Fixtures.ExpandController
                    (Sample.request "GET" "" "" [("expand", ["1"])]
                                    "/api/sample/1")
                    (AFunc Fixtures.get_expanded) Sample.SampleResource
                    [("id", VStr "1")] world0))
    = ([] ++ [("get_one", args)])%list
    /\ dget "expand" args = Some (VList (map VStr ["1"])).
Proof.
  refine (@X7_single_get_raw_query Demo.rt Fixtures.ExpandController
            (AFunc Fixtures.get_expanded) Sample.SampleResource
            (Sample.request "GET" "" "" [("expand", ["1"])] "/api/sample/1")
            [("id", VStr "1")] world0 world0
            [("expand", VList [VStr "1"]); ("pk", VInt 1)]
            [("expand", VBool true)]
            Fixtures.get_expanded "expand" ["1"] _ _ _ _ _ _ _ _ _ _ _);
    try reflexivity; try discriminate.
  repeat constructor. simpl. intuition.
Defined.

(** ** Errors of the guarded block (lines 371-383 and 430-443) *)

Section GuardedFacts.

Variable rt : runtime.
Variables (c : controller) (handler : attr) (resource : resource).
Variables (request : HttpRequest) (h : pyfunc).

Hypothesis permitted : check_permission c request = Ok true.
Hypothesis callable : callable_of handler = Ok h.

Lemma transport_many_clean_fails (kwargs : dict value) (w : world) (e : exn) :
  _clean_args rt h (dmerge (_extra_params request) kwargs) = Raise e ->
  transport_many rt c handler resource request kwargs w
  = bind (on_exception (logging ERROR "Transport Exc") e)
         (fun r => match r with
                   | inl resp => ret resp
                   | inr data => encode_many rt data
                   end) w.
Proof.
  intros Hk. unfold transport_many, try_except, bind, lift.
  rewrite permitted. simpl. rewrite callable, Hk. reflexivity.
Qed.

Lemma transport_many_body_fails (kwargs kw : dict value) (w : world)
    (e : exn) (md' : Metadata) :
  _clean_args rt h (dmerge (_extra_params request) kwargs) = Ok kw ->
  f_body h kw (w_metadata w) = (Raise e, md') ->
  transport_many rt c handler resource request kwargs w
  = bind (on_exception (logging ERROR "Transport Exc") e)
         (fun r => match r with
                   | inl resp => ret resp
                   | inr data => encode_many rt data
                   end)
         (mkWorld md' (w_calls w ++ [(f_name h, kw)]) (w_log w)).
Proof.
  intros Hk Hb. unfold transport_many, try_except, bind, lift, invoke.
  rewrite permitted. simpl. rewrite callable, Hk, Hb. reflexivity.
Qed.

Lemma transport_single_clean_fails (kwargs kw' : dict value) (w w1 : world)
    (e : exn) :
  bind_pk rt c handler resource request kwargs w = (Ok kw', w1) ->
  _clean_args rt h (_extra_params request) = Raise e ->
  transport_single rt c handler resource request kwargs w
  = bind (on_exception (ret tt) e)
         (fun r => match r with
                   | inl resp => ret resp
                   | inr data => encode_single rt data
                   end) w1.
Proof.
  intros Hp Hk. unfold transport_single, bind at 1. rewrite Hp.
  unfold try_except, bind, lift.
  rewrite permitted. simpl. rewrite callable, Hk. reflexivity.
Qed.

Lemma transport_single_body_fails (kwargs kw' extra : dict value)
    (w w1 : world) (e : exn) (md' : Metadata) :
  bind_pk rt c handler resource request kwargs w = (Ok kw', w1) ->
  _clean_args rt h (_extra_params request) = Ok extra ->
  f_body h (dmerge (dremove (pk resource) extra) kw') (w_metadata w1)
  = (Raise e, md') ->
  transport_single rt c handler resource request kwargs w
  = bind (on_exception (ret tt) e)
         (fun r => match r with
                   | inl resp => ret resp
                   | inr data => encode_single rt data
                   end)
         (mkWorld md'
            (w_calls w1
             ++ [(f_name h, dmerge (dremove (pk resource) extra) kw')])
            (w_log w1)).
Proof.
  intros Hp Hk Hb. unfold transport_single, bind at 1. rewrite Hp.
  unfold try_except, bind, lift, invoke.
  rewrite permitted. simpl. rewrite callable, Hk, Hb. reflexivity.
Qed.

End GuardedFacts.

Lemma on_exception_outcome (before : M unit) (e : exn) (w : world)
    (k : HttpResponse + value -> M HttpResponse) :
  (forall resp w0, k (inl resp) w0 = (Ok resp, w0)) ->
  bind (on_exception before e) k w
  = if is_ValidationError e
    then (Ok (HttpResponse_ 400 (exn_errors e)), w)
    else if is_ValueError e
    then (Ok (HttpResponse_ 400 match exn_arg0 e with
                                | Some msg => msg
                                | None => ""
                                end), w)
    else match before w with
         | (Ok _, w0) => (Raise e, w0)
         | (Raise e0, w0) => (Raise e0, w0)
         end.
Proof.
  intros Hk. unfold on_exception, bind.
  destruct (is_ValidationError e); [unfold ret; apply Hk|].
  destruct (is_ValueError e); [unfold ret; apply Hk|].
  destruct (before w) as [[[]|e0] w0]; reflexivity.
Qed.

(** X8: inside the guarded block of either engine, an error of the
    conversion of a query argument and an error of the business method are
    treated alike.  A [ValidationError] is answered 400 with its list of
    errors, any other [ValueError] 400 with its first argument (empty when
    it has none), and every other exception propagates, the collection
    engine logging it first.  The answer is not encoded, so it carries none
    of the metadata's headers; a failed business call stays recorded, with
    the metadata it left.  (The query and the path hold no name of a
    parameter of the engine's own methods.) *)
Theorem X8_guarded_errors (rt : runtime) (c : controller) (handler : attr)
    (resource : resource) (request : HttpRequest) (kwargs : dict value)
    (w : world) (h : pyfunc) :
  no_key_in engine_parameters (_extra_params request) = true ->
  no_key_in engine_parameters kwargs = true ->
  check_permission c request = Ok true ->
  callable_of handler = Ok h ->
  let outcome (logs : bool) (e : exn) (w0 : world) :=
    if is_ValidationError e
    then (Ok (HttpResponse_ 400 (exn_errors e)), w0)
    else if is_ValueError e
    then (Ok (HttpResponse_ 400 match exn_arg0 e with
                                | Some msg => msg
                                | None => ""
                                end), w0)
    else (Raise e,
          if logs
          then mkWorld (w_metadata w0) (w_calls w0)
                       (w_log w0 ++ [(ERROR, "Transport Exc")])
          else w0) in
  let called (args : dict value) (md' : Metadata) (w0 : world) :=
    mkWorld md' (w_calls w0 ++ [(f_name h, args)]) (w_log w0) in
  (forall e,
      _clean_args rt h (dmerge (_extra_params request) kwargs) = Raise e ->
      transport_many rt c handler resource request kwargs w
      = outcome true e w)
  /\ (forall args e md',
         _clean_args rt h (dmerge (_extra_params request) kwargs) = Ok args ->
         f_body h args (w_metadata w) = (Raise e, md') ->
         transport_many rt c handler resource request kwargs w
         = outcome true e (called args md' w))
  /\ (forall kw' w1 e,
         bind_pk rt c handler resource request kwargs w = (Ok kw', w1) ->
         _clean_args rt h (_extra_params request) = Raise e ->
         transport_single rt c handler resource request kwargs w
         = outcome false e w1)
  /\ (forall kw' w1 extra e md',
         bind_pk rt c handler resource request kwargs w = (Ok kw', w1) ->
         _clean_args rt h (_extra_params request) = Ok extra ->
         let args := dmerge (dremove (pk resource) extra) kw' in
         f_body h args (w_metadata w1) = (Raise e, md') ->
         transport_single rt c handler resource request kwargs w
         = outcome false e (called args md' w1)).
Proof.
  intros _ _ Hp Hc outcome called.
  assert (Hret : forall (enc : value -> M HttpResponse) resp w0,
             match @inl HttpResponse value resp with
             | inl resp => ret resp
             | inr data => enc data
             end w0 = (Ok resp, w0)) by reflexivity.
  repeat split.
  - intros e Hk.
    rewrite (transport_many_clean_fails rt c handler resource request
               Hp Hc kwargs w Hk).
    rewrite on_exception_outcome by (intros; reflexivity).
    unfold outcome.
    destruct (is_ValidationError e), (is_ValueError e); reflexivity.
  - intros args e md' Hk Hb.
    rewrite (transport_many_body_fails rt c handler resource request
               Hp Hc kwargs w Hk Hb).
    rewrite on_exception_outcome by (intros; reflexivity).
    unfold outcome.
    destruct (is_ValidationError e), (is_ValueError e); reflexivity.
  - intros kw' w1 e Hb Hk.
    rewrite (transport_single_clean_fails rt c handler resource request
               Hp Hc kwargs w Hb Hk).
    rewrite on_exception_outcome by (intros; reflexivity).
    unfold outcome.
    destruct (is_ValidationError e), (is_ValueError e); reflexivity.
  - intros kw' w1 extra e md' Hb Hk args Hf.
    rewrite (transport_single_body_fails rt c handler resource request
               Hp Hc kwargs w Hb Hk Hf).
    rewrite on_exception_outcome by (intros; reflexivity).
    unfold outcome.
    destruct (is_ValidationError e), (is_ValueError e); reflexivity.
Qed.

(** X8 on the sample: [GET /api/sample?limit=abc] is answered 400 with the
    text of the failed conversion, and [get_many] is not called. *)
Lemma X8_guarded_errors_witness :
  transport_many Demo.rt Sample.SampleController (AFunc Sample.get_many)
    Sample.SampleResource
    (Sample.request "GET" "" "" [("limit", ["abc"])] "/api/sample") [] world0
  = (Ok (HttpResponse_ 400 "invalid literal for int() with base 10: 'abc'"),
     world0).
Proof.
  refine (proj1 (@X8_guarded_errors Demo.rt Sample.SampleController
                   (AFunc Sample.get_many) Sample.SampleResource
                   (Sample.request "GET" "" "" [("limit", ["abc"])]
                                   "/api/sample")
                   [] world0 Sample.get_many _ _ _ _)
                (Demo.ValueError_exn
                   "invalid literal for int() with base 10: 'abc'") _);
    reflexivity.
Defined.

(** ** Headers taken from the metadata (lines 397-400 and 455-460) *)

Lemma encode_base (rt : runtime) (k : transport_kind) (data : value)
    (w w' : world) (resp : HttpResponse) :
  encode rt k data w = (Ok resp, w') ->
  exists base,
    resp = overrides k (w_metadata w) base
    /\ forall name, get_header name base = own_header name data.
Proof.
  destruct k; unfold encode, encode_single, encode_many, bind, lift, ret,
    raise, get_metadata, JsonResponse, rbind;
    destruct data as [| | | |items|i|r]; simpl; try discriminate.
  all: try (destruct (rmap model_dump items); try discriminate).
  all: intros H; inversion H; subst; eexists; split;
    [reflexivity | intros name; reflexivity].
Qed.

Lemma override_content_type (md : Metadata) (r : HttpResponse) :
  get_header "Content-Type" (override_content md r)
  = if truthy_str (content_type_override md) then content_type_override md
    else get_header "Content-Type" r.
Proof.
  unfold override_content, get_header, set_header.
  destruct (content_type_override md) as [ct|]; simpl;
    [destruct (String.eqb ct ""); simpl|];
    destruct (truthy_str (content_name md)); simpl;
    repeat rewrite get_set_header_neq by reflexivity;
    try rewrite get_set_header_eq; reflexivity.
Qed.

Lemma override_content_name (md : Metadata) (r : HttpResponse) :
  get_header "Content-Disposition" (override_content md r)
  = if truthy_str (content_name md) then content_name md
    else get_header "Content-Disposition" r.
Proof.
  unfold override_content, get_header, set_header.
  destruct (content_name md) as [cn|]; simpl;
    [destruct (String.eqb cn ""); simpl|];
    destruct (truthy_str (content_type_override md)); simpl;
    repeat rewrite get_set_header_neq by reflexivity;
    try rewrite get_set_header_eq; reflexivity.
Qed.

Lemma override_total_count_keeps (name : string) (md : Metadata)
    (r : HttpResponse) :
  String.eqb (PyStr.lower name) "x-total-count" = false ->
  get_header name (override_total_count md r) = get_header name r.
Proof.
  intros H. unfold override_total_count, get_header, set_header.
  destruct (truthy_int (total_count md)); simpl; auto.
  now rewrite get_set_header_neq.
Qed.

(** X9: on a response either engine encodes, [Content-Type] is the
    metadata's [content_type] and [Content-Disposition] its [content_name]
    whenever these are set and not empty; otherwise the response keeps its
    own (the JSON content type and no disposition, unless the handler
    returned a raw response).  The single-entity engine never adds
    [X-Total-Count], whatever the metadata's total count. *)
Theorem X9_content_headers (rt : runtime) (k : transport_kind)
    (data : value) (w w' : world) (resp : HttpResponse) :
  encode rt k data w = (Ok resp, w') ->
  let md := w_metadata w in
  get_header "Content-Type" resp
  = (if truthy_str (content_type_override md) then content_type_override md
     else own_header "Content-Type" data)
  /\ get_header "Content-Disposition" resp
     = (if truthy_str (content_name md) then content_name md
        else own_header "Content-Disposition" data)
  /\ (k = Single ->
      get_header "X-Total-Count" resp = own_header "X-Total-Count" data).
Proof.
  intros H md. apply encode_base in H. destruct H as (base & -> & Hb).
  fold md. split; [|split].
  - destruct k; unfold overrides; rewrite override_content_type.
    + now rewrite Hb.
    + rewrite override_total_count_keeps by reflexivity. now rewrite Hb.
  - destruct k; unfold overrides; rewrite override_content_name.
    + now rewrite Hb.
    + rewrite override_total_count_keeps by reflexivity. now rewrite Hb.
  - intros ->. unfold overrides.
    rewrite override_content_keeps by reflexivity. apply Hb.
Qed.

(** X9 on a listing whose handler set a content type and a file name. *)
Lemma X9_content_headers_witness :
  get_header "Content-Type"
    (mkResponse 200 "[]"
       [("Content-Type", "text/csv");
        ("Content-Disposition", "attachment; filename=items.csv")])
  = Some "text/csv".
Proof.
  refine (proj1 (@X9_content_headers Demo.rt Many (VList [])
                   (mkWorld (mkMetadata None (Some "text/csv")
                               (Some "attachment; filename=items.csv"))
                            [] [])
                   (mkWorld (mkMetadata None (Some "text/csv")
                               (Some "attachment; filename=items.csv"))
                            [] [])
                   (mkResponse 200 "[]"
                      [("Content-Type", "text/csv");
                       ("Content-Disposition",
                        "attachment; filename=items.csv")]) _)).
  reflexivity.
Defined.

(** ** Results that cannot be encoded (lines 384-403 and 444-463) *)

Lemma rmap_model_dump_fails (items : list value) :
  existsb (fun v => negb (is_instance v)) items = true ->
  exists e, rmap model_dump items = Raise e /\ exn_cls e = AttributeError.
Proof.
  induction items as [|v items IH]; simpl; [discriminate|].
  destruct v; simpl; try (intros _; eexists; split; reflexivity).
  intros H. destruct (IH H) as (e & -> & He). eauto.
Qed.

(** X10: a business result that is a number, a string or a boolean, or a
    list with an item that is not a model instance, cannot be encoded: the
    encode step of either engine raises [AttributeError], outside the
    clause that turns errors into 400, and leaves everything else as it
    was. *)
Theorem X10_encode_needs_models (rt : runtime) (k : transport_kind)
    (data : value) (w : world) :
  match data with
  | VBool _ | VInt _ | VStr _ => True
  | VList items => existsb (fun v => negb (is_instance v)) items = true
  | _ => False
  end ->
  exists e, encode rt k data w = (Raise e, w) /\ exn_cls e = AttributeError.
Proof.
  destruct k; unfold encode, encode_single, encode_many, bind, lift;
    destruct data as [|b|z|s|items|i|r]; simpl; try easy.
  all: try (intros _; eexists; split; reflexivity).
  all: intros H; destruct (rmap_model_dump_fails items H) as (e & -> & He);
    simpl; eauto.
Qed.

(** X10 on a handler that answers a text. *)
Lemma X10_encode_needs_models_witness :
  exists e,
    encode Demo.rt Single (VStr "done") world0 = (Raise e, world0)
    /\ exn_cls e = AttributeError.
Proof.
  exact (@X10_encode_needs_models Demo.rt Single (VStr "done") world0 I).
Defined.

(** ** Arguments of an action (lines 293-299 and 301-324) *)

Lemma dset_fresh {V} (k : string) (v : V) (d : dict V) :
  ~ In k (map fst d) -> dset k v d = (d ++ [(k, v)])%list.
Proof.
  induction d as [|[k0 v0] d IH]; simpl; intros Hn; auto.
  destruct (String.eqb k k0) eqn:E.
  - apply String.eqb_eq in E. subst. intuition.
  - rewrite IH; auto.
Qed.

Lemma clean_loop_catch_all (rt : runtime) (spec : argspec) (kw : string)
    (items ret : dict value) :
  spec_annotations spec = [] ->
  spec_varkw spec = Some kw ->
  NoDup (map fst (ret ++ items)%list) ->
  _clean_args_loop rt spec items ret
  = Ok (ret ++ map (fun kv => (fst kv, unwrap (snd kv))) items)%list.
Proof.
  intros Ha Hv. revert ret.
  induction items as [|[name val] items IH]; intros ret Hnd; simpl.
  - now rewrite app_nil_r.
  - rewrite Ha, Hv. simpl.
    assert (Hfresh : ~ In name (map fst ret)).
    { rewrite map_app in Hnd. simpl in Hnd.
      apply NoDup_remove_2 in Hnd. intros Hin. apply Hnd.
      apply in_or_app. now left. }
    fold (unwrap val). rewrite (dset_fresh _ _ _ Hfresh).
    rewrite IH.
    + now rewrite <- app_assoc.
    + rewrite <- app_assoc. rewrite map_app in *. exact Hnd.
Qed.

(** X11: for an action the engine calls a wrapper bound to the controller,
    whose signature is [( *args, **kwargs)]: the annotations of the
    action's function are out of sight.  So [_clean_args] converts nothing
    and drops nothing: every keyword argument reaches the action, in order,
    a one-element list unwrapped to its element and every other value as
    it came. *)
Theorem X11_action_arguments (rt : runtime) (m : MethodMapping)
    (kwargs : dict value) :
  NoDup (map fst kwargs) ->
  callable_of (AAction m) = Ok (_restore_bound_method (func m))
  /\ spec_annotations (getfullargspec (_restore_bound_method (func m))) = []
  /\ _clean_args rt (_restore_bound_method (func m)) kwargs
     = Ok (map (fun kv => (fst kv, unwrap (snd kv))) kwargs).
Proof.
  intros Hnd. split; [reflexivity|]. split; [reflexivity|].
  unfold _clean_args.
  now rewrite (@clean_loop_catch_all rt _ "kwargs" kwargs []).
Qed.

(** X11 on the sample: the action [action_detail_many] declares
    [limit: int], and still receives the text ["5"]. *)
Lemma X11_action_arguments_witness :
  _clean_args Demo.rt
    (_restore_bound_method (func Sample.action_detail_many))
    [("limit", VList [VStr "5"]); ("tag", VList [VStr "a"; VStr "b"])]
  = Ok [("limit", VStr "5"); ("tag", VList [VStr "a"; VStr "b"])].
Proof.
  refine (proj2 (proj2 (@X11_action_arguments Demo.rt
                          Sample.action_detail_many
                          [("limit", VList [VStr "5"]);
                           ("tag", VList [VStr "a"; VStr "b"])] _))).
  repeat constructor; simpl; intuition discriminate.
Defined.

(** ** The names [_clean_args] keeps (lines 301-324) *)

Section CleanKeys.

Variable rt : runtime.
Variable spec : argspec.

Lemma clean_item_keeps (name : string) (val : value) (o : option value) :
  clean_item rt spec name val = Ok o ->
  (o <> None <-> kept spec name).
Proof.
  unfold clean_item, kept, PyDict.mem. cbn [_clean_args_loop].
  destruct (dget name (spec_annotations spec)) as [typ|].
  - assert (Hk : forall v : value,
               Some v <> None <-> (true = true \/ spec_varkw spec <> None)).
    { intros v; split; [now left | discriminate]. }
    destruct (single_item val) as [val0|].
    + destruct (negb (is_Any typ)
                && negb (negb (is_Any typ) && isSome (get_origin typ))
                && negb (isinstance rt val typ)).
      * destruct (construct rt typ val0); simpl; [|discriminate].
        rewrite String.eqb_refl. intros H; inversion H; subst. apply Hk.
      * simpl. rewrite String.eqb_refl. intros H; inversion H; subst.
        apply Hk.
    + simpl. rewrite String.eqb_refl. intros H; inversion H; subst.
      apply Hk.
  - destruct (spec_varkw spec) as [kw|]; simpl.
    + rewrite String.eqb_refl. intros H; inversion H; subst.
      split; [right; discriminate | discriminate].
    + intros H; inversion H; subst.
      split; [congruence | intros [H1|H1]; [discriminate | congruence]].
Qed.

Lemma clean_loop_keys (items ret out : dict value) (name : string) :
  _clean_args_loop rt spec items ret = Ok out ->
  (In name (map fst out)
   <-> In name (map fst ret) \/ (In name (map fst items) /\ kept spec name)).
Proof.
  revert ret. induction items as [|[n val] items IH]; intros ret.
  - simpl. intros H; inversion H; subst. tauto.
  - rewrite clean_step.
    destruct (clean_item rt spec n val) as [o|e] eqn:E; [|discriminate].
    simpl. intros H. rewrite (IH _ H).
    pose proof (clean_item_keeps _ _ E) as Hk.
    destruct o as [v|].
    + rewrite dset_keys_in.
      assert (Hn : kept spec n) by (apply Hk; discriminate).
      split.
      * intros [[->|Hr]|[Hi Hkn]]; auto.
      * intros [Hr|[[->|Hi] Hkn]]; auto.
    + assert (Hn : ~ kept spec n) by (intros Hkn; apply Hk in Hkn; congruence).
      split.
      * intros [Hr|[Hi Hkn]]; auto.
      * intros [Hr|[[->|Hi] Hkn]]; auto. contradiction.
Qed.

Lemma clean_loop_NoDup (items ret out : dict value) :
  _clean_args_loop rt spec items ret = Ok out ->
  NoDup (map fst ret) -> NoDup (map fst out).
Proof.
  revert ret. induction items as [|[n val] items IH]; intros ret.
  - simpl. intros H; inversion H; subst. auto.
  - rewrite clean_step.
    destruct (clean_item rt spec n val) as [[v|]|e]; simpl;
      [| |discriminate]; intros H Hnd; apply (IH _ H); auto.
    now apply dset_NoDup.
Qed.

End CleanKeys.

(** X12: when [_clean_args] answers, the names of its result are exactly
    the names it was given that the handler annotates, or all of them when
    the handler has a catch-all keyword parameter, each once.  The return
    annotation counts as an annotation of the name [return]. *)
Theorem X12_clean_args_names (rt : runtime) (handler : pyfunc)
    (kwargs out : dict value) (name : string) :
  _clean_args rt handler kwargs = Ok out ->
  let spec := getfullargspec handler in
  (In name (map fst out) <-> In name (map fst kwargs) /\ kept spec name)
  /\ NoDup (map fst out)
  /\ (f_return handler <> None ->
      dmem "return" (spec_annotations spec) = true).
Proof.
  intros H spec. unfold _clean_args in H. fold spec in H. split; [|split].
  - rewrite (@clean_loop_keys rt spec _ _ _ name H). simpl. tauto.
  - apply (@clean_loop_NoDup rt spec _ _ _ H). constructor.
  - unfold spec, getfullargspec, annotations_of, PyDict.mem. simpl.
    destruct (f_return handler) as [t|]; [|congruence].
    intros _. now rewrite dget_dset_eq.
Qed.

(** X12 on the sample: [get_many] annotates [limit] and has a catch-all,
    so [colour] is kept too. *)
Lemma X12_clean_args_names_witness :
  (In "colour" (map fst [("limit", VInt 5); ("colour", VStr "red")])
   <-> In "colour" (map fst [("limit", VList [VStr "5"]);
                             ("colour", VList [VStr "red"])])
       /\ kept (getfullargspec Sample.get_many) "colour")
  /\ NoDup (map fst [("limit", VInt 5); ("colour", VStr "red")])
  /\ (f_return Sample.get_many <> None ->
      dmem "return" (spec_annotations (getfullargspec Sample.get_many))
      = true).
Proof.
  exact (@X12_clean_args_names Demo.rt Sample.get_many
           [("limit", VList [VStr "5"]); ("colour", VList [VStr "red"])]
           [("limit", VInt 5); ("colour", VStr "red")] "colour" eq_refl).
Defined.

(** ** The arguments of an update (lines 193-205, 238-274, 341-370) *)

(** X13: on a PUT of a single entity with a valid JSON object as body, the
    handler is called once, and what it receives as [data] is the
    validated payload and as [pk] the converted identity of the path,
    whatever the query string holds: the query parameters, once converted,
    never replace them, were they named [data] or [pk].  (The query and
    the path hold no name of a parameter of the engine's own methods.) *)
Theorem X13_update_arguments (rt : runtime) (c : controller)
    (handler : attr) (resource : resource) (request : HttpRequest)
    (kwargs : dict value) (w : world) (payload : json) (i : instance)
    (spec : argspec) (raw v : value) (annotation : pytype) (h : pyfunc)
    (extra : dict value) :
  no_key_in engine_parameters (_extra_params request) = true ->
  no_key_in engine_parameters kwargs = true ->
  NoDup (map fst kwargs) ->
  content_type request = "application/json" ->
  body request <> "" ->
  json_loads rt (body request) = Ok payload ->
  is_array payload = false ->
  model_validate rt (Update resource) payload true = Ok i ->
  _get_controller_handler_spec handler = Ok spec ->
  existsb (String.eqb "pk") (spec_args spec) = true ->
  dget (pk resource) kwargs = Some raw ->
  pk resource <> "data" ->
  dget (pk resource) (Retrieve_model_fields resource) = Some annotation ->
  construct rt annotation raw = Ok v ->
  check_permission c request = Ok true ->
  callable_of handler = Ok h ->
  _clean_args rt h (_extra_params request) = Ok extra ->
  exists args,
    w_calls (snd (put rt Single c request handler resource kwargs w))
    = (w_calls w ++ [(f_name h, args)])%list
    /\ dget "data" args = Some (VInst i)
    /\ dget "pk" args = Some v.
Proof.
  intros _ _ Hnd Hct Hb Hj Ha Hv Hs Hpk Hraw Hne Hf Hc Hp Hcall Hcl.
  assert (Hval : validated rt (Update resource) payload = Ok (VInst i)).
  { unfold validated. destruct payload; try discriminate; now rewrite Hv. }
  set (kw := dset "data" (VInst i) kwargs).
  set (kw' := dset "pk" v (dremove (pk resource) kw)).
  assert (Hbind : bind_pk rt c handler resource request kw w = (Ok kw', w)).
  { unfold bind_pk, bind, lift, ret. unfold kw at 1.
    rewrite dget_dset_neq by congruence.
    rewrite Hraw, Hs, Hpk, Hf, Hc. reflexivity. }
  exists (dmerge (dremove (pk resource) extra) kw'). split; [|split].
  - unfold put.
    rewrite (@idempotent_valid rt Single c request handler resource kwargs
               (Update resource) w payload (VInst i) spec Hct Hb Hj Hval Hs).
    unfold transport.
    apply (@transport_single_calls rt c handler resource request kw w w kw'
             extra h Hbind Hp Hcall Hcl).
  - assert (Hnd' : NoDup (map fst kw')).
    { unfold kw', kw. now apply dset_NoDup, dremove_NoDup, dset_NoDup. }
    apply dmerge_get_right; auto.
    unfold kw'. destruct (String.eqb "pk" "data") eqn:E; [discriminate|].
    rewrite dget_dset_neq by discriminate.
    rewrite dget_dremove_neq by exact Hne.
    unfold kw. apply dget_dset_eq.
  - apply dmerge_get_right.
    + unfold kw', kw. now apply dset_NoDup, dremove_NoDup, dset_NoDup.
    + unfold kw'. apply dget_dset_eq.
Qed.

(** X13 on the sample's [update_one]: [PUT /api/open/1?pk=9] updates the
    entity 1. *)
Lemma X13_update_arguments_witness :
  exists args,
    w_calls (snd (put Demo.rt Single Fixtures.OpenController
                    (Sample.request "PUT" "application/json" "{}"
                                    [("pk", ["9"])] "/api/open/1")
                    (AFunc Sample.update_one) Fixtures.OpenResource
                    [("id", VStr "1")] world0))
    = [("update_one", args)]
    /\ dget "data" args = Some (VInst (mkInstance "BaseResource.Update" []))
    /\ dget "pk" args = Some (VInt 1).
Proof.
  refine (@X13_update_arguments Demo.rt Fixtures.OpenController
            (AFunc Sample.update_one) Fixtures.OpenResource
            (Sample.request "PUT" "application/json" "{}" [("pk", ["9"])]
                            "/api/open/1")
            [("id", VStr "1")] world0 (JObj [])
            (mkInstance "BaseResource.Update" [])
            (getfullargspec Sample.update_one) (VStr "1") (VInt 1)
            (TPrim Pint) Sample.update_one [("pk", VInt 9)]
            _ _ _ _ _ _ _ _ _ _ _ _ _ _ _ _ _);
    try reflexivity; try discriminate.
  repeat constructor. simpl. tauto.
Defined.

(** ** Routers (lines 505-586) *)

Lemma contains_app_left (p a s : string) :
  PyStr.contains p s = true -> PyStr.contains p (a ++ s) = true.
Proof.
  intros H. induction a as [|ch a IH]; [exact H|].
  change (String ch a ++ s) with (String ch (a ++ s)).
  cbn [PyStr.contains].
  destruct (String.prefix p (String ch (a ++ s))); [reflexivity | exact IH].
Qed.

Lemma action_route_prefixed (base url : string) (c : controller)
    (m : MethodMapping) :
  exists rest, route (action_route base url c m) = base ++ "/" ++ rest.
Proof.
  unfold action_route. destruct (detail m); cbn [route];
    eexists; reflexivity.
Qed.

Lemma append_empty (s : string) : s ++ "" = s.
Proof. induction s as [|ch s IH]; simpl; congruence. Qed.

Lemma identity_in_route (base url pk rest : string) :
  PyStr.contains ("/<" ++ pk ++ ">")
                 (base ++ "/" ++ url ++ ("/<" ++ pk ++ ">") ++ rest) = true.
Proof.
  replace (base ++ "/" ++ url ++ ("/<" ++ pk ++ ">") ++ rest)
    with ((base ++ "/" ++ url) ++ ("/<" ++ pk ++ ">") ++ rest)
    by now rewrite !append_assoc.
  apply contains_append.
Qed.

Lemma action_route_identity (base url : string) (c : controller)
    (m : MethodMapping) :
  let r := action_route base url c m in
  v_kind (view r) = Single ->
  _is_detail_route (route r) (pk (c_Resource (Controller (view r)))) = true.
Proof.
  unfold action_route. destruct (detail m); cbn [route view];
    unfold create_type_for; cbn [v_kind Controller]; [|discriminate].
  intros _. unfold _is_detail_route, retrieve_pk_url.
  apply identity_in_route.
Qed.

(** X14: in a router made with the constructor, [register] and [append],
    every route lies under the router's base path, and every route served
    by the single-entity engine holds the identity segment of its
    controller's resource, so that the engine finds the identity among the
    values captured from the path. *)
Theorem X14_built_router (router : HttpRouter) :
  built router ->
  well_prefixed router
  /\ forall r,
       In r (_routes router) ->
       v_kind (view r) = Single ->
       _is_detail_route (route r) (pk (c_Resource (Controller (view r))))
       = true.
Proof.
  induction 1
    as [base|self url c Hb [IH1 IH2]|self sub Hb [IH1 IH2] Hs [IS1 IS2]].
  - split; intros r [].
  - assert (Hr : _routes (register self url c)
                 = (_routes self
                    ++ map (action_route (_base_url self) (strip_slash url) c)
                           (scan_mappings c)
                    ++ basic_routes (_base_url self) (strip_slash url) c)%list).
    { unfold register; simpl. rewrite register_fold.
      now rewrite <- app_assoc. }
    split.
    + intros r Hin. simpl. rewrite Hr in Hin.
      apply in_app_or in Hin. destruct Hin as [Hin|Hin]; [now apply IH1|].
      apply in_app_or in Hin. destruct Hin as [Hin|Hin].
      * apply in_map_iff in Hin. destruct Hin as (m & <- & _).
        apply action_route_prefixed.
      * unfold basic_routes in Hin.
        destruct Hin as [<-|[<-|[]]]; cbn [route];
          eexists; reflexivity.
    + intros r Hin. rewrite Hr in Hin.
      apply in_app_or in Hin. destruct Hin as [Hin|Hin]; [now apply IH2|].
      apply in_app_or in Hin. destruct Hin as [Hin|Hin].
      * apply in_map_iff in Hin. destruct Hin as (m & <- & _).
        apply action_route_identity.
      * unfold basic_routes in Hin.
        destruct Hin as [<-|[<-|[]]]; cbn [route view];
          unfold create_type_for; cbn [v_kind Controller]; [|discriminate].
        intros _. unfold _is_detail_route, retrieve_pk_url.
        rewrite <- (append_empty ("/<" ++ pk (c_Resource c) ++ ">")) at 2.
        apply identity_in_route.
  - split.
    + intros r Hin. simpl in *. apply in_app_or in Hin.
      destruct Hin as [Hin|Hin]; [now apply IH1|].
      apply in_map_iff in Hin. destruct Hin as (s & <- & _). simpl.
      eexists; reflexivity.
    + intros r Hin. simpl in Hin. apply in_app_or in Hin.
      destruct Hin as [Hin|Hin]; [now apply IH2|].
      apply in_map_iff in Hin. destruct Hin as (s & <- & Hin). simpl.
      intros Hk. unfold _is_detail_route.
      apply contains_app_left. apply (contains_app_left _ "/").
      now apply IS2.
Qed.

(** X14 on the sample: the routes of the sample router lie under [api]. *)
Lemma X14_built_router_witness : well_prefixed Sample.router.
Proof.
  refine (proj1 (@X14_built_router Sample.router _)).
  apply built_register. apply built_init.
Defined.

(** ** Deduplication of the models (lines 156-163) *)

Section DedupeFacts.

Lemma seen_spec (m : model) (seen : list model) :
  existsb (model_eqb m) seen = true
  <-> In (model_ident m) (map model_ident seen).
Proof.
  rewrite existsb_exists, in_map_iff. unfold model_eqb.
  split; intros (s & H1 & H2).
  - exists s. apply String.eqb_eq in H2. auto.
  - exists s. split; auto. apply String.eqb_eq. auto.
Qed.

Lemma dedupe_from_fresh (seen models : list model) (m : model) :
  In m (_dedupe_models_from seen models) ->
  ~ In (model_ident m) (map model_ident seen).
Proof.
  revert seen. induction models as [|x models IH]; intros seen; simpl;
    [easy|].
  destruct (existsb (model_eqb x) seen) eqn:E; [apply IH|].
  intros [<-|Hin].
  - rewrite <- seen_spec. congruence.
  - apply IH in Hin. simpl in Hin. intuition.
Qed.

Lemma dedupe_from_NoDup (seen models : list model) :
  NoDup (map model_ident (_dedupe_models_from seen models)).
Proof.
  revert seen. induction models as [|x models IH]; intros seen; simpl;
    [constructor|].
  destruct (existsb (model_eqb x) seen); [apply IH|].
  simpl. constructor; [|apply IH].
  intros Hin. apply in_map_iff in Hin. destruct Hin as (m & He & Hin).
  apply dedupe_from_fresh in Hin. apply Hin. simpl. now left.
Qed.

Lemma dedupe_from_covers (seen models : list model) (m : model) :
  In m models ->
  In (model_ident m) (map model_ident seen)
  \/ exists m', In m' (_dedupe_models_from seen models)
                /\ model_ident m' = model_ident m.
Proof.
  revert seen. induction models as [|x models IH]; intros seen; simpl;
    [easy|].
  intros [->|Hin].
  - destruct (existsb (model_eqb m) seen) eqn:E.
    + left. now apply seen_spec.
    + right. exists m. split; [now left | reflexivity].
  - destruct (existsb (model_eqb x) seen) eqn:E.
    + now apply IH.
    + destruct (IH (x :: seen) Hin) as [H|(m' & H1 & H2)].
      * simpl in H. destruct H as [H|H]; [|now left].
        right. exists x. split; [now left | exact H].
      * right. exists m'. split; [now right | exact H2].
Qed.

Lemma dedupe_from_fixed (seen models : list model) :
  NoDup (map model_ident models) ->
  (forall m, In m models -> ~ In (model_ident m) (map model_ident seen)) ->
  _dedupe_models_from seen models = models.
Proof.
  revert seen. induction models as [|x models IH]; intros seen Hnd Hs; simpl;
    auto.
  inversion Hnd as [|? ? Hx Hnd']; subst.
  destruct (existsb (model_eqb x) seen) eqn:E.
  - apply seen_spec in E. exfalso. apply (Hs x); [now left | exact E].
  - f_equal. apply IH; auto.
    intros m Hin [He|Hin']; [|apply (Hs m); [now right | exact Hin']].
    apply Hx. rewrite He. now apply in_map.
Qed.

End DedupeFacts.

(** X15: [_dedupe_models] keeps one model per class: no two models of its
    result are the same class, every model of the result is one of the
    given ones, every given class is still there, and deduplicating twice
    changes nothing more. *)
Theorem X15_dedupe_models (models : list model) :
  NoDup (map model_ident (_dedupe_models models))
  /\ (forall m, In m (_dedupe_models models) -> In m models)
  /\ (forall m, In m models ->
                exists m', In m' (_dedupe_models models)
                           /\ model_ident m' = model_ident m)
  /\ _dedupe_models (_dedupe_models models) = _dedupe_models models.
Proof.
  unfold _dedupe_models. repeat split.
  - apply dedupe_from_NoDup.
  - intros m. apply dedupe_subset.
  - intros m Hin. destruct (dedupe_from_covers [] _ _ Hin) as [[]|H]; auto.
  - apply dedupe_from_fixed; [apply dedupe_from_NoDup | intros m _ []].
Qed.

(** ** The operations of a router (lines 181-235) *)

Section KeyedFacts.

Variables K V : Type.
Variable eqb : K -> K -> bool.
Hypothesis eqb_spec : forall a b, eqb a b = true <-> a = b.

Lemma set_keys (k k' : K) (v : V) (d : list (K * V)) :
  In k' (map fst (PyDict.set eqb k v d)) <-> k' = k \/ In k' (map fst d).
Proof.
  induction d as [|[k0 v0] d IH]; simpl.
  - intuition.
  - destruct (eqb k k0) eqn:E; simpl.
    + apply eqb_spec in E; subst k0. intuition.
    + rewrite IH. intuition.
Qed.

Lemma set_keys_NoDup (k : K) (v : V) (d : list (K * V)) :
  NoDup (map fst d) -> NoDup (map fst (PyDict.set eqb k v d)).
Proof.
  induction d as [|[k0 v0] d IH]; simpl; intros Hnd.
  - constructor; [intros [] | constructor].
  - inversion Hnd as [|? ? Hnotin Hnd']; subst.
    destruct (eqb k k0) eqn:E; simpl.
    + constructor; auto.
    + constructor; auto.
      rewrite set_keys. intros [->|Hin]; auto.
      assert (H : eqb k k = true) by now apply eqb_spec.
      congruence.
Qed.

Lemma set_entries (k : K) (v : V) (d : list (K * V)) (e : K * V) :
  In e (PyDict.set eqb k v d) -> e = (k, v) \/ In e d.
Proof.
  induction d as [|[k0 v0] d IH]; simpl.
  - intuition.
  - destruct (eqb k k0) eqn:E; simpl.
    + apply eqb_spec in E; subst k0. intuition.
    + intuition.
Qed.

Variable key : V -> K.

Lemma keyed_fold (vs : list V) (d : list (K * V)) :
  let out := fold_left (fun u v => PyDict.set eqb (key v) v u) vs d in
  (NoDup (map fst d) -> NoDup (map fst out))
  /\ (forall e, In e out -> In e d \/ (In (snd e) vs /\ fst e = key (snd e)))
  /\ (forall k, In k (map fst d) \/ In k (map key vs) -> In k (map fst out)).
Proof.
  revert d. induction vs as [|v vs IH]; intros d; simpl.
  - repeat split; auto. intros k [H|[]]; auto.
  - destruct (IH (PyDict.set eqb (key v) v d)) as (H1 & H2 & H3).
    repeat split.
    + intros Hnd. apply H1. now apply set_keys_NoDup.
    + intros e Hin. destruct (H2 e Hin) as [Hd|[Hv Hk]]; [|now right; auto].
      apply set_entries in Hd. destruct Hd as [->|Hd]; auto.
    + intros k Hk. apply H3. rewrite set_keys.
      destruct Hk as [Hk|[Hk|Hk]]; auto.
Qed.

End KeyedFacts.

Lemma op_key_eqb_spec (a b : op_key) : op_key_eqb a b = true <-> a = b.
Proof.
  destruct a as [[[m1 c1] h1] d1], b as [[[m2 c2] h2] d2]; simpl.
  rewrite !andb_true_iff, !String.eqb_eq, Bool.eqb_true_iff.
  split; [intros [[[-> ->] ->] ->]; reflexivity|].
  intros H; inversion H; auto.
Qed.

Lemma collect_operations_uniq (router : HttpRouter) :
  exists uniq : list (op_key * _Operation),
    _collect_operations router = map snd uniq
    /\ NoDup (map fst uniq)
    /\ (forall e, In e uniq ->
                  In (snd e) (flat_map route_operations (_routes router))
                  /\ fst e = op_key_of (snd e))
    /\ (forall op, In op (flat_map route_operations (_routes router)) ->
                   In (op_key_of op) (map fst uniq)).
Proof.
  unfold _collect_operations, PyDict.values.
  pose proof (@keyed_fold _ _ op_key_eqb op_key_eqb_spec op_key_of
                (flat_map route_operations (_routes router)) [])
    as (H1 & H2 & H3).
  change (fun (uniq : list (op_key * _Operation)) (op : _Operation) =>
            PyDict.set op_key_eqb
              (op_method op, c_name (op_controller op), op_handler_name op,
               op_detail op) op uniq)
    with (fun (u : list (op_key * _Operation)) (v : _Operation) =>
            PyDict.set op_key_eqb (op_key_of v) v u).
  set (uniq := fold_left _ _ _) in *.
  exists uniq. repeat split.
  - apply H1. constructor.
  - destruct (H2 e H) as [[]|[Hv _]]. exact Hv.
  - destruct (H2 e H) as [[]|[_ Hk]]. exact Hk.
  - intros op Hop. apply H3. right. now apply in_map.
Qed.

(** X16: [_collect_operations] answers operations of the router's routes,
    one for each combination of verb, controller name, handler name and
    detail flag that a route gives rise to, and no two with the same
    combination. *)
Theorem X16_collect_operations (router : HttpRouter) :
  let ops := _collect_operations router in
  NoDup (map op_key_of ops)
  /\ (forall op, In op ops ->
                 exists r, In r (_routes router)
                           /\ In op (route_operations r))
  /\ (forall r op, In r (_routes router) -> In op (route_operations r) ->
                   exists op', In op' ops /\ op_key_of op' = op_key_of op).
Proof.
  destruct (collect_operations_uniq router) as (uniq & -> & Hnd & Hk & Hc).
  repeat split.
  - assert (He : map op_key_of (map snd uniq) = map fst uniq).
    { rewrite map_map. apply map_ext_in. intros e Hin.
      symmetry. now apply Hk. }
    now rewrite He.
  - intros op Hin. apply in_map_iff in Hin. destruct Hin as (e & <- & Hin).
    apply Hk in Hin. apply in_flat_map. apply Hin.
  - intros r op Hr Hop.
    assert (Hin : In (op_key_of op) (map fst uniq)).
    { apply Hc. apply in_flat_map. eauto. }
    apply in_map_iff in Hin. destruct Hin as (e & He & Hin).
    exists (snd e). split; [now apply in_map|].
    rewrite <- He. symmetry. now apply Hk.
Qed.

(** ** Schemas of type annotations (lines 43-82 and 165-179) *)

Section TypeFacts.

Lemma pytype_nested_ind (P : pytype -> Prop) :
  P TAny -> P TNone -> P TNoneType ->
  (forall p, P (TPrim p)) ->
  (forall m, P (TModel m)) ->
  (forall args, Forall P args -> P (TUnion args)) ->
  (forall args, Forall P args -> P (TList args)) ->
  (forall args, Forall P args -> P (TDict args)) ->
  (forall name, P (TOther name)) ->
  forall t, P t.
Proof.
  intros HAny HNone HNoneType HPrim HModel HUnion HList HDict HOther.
  fix IH 1. intros t.
  destruct t as [| | |p|m|args|args|args|name].
  - exact HAny.
  - exact HNone.
  - exact HNoneType.
  - apply HPrim.
  - apply HModel.
  - apply HUnion.
    induction args as [|a args IHa]; constructor; [apply IH | exact IHa].
  - apply HList.
    induction args as [|a args IHa]; constructor; [apply IH | exact IHa].
  - apply HDict.
    induction args as [|a args IHa]; constructor; [apply IH | exact IHa].
  - apply HOther.
Qed.

Lemma refs_array (items : list json) :
  refs (JArr items) = flat_map refs items.
Proof.
  induction items as [|v items IH]; [reflexivity|].
  simpl in *. now rewrite IH.
Qed.

Lemma non_none_schemas (args : list pytype) :
  (fix schemas (l : list pytype) : list json :=
     match l with
     | [] => []
     | a :: l' =>
         if is_NoneType a then schemas l'
         else _schema_from_type a :: schemas l'
     end) args
  = map _schema_from_type (filter (fun a => negb (is_NoneType a)) args).
Proof.
  induction args as [|a args IH]; [reflexivity|].
  simpl. destruct (is_NoneType a); simpl; now rewrite IH.
Qed.

Lemma non_none_models (args : list pytype) :
  _collect_models_from_type (TUnion args)
  = flat_map _collect_models_from_type
             (filter (fun a => negb (is_NoneType a)) args).
Proof.
  induction args as [|a args IH]; [reflexivity|].
  simpl in *. destruct (is_NoneType a); simpl; now rewrite IH.
Qed.

Lemma union_schema (a : pytype) (args : list pytype) :
  _schema_from_type (TUnion (a :: args))
  = let non_none :=
      map _schema_from_type
          (filter (fun a => negb (is_NoneType a)) (a :: args)) in
    match non_none with
    | [sch] =>
        if negb (Nat.eqb 1 (List.length (a :: args)))
        then match sch with
             | JObj fields =>
                 if dmem "$ref" fields
                 then JObj [("allOf", JArr [sch]); ("nullable", JBool true)]
                 else JObj (dset "nullable" (JBool true) fields)
             | _ => sch
             end
        else JObj [("oneOf", JArr non_none)]
    | _ => JObj [("oneOf", JArr non_none)]
    end.
Proof.
  rewrite <- non_none_schemas. reflexivity.
Qed.

Lemma refs_set_nullable (fields : dict json) :
  dget "nullable" fields = None
  \/ dget "nullable" fields = Some (JBool true) ->
  refs (JObj (dset "nullable" (JBool true) fields)) = refs (JObj fields).
Proof.
  induction fields as [|[k v] fields IH]; [reflexivity|].
  cbn [PyDict.get PyDict.set].
  destruct (String.eqb "nullable" k) eqn:E.
  - intros [H|H]; [discriminate|]. injection H as ->. reflexivity.
  - intros H. specialize (IH H). cbn [refs] in *. now rewrite IH.
Qed.

Lemma flat_map_refs (ts : list pytype) :
  Forall shaped ts ->
  flat_map refs (map _schema_from_type ts)
  = map ref_target (flat_map _collect_models_from_type ts).
Proof.
  induction 1 as [|t ts (fields & Hs & _ & Hr) _ IH]; [reflexivity|].
  simpl. rewrite map_app, IH, Hs, Hr. reflexivity.
Qed.

Lemma schema_shaped (t : pytype) : shaped t.
Proof.
  induction t as [| | |p|m|args IH|args IH|args IH|name]
    using pytype_nested_ind.
  1-3, 9: eexists; split; [reflexivity|]; split; [now left | reflexivity].
  - destruct p; eexists; (split; [reflexivity|]);
      (split; [now left | reflexivity]).
  - eexists. split; [reflexivity|]. split; [now left | reflexivity].
  - destruct args as [|a args].
    { eexists; split; [reflexivity|]; split; [now left | reflexivity]. }
    unfold shaped. rewrite non_none_models.
    assert (Hnn : Forall shaped
                    (filter (fun a => negb (is_NoneType a)) (a :: args))).
    { apply Forall_forall. intros x Hx. apply filter_In in Hx.
      rewrite Forall_forall in IH. now apply IH. }
    assert (Hone : exists fields,
               JObj [("oneOf",
                      JArr (map _schema_from_type
                              (filter (fun a => negb (is_NoneType a))
                                      (a :: args))))] = JObj fields
               /\ (dget "nullable" fields = None
                   \/ dget "nullable" fields = Some (JBool true))
               /\ refs (JObj fields)
                  = map ref_target
                        (flat_map _collect_models_from_type
                           (filter (fun a => negb (is_NoneType a))
                                   (a :: args)))).
    { eexists. split; [reflexivity|]. split; [now left|].
      rewrite <- (flat_map_refs Hnn), <- refs_array.
      cbn [refs]. now rewrite app_nil_r. }
    rewrite union_schema. cbv zeta.
    destruct (filter (fun a => negb (is_NoneType a)) (a :: args))
      as [|x [|y l]] eqn:Ef; try exact Hone.
    cbn [map]. destruct (negb (Nat.eqb 1 (List.length (a :: args))));
      [|exact Hone].
    inversion Hnn as [|? ? (fields & Hs & Hn & Hr) _]; subst.
    rewrite Hs. cbn [flat_map]. rewrite app_nil_r.
    destruct (dmem "$ref" fields).
    + eexists. split; [reflexivity|]. split; [now right|].
      rewrite <- Hr. cbn [refs]. now rewrite !app_nil_r.
    + eexists. split; [reflexivity|]. split.
      * right. apply dget_dset_eq.
      * rewrite refs_set_nullable by exact Hn. exact Hr.
  - destruct args as [|a args].
    { eexists; split; [reflexivity|]; split; [now left | reflexivity]. }
    inversion IH as [|? ? (fields & Hs & _ & Hr) _]; subst.
    exists [("type", JStr "array"); ("items", _schema_from_type a)].
    split; [reflexivity|]. split; [now left|].
    cbn [_collect_models_from_type]. rewrite <- Hr, <- Hs.
    destruct (_schema_from_type a); try discriminate.
    cbn [refs]. now rewrite app_nil_r.
  - eexists. split; [reflexivity|]. split; [now left | reflexivity].
Qed.

End TypeFacts.

(** X17: the schema [_schema_from_type] gives for a type annotation is
    always a JSON object, and the [$ref]s in it are, in order, the
    references by name of exactly the models [_collect_models_from_type]
    collects from the same annotation: a schema never refers to a model
    that the collection of the components missed. *)
Theorem X17_schema_references (t : pytype) :
  is_dict (_schema_from_type t) = true
  /\ refs (_schema_from_type t)
     = map ref_target (_collect_models_from_type t).
Proof.
  destruct (schema_shaped t) as (fields & Hs & _ & Hr).
  rewrite Hs. split; [reflexivity | exact Hr].
Qed.

(** ** The components of the document (lines 85-103) *)

Section ComponentKeys.

Lemma dsetdefault_keys {V} (k k' : string) (v : V) (d : dict V) :
  In k' (map fst (dsetdefault k v d)) <-> In k' (map fst d) \/ k' = k.
Proof.
  unfold PyDict.setdefault, PyDict.mem.
  destruct (dget k d) as [x|] eqn:E.
  - split; auto. intros [H| ->]; auto.
    apply dget_Some_In in E. now apply (in_map fst) in E.
  - rewrite map_app, in_app_iff. simpl. intuition.
Qed.

Lemma dsetdefault_NoDup {V} (k : string) (v : V) (d : dict V) :
  NoDup (map fst d) -> NoDup (map fst (dsetdefault k v d)).
Proof.
  unfold PyDict.setdefault, PyDict.mem. intros Hnd.
  destruct (dget k d) as [x|] eqn:E; auto.
  rewrite map_app. apply NoDup_app; auto.
  - constructor; [intros [] | constructor].
  - intros x Hx [<-|[]]. now apply dget_None_notin in E.
Qed.

Lemma hoist_keys (defs schemas : dict json) (k : string) :
  In k (map fst (fold_left (fun s kv => dsetdefault (fst kv) (snd kv) s)
                           defs schemas))
  <-> In k (map fst schemas) \/ In k (map fst defs).
Proof.
  revert schemas. induction defs as [|[n d] defs IH]; intros schemas; simpl.
  - tauto.
  - rewrite IH, dsetdefault_keys. intuition.
Qed.

Lemma hoist_NoDup (defs schemas : dict json) :
  NoDup (map fst schemas) ->
  NoDup (map fst (fold_left (fun s kv => dsetdefault (fst kv) (snd kv) s)
                            defs schemas)).
Proof.
  revert schemas. induction defs as [|[n d] defs IH]; intros schemas; simpl;
    auto.
  intros H. apply IH. now apply dsetdefault_NoDup.
Qed.

Lemma components_keys (models : list model) (schemas : dict json)
    (k : string) :
  In k (map fst (fold_left add_model models schemas))
  <-> In k (map fst schemas)
      \/ exists m, In m models
                   /\ (k = model_name m \/ In k (map fst (model_defs m))).
Proof.
  revert schemas. induction models as [|m models IH]; intros schemas; simpl.
  - split; auto. intros [H|(m & [] & _)]; auto.
  - rewrite IH. unfold add_model at 1.
    rewrite dset_keys_in, hoist_keys. unfold _model_ref_name. split.
    + intros [[->|[H|H]]|(m' & Hm & H)]; eauto 6.
    + intros [H|(m' & [<-|Hm] & [->|H])]; eauto 6.
Qed.

Lemma components_NoDup (models : list model) (schemas : dict json) :
  NoDup (map fst schemas) ->
  NoDup (map fst (fold_left add_model models schemas)).
Proof.
  revert schemas. induction models as [|m models IH]; intros schemas; simpl;
    auto.
  intros H. apply IH. unfold add_model. now apply dset_NoDup, hoist_NoDup.
Qed.

End ComponentKeys.

(** X18: [components.schemas] holds one entry for every name that is the
    name of a given model or of a definition nested in the schema of one,
    and no other entry; and under the name of a model is the schema of a
    given model of that name, its nested definitions taken out. *)
Theorem X18_components (models : list model) :
  exists schemas,
    _pydantic_components models = JObj [("schemas", JObj schemas)]
    /\ NoDup (map fst schemas)
    /\ (forall k,
           In k (map fst schemas)
           <-> exists m, In m models
                         /\ (k = _model_ref_name m
                             \/ In k (map fst (model_defs m))))
    /\ (forall m,
           In m models ->
           exists m', In m' models
                      /\ _model_ref_name m' = _model_ref_name m
                      /\ dget (_model_ref_name m) schemas
                         = Some (own_schema m')).
Proof.
  exists (fold_left add_model models []). split; [apply components_fold|].
  split; [apply components_NoDup; constructor|]. split.
  - intros k. rewrite components_keys. simpl. unfold _model_ref_name. tauto.
  - intros m Hin. destruct (last_named_exists _ _ Hin) as (m' & Hl).
    destruct (last_named_some _ _ Hl) as [Hin' Hn].
    exists m'. repeat split; auto.
    unfold _model_ref_name. now apply components_last.
Qed.

(** ** The parameters of an operation (lines 320-353) *)

(** X19: the documented query parameters of an operation are the
    parameters of its handler, each once and in order, that are neither
    variadic nor named [self], [data] or like the identity field of the
    resource.  A handler parameter named [pk] is therefore documented as a
    query parameter whenever the identity field bears another name, and as
    a required one when it has no default, although the engine fills it
    from the path. *)
Theorem X19_documented_parameters (path_str : string) (op : _Operation)
    (f : pyfunc) (params : list json) :
  _build_parameters path_str op (Some (AFunc f)) = Ok params ->
  let documented p :=
    negb (String.eqb (p_name p) "self"
          || String.eqb (p_name p) (pk (op_resource op))
          || String.eqb (p_name p) "data")
    && negb (is_kind VAR_KEYWORD p || is_kind VAR_POSITIONAL p) in
  filter (fun q => match jget "in" q with
                   | Some (JStr "query") => true
                   | _ => false
                   end) params
  = map query_parameter (filter documented (f_params f))
  /\ (forall p,
         In p (f_params f) ->
         p_name p = "pk" -> p_kind p = POSITIONAL_OR_KEYWORD ->
         pk (op_resource op) <> "pk" ->
         In (query_parameter p) params
         /\ jget "name" (query_parameter p) = Some (JStr "pk")
         /\ jget "required" (query_parameter p)
            = Some (JBool (negb (p_has_default p)))).
Proof.
  intros H documented. unfold _build_parameters in H.
  cbn [attr_truthy] in H. inversion H; subst params. clear H.
  fold documented. split.
  - rewrite filter_app.
    assert (Hq : forall l,
               filter (fun q => match jget "in" q with
                                | Some (JStr "query") => true
                                | _ => false
                                end) (map query_parameter l)
               = map query_parameter l).
    { induction l as [|p l IH]; simpl; [reflexivity|]. now rewrite IH. }
    rewrite Hq.
    destruct (op_detail op && PyStr.contains _ path_str); reflexivity.
  - intros p Hin Hn Hk Hne.
    split; [|split; [simpl; now rewrite Hn | reflexivity]].
    apply in_or_app. right. apply in_map. apply filter_In. split; auto.
    unfold documented, is_kind. rewrite Hn, Hk.
    destruct (String.eqb "pk" (pk (op_resource op))) eqn:E; [|reflexivity].
    apply String.eqb_eq in E. congruence.
Qed.

(** X19 on the sample: the document of [GET /api/sample/{id}] lists [pk]
    as a required query parameter. *)
Lemma X19_documented_parameters_witness :
  In (query_parameter (Sample.arg "pk" (Some (TPrim Pint)) false))
     [JObj [("name", JStr "id"); ("in", JStr "path");
            ("required", JBool true); ("schema", string_schema)];
      JObj [("name", JStr "pk"); ("in", JStr "query");
            ("required", JBool true);
            ("schema", JObj [("type", JStr "integer")])]]
  /\ jget "name" (query_parameter (Sample.arg "pk" (Some (TPrim Pint)) false))
     = Some (JStr "pk")
  /\ jget "required"
          (query_parameter (Sample.arg "pk" (Some (TPrim Pint)) false))
     = Some (JBool (negb (p_has_default
                            (Sample.arg "pk" (Some (TPrim Pint)) false)))).
Proof.
  refine (proj2 (@X19_documented_parameters "/api/sample/{id}"
                   (mkOp "GET" Sample.SampleController "get_one"
                         Sample.SampleResource true)
                   Sample.get_one _ eq_refl)
                (Sample.arg "pk" (Some (TPrim Pint)) false) _ _ _ _).
  - right. left. reflexivity.
  - reflexivity.
  - reflexivity.
  - discriminate.
Defined.

(** ** The paths of the document (lines 246-296) *)

Lemma api_path_slash (p : string) : PyStr.startswith "/" (api_path p) = true.
Proof.
  unfold api_path. destruct (PyStr.startswith "/" p) eqn:E; [exact E|].
  apply (prefix_append "/" p).
Qed.

Lemma paths_loop_keys (B : dict (dict _Operation)) (paths out : dict json)
    (k : string) :
  paths_loop B paths = Ok out ->
  In k (map fst out) ->
  In k (map fst paths) \/ exists p, In p (map fst B) /\ k = api_path p.
Proof.
  revert paths. induction B as [|[p ms] B IH]; intros paths; simpl.
  - intros H; inversion H; subst. auto.
  - destruct (path_item p ms []) as [item|e]; simpl; [|discriminate].
    intros H Hin. destruct (IH _ H Hin) as [Hk|(q & Hq & ->)].
    + apply dset_keys_in in Hk. destruct Hk as [->|Hk]; auto.
      right. exists p. split; [now left | reflexivity].
    + right. exists q. split; [now right | reflexivity].
Qed.

(** X20: every key of the document's [paths] starts with a slash and is the
    path of one of the router's routes, with the identity segment of the
    route's resource written in braces. *)
Theorem X20_paths_keys (router : HttpRouter) (paths : dict json)
    (k : string) :
  _build_paths router = Ok paths ->
  In k (map fst paths) ->
  PyStr.startswith "/" k = true
  /\ exists r,
       In r (_routes router)
       /\ k = api_path
                (PyStr.replace
                   ("/<" ++ pk (c_Resource (Controller (view r))) ++ ">")
                   ("/{" ++ pk (c_Resource (Controller (view r))) ++ "}")
                   (route r)).
Proof.
  unfold _build_paths. intros H Hin.
  destruct (@paths_loop_keys _ _ _ _ H Hin) as [[]|(p & Hp & ->)].
  split; [apply api_path_slash|].
  apply routes_by_path_keys in Hp. destruct Hp as [(r & Hr & ->)|[]].
  exists r. split; [exact Hr | reflexivity].
Qed.

(** X20 on the sample: the path of the single-entity routes. *)
Lemma X20_paths_keys_witness :
  PyStr.startswith "/" "/api/sample/{id}" = true
  /\ exists r,
       In r (_routes Sample.router)
       /\ "/api/sample/{id}"
          = api_path
              (PyStr.replace
                 ("/<" ++ pk (c_Resource (Controller (view r))) ++ ">")
                 ("/{" ++ pk (c_Resource (Controller (view r))) ++ "}")
                 (route r)).
Proof.
  refine (@X20_paths_keys Sample.router Fixtures.sample_paths
            "/api/sample/{id}" _ _).
  - vm_compute. reflexivity.
  - vm_compute. tauto.
Defined.

(** ** The document as a whole (lines 126-154 and 427-432) *)

Section BuildFacts.

Lemma build_operation_ok (P : string) (op : _Operation) :
  inspectable op -> exists o, _build_operation P op = Ok o.
Proof.
  unfold inspectable, _build_operation, _build_parameters.
  destruct (dget (op_handler_name op) (c_attrs (op_controller op)))
    as [[f|m|[|]]|]; simpl; intros H; try (eexists; reflexivity).
  congruence.
Qed.

Lemma path_item_ok (P : string) (ms : dict _Operation) (item : dict json) :
  Forall inspectable (map snd ms) -> exists out, path_item P ms item = Ok out.
Proof.
  revert item. induction ms as [|[m op] ms IH]; intros item H; simpl.
  - eexists; reflexivity.
  - inversion H as [|? ? Hop Hms]; subst.
    destruct (@build_operation_ok P _ Hop) as (o & ->). simpl. now apply IH.
Qed.

Lemma paths_loop_ok (B : dict (dict _Operation)) (paths : dict json) :
  all_ops inspectable B -> exists out, paths_loop B paths = Ok out.
Proof.
  unfold all_ops. revert paths.
  induction B as [|[p ms] B IH]; intros paths H; simpl.
  - eexists; reflexivity.
  - inversion H as [|? ? Hms HB]; subst.
    destruct (@path_item_ok p _ [] Hms) as (item & ->). simpl. now apply IH.
Qed.

Section OperationsByPath.

Variable Q : _Operation -> Prop.

Lemma by_path_set_all (P k : string) (op : _Operation)
    (B : dict (dict _Operation)) :
  Q op -> all_ops Q B -> all_ops Q (by_path_set P k op B).
Proof.
  unfold all_ops. intros Hop HB.
  assert (HB' : Forall (fun ms => Forall Q (map snd ms))
                       (map snd (dsetdefault P [] B))).
  { unfold PyDict.setdefault. destruct (dmem P B); auto.
    rewrite map_app. apply Forall_app. split; auto.
    repeat constructor. }
  unfold by_path_set.
  destruct (dget P (dsetdefault P [] B)) as [ms|] eqn:E; auto.
  apply dset_Forall; auto.
  apply dset_Forall; auto.
  exact (@dget_Forall _ (fun ms => Forall Q (map snd ms)) _ _ _ HB' E).
Qed.

Lemma route_by_path_all (B : dict (dict _Operation)) (r : PathConfig) :
  (forall op, In op (route_operations r) -> Q op) ->
  all_ops Q B -> all_ops Q (route_by_path B r).
Proof.
  unfold route_operations, route_by_path. intros Hops HB.
  match goal with
  | |- context [fold_left ?f ?l B] =>
      assert (H : all_ops Q (fold_left f l B))
  end.
  { assert (Hl : forall kv, In kv (METHOD_MAP (view r)) ->
                   Q (mkOp (PyStr.upper (fst kv)) (Controller (view r))
                           (snd kv) (c_Resource (Controller (view r)))
                           (_is_detail_route (route r)
                              (pk (c_Resource (Controller (view r))))))).
    { intros kv Hkv. apply Hops. apply in_or_app. left.
      apply in_map_iff. exists kv. auto. }
    revert Hl HB. generalize (METHOD_MAP (view r)). intros l. revert B.
    induction l as [|kv l IH]; simpl; intros B Hl HB; auto.
    apply IH; auto.
    apply by_path_set_all; auto. }
  destruct (_ && _) eqn:E; auto.
  apply by_path_set_all; auto.
  apply Hops. apply in_or_app. right. now left.
Qed.

End OperationsByPath.

Lemma routes_by_path_all (Q : _Operation -> Prop) (routes : list PathConfig)
    (B : dict (dict _Operation)) :
  (forall r op, In r routes -> In op (route_operations r) -> Q op) ->
  all_ops Q B -> all_ops Q (fold_left route_by_path routes B).
Proof.
  revert B. induction routes as [|r routes IH]; simpl; intros B Hr HB; auto.
  apply IH; [intros; eapply Hr; eauto|].
  apply route_by_path_all; auto.
  intros op Hop. eapply Hr; eauto.
Qed.

Lemma build_paths_ok (router : HttpRouter) :
  (forall r op, In r (_routes router) -> In op (route_operations r) ->
                inspectable op) ->
  exists paths, _build_paths router = Ok paths.
Proof.
  intros H. unfold _build_paths. apply paths_loop_ok.
  apply routes_by_path_all; auto. constructor.
Qed.

End BuildFacts.

(** X21: when every handler that the routes name is a function or an
    action (or is missing, or a false attribute), [build] answers a
    document, whose [openapi] is [3.0.3] and whose [info] holds the title
    and the version; and the document endpoint serves it with status 200
    as JSON, the [safe] check of the response never refusing it. *)
Theorem X21_document_endpoint (rt : runtime) (generator : OpenAPIGenerator)
    (request : HttpRequest) :
  (forall r op,
      In r (_routes (g_router generator)) ->
      In op (route_operations r) ->
      inspectable op) ->
  exists doc,
    build (g_router generator) (g_title generator) (g_version generator)
    = Ok doc
    /\ jget "openapi" doc = Some (JStr "3.0.3")
    /\ jget "info" doc
       = Some (JObj [("title", JStr (g_title generator));
                     ("version", JStr (g_version generator))])
    /\ OpenAPIJsonView_get rt generator request
       = Ok (mkResponse 200 (json_dumps rt doc) json_headers).
Proof.
  intros H. destruct (@build_paths_ok _ H) as (paths & Hp).
  unfold OpenAPIJsonView_get, build. rewrite Hp. simpl.
  eexists. repeat split.
Qed.

(** X21 on the sample: its document is built and served. *)
Lemma X21_document_endpoint_witness :
  exists doc,
    build Sample.router "API" "0.1.0" = Ok doc
    /\ jget "openapi" doc = Some (JStr "3.0.3")
    /\ jget "info" doc
       = Some (JObj [("title", JStr "API"); ("version", JStr "0.1.0")])
    /\ OpenAPIJsonView_get Demo.rt (mkGenerator Sample.router "API" "0.1.0")
         (Sample.request "GET" "" "" [] "/openapi.json")
       = Ok (mkResponse 200 (Demo.json_dumps doc) json_headers).
Proof.
  refine (@X21_document_endpoint Demo.rt
            (mkGenerator Sample.router "API" "0.1.0")
            (Sample.request "GET" "" "" [] "/openapi.json") _).
  intros r op Hr Hop.
  assert (Hall : forallb
            (fun r => forallb
               (fun op =>
                  match dget (op_handler_name op)
                             (c_attrs (op_controller op)) with
                  | Some (AOther true) => false
                  | _ => true
                  end) (route_operations r))
            (_routes Sample.router) = true) by (vm_compute; reflexivity).
  rewrite forallb_forall in Hall. specialize (Hall r Hr).
  rewrite forallb_forall in Hall. specialize (Hall op Hop).
  unfold inspectable. intros He. rewrite He in Hall. discriminate.
Defined.

(** ** References of the document (lines 126-154, 355-420) *)

Section ReferenceFacts.

Lemma path_item_origin (P m : string) (ms : dict _Operation)
    (item0 item : dict json) (o : json) :
  path_item P ms item0 = Ok item ->
  dget m item = Some o ->
  dget m item0 = Some o
  \/ exists op, In op (map snd ms) /\ _build_operation P op = Ok o.
Proof.
  revert item0. induction ms as [|[m' op] ms IH]; intros item0; simpl.
  - intros H; inversion H; subst. auto.
  - destruct (_build_operation P op) as [o'|e] eqn:E; simpl; [|discriminate].
    intros H Hg. destruct (IH _ H Hg) as [Hd|(op' & Hin & Hb)].
    + destruct (String.eqb m' m) eqn:Em.
      * apply String.eqb_eq in Em; subst m'.
        rewrite dget_dset_eq in Hd. inversion Hd; subst.
        right. exists op. split; [now left | exact E].
      * left. rewrite dget_dset_neq in Hd; auto.
        intros ->. now rewrite String.eqb_refl in Em.
    + right. exists op'. split; [now right | exact Hb].
Qed.

Lemma paths_loop_origin (B : dict (dict _Operation)) (paths out : dict json)
    (k : string) (j : json) :
  paths_loop B paths = Ok out ->
  dget k out = Some j ->
  dget k paths = Some j
  \/ exists P ms item,
       In (P, ms) B /\ path_item P ms [] = Ok item /\ j = JObj item.
Proof.
  revert paths. induction B as [|[p ms] B IH]; intros paths; simpl.
  - intros H; inversion H; subst. auto.
  - destruct (path_item p ms []) as [item|e] eqn:E; simpl; [|discriminate].
    intros H Hg. destruct (IH _ H Hg) as [Hd|(P & ms' & item' & Hin & Hp & Hj)].
    + match type of Hd with
      | dget k (dset ?a _ _) = _ => destruct (String.eqb a k) eqn:Ek
      end.
      * apply String.eqb_eq in Ek. rewrite Ek in Hd.
        rewrite dget_dset_eq in Hd. inversion Hd; subst.
        right. exists p, ms, item. split; [now left | auto].
      * left. rewrite dget_dset_neq in Hd; auto.
        intros Heq. rewrite Heq, String.eqb_refl in Ek. discriminate.
    + right. exists P, ms', item'. split; [now right | auto].
Qed.

Lemma all_ops_In (Q : _Operation -> Prop) (B : dict (dict _Operation))
    (P : string) (ms : dict _Operation) (op : _Operation) :
  all_ops Q B -> In (P, ms) B -> In op (map snd ms) -> Q op.
Proof.
  unfold all_ops. intros HB Hin Hop.
  rewrite Forall_forall in HB.
  assert (H : Forall Q (map snd ms)).
  { apply HB. apply in_map_iff. exists (P, ms). auto. }
  rewrite Forall_forall in H. now apply H.
Qed.

Lemma refs_schema_ref (m : model) : refs (schema_ref m) = [ref_target m].
Proof. reflexivity. Qed.

Lemma schema_in_models (t : pytype) (models : list model) :
  incl (_collect_models_from_type t) models ->
  exists fields,
    _schema_from_type t = JObj fields
    /\ incl (refs (JObj fields)) (map ref_target models).
Proof.
  intros Hi. destruct (schema_shaped t) as (fields & Hs & _ & Hr).
  exists fields. split; [exact Hs|]. rewrite Hr.
  intros x Hx. apply in_map_iff in Hx. destruct Hx as (m & <- & Hm).
  apply in_map. now apply Hi.
Qed.

Lemma response_schema_refs (op : _Operation) :
  exists fields,
    response_schema op (dget (op_handler_name op) (c_attrs (op_controller op)))
    = JObj fields
    /\ incl (refs (JObj fields)) (map ref_target (op_models op)).
Proof.
  unfold response_schema, op_models.
  set (handler := dget (op_handler_name op) (c_attrs (op_controller op))).
  assert (Hret : In (ref_target (Retrieve (op_resource op)))
                    (map ref_target
                       ([Create (op_resource op); Update (op_resource op);
                         Retrieve (op_resource op)]
                        ++ (if attr_truthy handler
                            then flat_map
                                   (fun kv =>
                                      _collect_models_from_type (snd kv))
                                   (annotations_attr handler)
                            else [])))).
  { apply in_map. apply in_or_app. left. simpl. auto. }
  assert (Hconv : forall fields,
             incl (refs (JObj fields))
                  [ref_target (Retrieve (op_resource op))] ->
             incl (refs (JObj fields))
                  (map ref_target
                       ([Create (op_resource op); Update (op_resource op);
                         Retrieve (op_resource op)]
                        ++ (if attr_truthy handler
                            then flat_map
                                   (fun kv =>
                                      _collect_models_from_type (snd kv))
                                   (annotations_attr handler)
                            else [])))).
  { intros fields Hi x Hx. apply Hi in Hx. destruct Hx as [<-|[]].
    exact Hret. }
  destruct (attr_truthy handler) eqn:Ht.
  - destruct (dget "return" (annotations_attr handler)) as [t|] eqn:Er.
    + apply schema_in_models.
      intros m Hm. apply in_or_app. right. apply in_flat_map.
      exists ("return", t). split; [now apply dget_Some_In | exact Hm].
    + destruct (String.eqb (op_method op) "GET");
        [destruct (op_detail op)|
         destruct (String.eqb (op_method op) "POST");
         [|destruct (String.eqb (op_method op) "PUT")]];
        eexists; (split; [reflexivity|]); apply Hconv;
        intros x Hx; vm_compute in Hx; simpl; tauto.
  - destruct (String.eqb (op_method op) "GET");
      [destruct (op_detail op)|
       destruct (String.eqb (op_method op) "POST");
       [|destruct (String.eqb (op_method op) "PUT")]];
      eexists; (split; [reflexivity|]); apply Hconv;
      intros x Hx; vm_compute in Hx; simpl; tauto.
Qed.

End ReferenceFacts.

Section DocumentReferences.

Lemma responses_refs (op : _Operation) (handler : option attr)
    (fields : dict json) :
  response_schema op handler = JObj fields ->
  refs (_build_responses op handler) = refs (JObj fields).
Proof.
  intros Hs. unfold _build_responses. rewrite Hs. simpl.
  now rewrite !app_nil_r.
Qed.

Lemma request_body_refs (op : _Operation) :
  incl (refs_of (_build_request_body op)) (map ref_target (op_models op)).
Proof.
  unfold _build_request_body, op_models.
  destruct (String.eqb (op_method op) "PUT");
    [|destruct (String.eqb (op_method op) "POST")];
    intros x Hx; vm_compute in Hx; apply in_map_iff.
  - destruct Hx as [<-|[]]. exists (Update (op_resource op)).
    split; [reflexivity|]. simpl. auto.
  - destruct Hx as [<-|[<-|[]]]; exists (Create (op_resource op));
      (split; [reflexivity|]); simpl; auto.
  - destruct Hx.
Qed.

Lemma operation_parts (P : string) (op : _Operation) (o : json) :
  _build_operation P op = Ok o ->
  jget "responses" o
  = Some (_build_responses op
            (dget (op_handler_name op) (c_attrs (op_controller op))))
  /\ jget "requestBody" o = _build_request_body op.
Proof.
  unfold _build_operation, rbind.
  destruct (_build_parameters P op _) as [parameters|e]; [|discriminate].
  intros H. inversion H; subst o. clear H.
  destruct (_build_request_body op) as [rb|]; split; reflexivity.
Qed.

Lemma operation_refs (P : string) (op : _Operation) (o : json) :
  _build_operation P op = Ok o ->
  incl (refs_of (jget "responses" o) ++ refs_of (jget "requestBody" o))
       (map ref_target (op_models op)).
Proof.
  intros H. destruct (@operation_parts _ _ _ H) as [-> ->].
  destruct (response_schema_refs op) as (fields & Hs & Hi).
  apply incl_app; [|apply request_body_refs].
  unfold refs_of. now rewrite (@responses_refs _ _ _ Hs).
Qed.

Lemma route_operations_shape (r : PathConfig) (op : _Operation) :
  In op (route_operations r) ->
  op_controller op = Controller (view r)
  /\ op_resource op = c_Resource (Controller (view r)).
Proof.
  unfold route_operations. intros Hin. apply in_app_or in Hin.
  destruct Hin as [Hin|Hin].
  - apply in_map_iff in Hin. destruct Hin as (kv & <- & _). now split.
  - destruct (_ && _); [|destruct Hin].
    destruct Hin as [<-|[]]. now split.
Qed.

Lemma collected (router : HttpRouter) (op : _Operation) :
  names_sound router ->
  In op (flat_map route_operations (_routes router)) ->
  In op (_collect_operations router).
Proof.
  intros Hn Hop.
  destruct (collect_operations_uniq router) as (uniq & -> & _ & Hk & Hc).
  pose proof (Hc op Hop) as Hin.
  apply in_map_iff in Hin. destruct Hin as (e & He & Hin).
  destruct (Hk e Hin) as [He' Hke]. rewrite Hke in He.
  apply in_map_iff. exists e. split; [|exact Hin].
  apply in_flat_map in Hop. destruct Hop as (r & Hr & Hop).
  apply in_flat_map in He'. destruct He' as (r' & Hr' & Hop').
  destruct (@route_operations_shape _ _ Hop) as [Hc1 Hr1].
  destruct (@route_operations_shape _ _ Hop') as [Hc2 Hr2].
  unfold op_key_of in He. inversion He as [[Hm Hname Hh Hd]].
  assert (Hsame : Controller (view r') = Controller (view r)).
  { apply Hn; auto. now rewrite <- Hc1, <- Hc2. }
  destruct (snd e) as [m' c' h' res' d'], op as [m c h res d].
  simpl in *. subst. now rewrite Hsame.
Qed.

Lemma component_present (models : list model) (m : model) :
  ident_sound models ->
  In m models ->
  exists schema,
    jpath ["schemas"; model_name m]
          (_pydantic_components (_dedupe_models models)) = Some schema.
Proof.
  intros Hs Hin. apply dedupe_models_in in Hin; auto.
  destruct (@last_named_exists _ _ Hin) as (m' & Hl).
  exists (own_schema m'). rewrite components_fold.
  unfold jpath, jget.
  change (dget "schemas" [("schemas", ?x)]) with (Some x).
  cbv beta iota. now rewrite (@components_last _ _ _ [] Hl).
Qed.

End DocumentReferences.

(** X22: in the document [build] answers, the responses and the request
    body of every operation refer only to schemas that the document holds:
    each [$ref] found there is [#/components/schemas/] followed by a name
    that has an entry in [components.schemas].  (Controllers of the same
    class name being the same controller, and models being told apart by
    their class.) *)
Theorem X22_no_dangling_reference (router : HttpRouter)
    (title version : string) (doc : json) (p verb : string) (o : json)
    (target : string) :
  names_sound router ->
  ident_sound (build_models router) ->
  build router title version = Ok doc ->
  jpath ["paths"; p; verb] doc = Some o ->
  In target (refs_of (jget "responses" o) ++ refs_of (jget "requestBody" o)) ->
  exists name schema,
    target = "#/components/schemas/" ++ name
    /\ jpath ["components"; "schemas"; name] doc = Some schema.
Proof.
  intros Hn Hi Hb Hp Ht.
  unfold build in Hb.
  destruct (_build_paths router) as [paths|e] eqn:Epaths; [|discriminate].
  simpl in Hb. inversion Hb; subst doc. clear Hb.
  unfold jpath, jget in Hp.
  change (dget "paths" _) with (Some (JObj paths)) in Hp.
  cbv beta iota in Hp.
  destruct (dget p paths) as [jp|] eqn:Ep; [|discriminate].
  unfold _build_paths in Epaths.
  destruct (@paths_loop_origin _ _ _ _ _ Epaths Ep)
    as [Hd|(P & ms & item & Hin & Hitem & ->)]; [discriminate|].
  destruct (dget verb item) as [o'|] eqn:Ev; [|discriminate].
  inversion Hp; subst o'. clear Hp.
  destruct (@path_item_origin _ _ _ _ _ _ Hitem Ev)
    as [Hd|(op & Hop & Hbuild)]; [discriminate|].
  assert (Hall : all_ops
                   (fun op => In op (flat_map route_operations
                                              (_routes router)))
                   (fold_left route_by_path (_routes router) [])).
  { apply routes_by_path_all; [|constructor].
    intros r op' Hr Hop'. apply in_flat_map. eauto. }
  pose proof (@all_ops_In _ _ _ _ _ Hall Hin Hop) as Hroute.
  apply collected in Hroute; auto.
  apply (@operation_refs _ _ _ Hbuild) in Ht.
  apply in_map_iff in Ht. destruct Ht as (m & <- & Hm).
  assert (Hmodels : In m (build_models router)).
  { unfold build_models. apply in_flat_map. eauto. }
  destruct (@component_present _ _ Hi Hmodels) as (schema & Hs).
  exists (model_name m), schema. split; [reflexivity|].
  unfold jpath in *. unfold jget at 1.
  change (dget "components" _)
    with (Some (_pydantic_components (_dedupe_models (build_models router)))).
  cbv beta iota. exact Hs.
Qed.

(** X22 on the sample: the listing refers to [Retrieve], which the
    components hold. *)
Lemma X22_no_dangling_reference_witness :
  exists name schema,
    "#/components/schemas/Retrieve" = "#/components/schemas/" ++ name
    /\ jpath ["components"; "schemas"; name] Sample.document = Some schema.
Proof.
  refine (@X22_no_dangling_reference Sample.router "API" "0.1.0"
            Sample.document "/api/sample" "get" Fixtures.sample_listing
            "#/components/schemas/Retrieve" _ _ _ _ _).
  - intros r1 r2 H1 H2 _.
    assert (Hc : forall r, In r (_routes Sample.router) ->
                           Controller (view r) = Sample.SampleController).
    { intros r Hr. unfold Sample.router, register in Hr.
      cbn [_routes] in Hr. rewrite register_fold in Hr.
      apply in_app_or in Hr. destruct Hr as [Hr|Hr].
      - apply in_app_or in Hr. destruct Hr as [[]|Hr].
        apply in_map_iff in Hr. destruct Hr as (m & <- & _).
        unfold action_route. destruct (detail m); reflexivity.
      - destruct Hr as [<-|[<-|[]]]; reflexivity. }
    now rewrite (Hc r1 H1), (Hc r2 H2).
  - exact sample_models_sound.
  - vm_compute. reflexivity.
  - vm_compute. reflexivity.
  - vm_compute. tauto.
Defined.

(** ** The address of the document (lines 468-483) *)

Lemma rstrip_spec (s : string) :
  exists n, s = rstrip "/" s ++ slashes n
            /\ last_char (rstrip "/" s) <> Some "/"%char.
Proof.
  induction s as [|a s (n & Hs & Hl)].
  - exists 0. split; [reflexivity | discriminate].
  - cbn [rstrip]. destruct (rstrip "/" s) as [|b r] eqn:E.
    + destruct (Ascii.eqb a "/") eqn:Ea.
      * apply Ascii.eqb_eq in Ea. subst a.
        exists (S n). split; [|discriminate]. simpl in *. now rewrite <- Hs.
      * exists n. split; [simpl in *; now rewrite <- Hs|].
        simpl. intros H. inversion H; subst.
        now rewrite Ascii.eqb_refl in Ea.
    + exists n. split; [simpl in *; now rewrite <- Hs | exact Hl].
Qed.

(** X23: the address of the document that [SwaggerRouter] gives to the
    documentation page is the base address without its trailing slashes,
    however many, followed by [/openapi.json]; so an empty base address,
    or one made of slashes only, gives [/openapi.json], and the file name
    is never preceded by two slashes. *)
Theorem X23_schema_url (router : HttpRouter) (title version : string)
    (base_url : string) :
  let self := SwaggerRouter_init router title version base_url in
  schema_url self = s_base_url self ++ "/openapi.json"
  /\ last_char (s_base_url self) <> Some "/"%char
  /\ exists n, base_url = s_base_url self ++ slashes n.
Proof.
  intros self. destruct (rstrip_spec base_url) as (n & Hs & Hl).
  split; [|split; [exact Hl | exists n; exact Hs]].
  unfold schema_url. cbn [s_base_url self SwaggerRouter_init].
  destruct (rstrip "/" base_url); reflexivity.
Qed.

(** ** The sample's storage (sample.py, lines 41-145) *)

Section StorageFacts.

Variables K V : Type.
Variable eqb : K -> K -> bool.
Hypothesis eqb_spec : forall a b, eqb a b = true <-> a = b.

Lemma eqb_same (k : K) : eqb k k = true.
Proof. now apply eqb_spec. Qed.

Lemma eqb_other (k k' : K) : k <> k' -> eqb k k' = false.
Proof.
  intros H. destruct (eqb k k') eqn:E; auto. apply eqb_spec in E. congruence.
Qed.

Lemma kget_set_eq (k : K) (v : V) (d : list (K * V)) :
  PyDict.get eqb k (PyDict.set eqb k v d) = Some v.
Proof.
  induction d as [|[k0 v0] d IH]; simpl.
  - now rewrite eqb_same.
  - destruct (eqb k k0) eqn:E; simpl; rewrite E; auto.
Qed.

Lemma kget_set_neq (k k' : K) (v : V) (d : list (K * V)) :
  k <> k' ->
  PyDict.get eqb k' (PyDict.set eqb k v d) = PyDict.get eqb k' d.
Proof.
  intros Hne. induction d as [|[k0 v0] d IH]; simpl.
  - rewrite eqb_other; auto.
  - destruct (eqb k k0) eqn:E; simpl.
    + apply eqb_spec in E; subst k0. rewrite !eqb_other; auto.
    + now rewrite IH.
Qed.

Lemma kget_notin (k : K) (d : list (K * V)) :
  PyDict.get eqb k d = None <-> ~ In k (map fst d).
Proof.
  induction d as [|[k0 v0] d IH]; simpl.
  - intuition.
  - destruct (eqb k k0) eqn:E.
    + apply eqb_spec in E; subst. split; [discriminate | intuition].
    + rewrite IH. split; [|intuition].
      intros H [->|Hin]; auto. rewrite eqb_same in E. discriminate.
Qed.

Lemma kget_remove_neq (k k' : K) (d : list (K * V)) :
  k <> k' ->
  PyDict.get eqb k' (PyDict.remove eqb k d) = PyDict.get eqb k' d.
Proof.
  intros Hne. induction d as [|[k0 v0] d IH]; simpl; auto.
  destruct (eqb k k0) eqn:E; simpl.
  - apply eqb_spec in E; subst k0. rewrite eqb_other; auto.
  - now rewrite IH.
Qed.

Lemma remove_keys (k k' : K) (d : list (K * V)) :
  In k' (map fst (PyDict.remove eqb k d)) -> In k' (map fst d).
Proof.
  induction d as [|[k0 v0] d IH]; simpl; auto.
  destruct (eqb k k0); simpl; intuition.
Qed.

Lemma remove_keys_NoDup (k : K) (d : list (K * V)) :
  NoDup (map fst d) -> NoDup (map fst (PyDict.remove eqb k d)).
Proof.
  induction d as [|[k0 v0] d IH]; simpl; intros Hnd; auto.
  inversion Hnd as [|? ? Hnotin Hnd']; subst.
  destruct (eqb k k0); simpl; auto.
  constructor; auto. intros Hin. apply Hnotin.
  eapply remove_keys; eauto.
Qed.

Lemma kget_remove_eq (k : K) (d : list (K * V)) :
  NoDup (map fst d) -> PyDict.get eqb k (PyDict.remove eqb k d) = None.
Proof.
  induction d as [|[k0 v0] d IH]; simpl; intros Hnd; auto.
  inversion Hnd as [|? ? Hnotin Hnd']; subst.
  destruct (eqb k k0) eqn:E; simpl.
  - apply eqb_spec in E; subst k0. now apply kget_notin.
  - rewrite E. now apply IH.
Qed.

Lemma set_keys_present (k : K) (v x : V) (d : list (K * V)) :
  PyDict.get eqb k d = Some x ->
  map fst (PyDict.set eqb k v d) = map fst d.
Proof.
  induction d as [|[k0 v0] d IH]; simpl; [discriminate|].
  destruct (eqb k k0) eqn:E; simpl; auto.
  intros H. now rewrite IH.
Qed.

End StorageFacts.

Section MaxKey.

Lemma fold_max_ge (l : list Z) (k : Z) :
  (k <= fold_left Z.max l k)%Z
  /\ (forall x, In x l -> (x <= fold_left Z.max l k)%Z)
  /\ (fold_left Z.max l k = k \/ In (fold_left Z.max l k) l).
Proof.
  revert k. induction l as [|a l IH]; intros k; simpl.
  - repeat split; auto; [lia | intros x []].
  - destruct (IH (Z.max k a)) as (H1 & H2 & H3). repeat split.
    + lia.
    + intros x [->|Hx]; [lia | auto].
    + destruct H3 as [H3|H3]; auto.
      rewrite H3. destruct (Z.max_spec k a) as [[_ ->]|[_ ->]]; auto.
Qed.

Lemma max_key_spec (storage : Stored.Storage) (m : Z) :
  Stored.max_key storage = Ok m ->
  In m (map fst storage) /\ forall k, In k (map fst storage) -> (k <= m)%Z.
Proof.
  destruct storage as [|[k0 v0] rest]; simpl; [discriminate|].
  intros H; inversion H; subst. clear H.
  destruct (fold_max_ge (map fst rest) k0) as (H1 & H2 & H3).
  split.
  - destruct H3 as [->|H3]; auto.
  - intros k [<-|Hk]; auto.
Qed.

Lemma max_key_unique (storage : Stored.Storage) (m : Z) :
  In m (map fst storage) ->
  (forall k, In k (map fst storage) -> (k <= m)%Z) ->
  Stored.max_key storage = Ok m.
Proof.
  intros Hin Hle.
  destruct (Stored.max_key storage) as [m'|e] eqn:E.
  - destruct (max_key_spec _ E) as [Hin' Hle'].
    f_equal. apply Z.le_antisymm; auto.
  - destruct storage as [|[k0 v0] rest]; [destruct Hin | discriminate].
Qed.

End MaxKey.

Section CreateFacts.

Variable Retrieve_new : Z -> instance -> result instance.

Lemma create_one_ok (data r : instance) (storage storage' : Stored.Storage) :
  Stored.create_one Retrieve_new data storage = (Ok r, storage') ->
  exists max_id,
    Stored.max_key storage = Ok max_id
    /\ Retrieve_new (max_id + 1) data = Ok r
    /\ storage' = PyDict.set Z.eqb (max_id + 1)%Z r storage.
Proof.
  unfold Stored.create_one.
  destruct (Stored.max_key storage) as [m|e]; [|discriminate].
  destruct (Retrieve_new (m + 1) data) as [r'|e] eqn:E; [|discriminate].
  intros H; inversion H; subst. exists m. auto.
Qed.

Lemma create_one_fails (data : instance) (e : exn)
    (storage storage' : Stored.Storage) :
  Stored.create_one Retrieve_new data storage = (Raise e, storage') ->
  storage' = storage.
Proof.
  unfold Stored.create_one.
  destruct (Stored.max_key storage) as [m|e0];
    [destruct (Retrieve_new (m + 1) data)|];
    intros H; inversion H; auto.
Qed.

Lemma create_one_fresh (storage : Stored.Storage) (max_id : Z) :
  Stored.max_key storage = Ok max_id ->
  Stored.get_one (max_id + 1) storage = None.
Proof.
  intros Hm. apply (kget_notin Z.eqb Z.eqb_eq).
  intros Hin. apply (max_key_spec _ Hm) in Hin. lia.
Qed.

Lemma create_one_max (storage : Stored.Storage) (max_id : Z) (r : instance) :
  Stored.max_key storage = Ok max_id ->
  Stored.max_key (PyDict.set Z.eqb (max_id + 1)%Z r storage)
  = Ok (max_id + 1)%Z.
Proof.
  intros Hm. apply max_key_unique.
  - apply (set_keys Z.eqb Z.eqb_eq). now left.
  - intros k Hk. apply (set_keys Z.eqb Z.eqb_eq) in Hk.
    destruct Hk as [->|Hk]; [lia|].
    apply (max_key_spec _ Hm) in Hk. lia.
Qed.

Lemma create_many_grows (data : list instance) (r : result (list instance))
    (storage storage' : Stored.Storage) (k : Z) (x : instance) :
  Stored.create_many Retrieve_new data storage = (r, storage') ->
  Stored.get_one k storage = Some x ->
  Stored.get_one k storage' = Some x.
Proof.
  revert r storage. induction data as [|d data IH]; intros r storage; simpl.
  - intros H; inversion H; subst. auto.
  - destruct (Stored.create_one Retrieve_new d storage) as [[r1|e] s1] eqn:E.
    + destruct (create_one_ok _ _ E) as (m & Hm & _ & ->).
      destruct (Stored.create_many Retrieve_new data _) as [[res|e] s2] eqn:E2;
        intros H Hg; inversion H; subst;
        apply (IH _ _ E2); unfold Stored.get_one in *;
        rewrite (kget_set_neq Z.eqb Z.eqb_eq); auto;
        intros Heq; subst k;
        pose proof (create_one_fresh _ Hm) as Hf;
        unfold Stored.get_one in Hf; congruence.
    + apply create_one_fails in E. subst s1.
      intros H; inversion H; subst. auto.
Qed.

Lemma create_many_ids (data res : list instance)
    (storage storage' : Stored.Storage) (max_id : Z) :
  Stored.create_many Retrieve_new data storage = (Ok res, storage') ->
  Stored.max_key storage = Ok max_id ->
  List.length res = List.length data
  /\ forall j r, nth_error res j = Some r ->
                 Stored.get_one (max_id + 1 + Z.of_nat j) storage' = Some r.
Proof.
  revert res storage max_id.
  induction data as [|d data IH]; intros res storage max_id; simpl.
  - intros H _; inversion H; subst. split; auto.
    intros [|j] r; discriminate.
  - destruct (Stored.create_one Retrieve_new d storage) as [[r1|e] s1] eqn:E;
      [|discriminate].
    destruct (Stored.create_many Retrieve_new data s1) as [[res'|e] s2] eqn:E2;
      [|discriminate].
    intros H Hm; inversion H; subst. clear H.
    destruct (create_one_ok _ _ E) as (m & Hm' & _ & ->).
    rewrite Hm in Hm'. inversion Hm'; subst m. clear Hm'.
    destruct (IH _ _ _ E2 (create_one_max _ r1 Hm)) as [Hl Hn].
    split; [simpl; congruence|].
    intros [|j] r Hr; simpl in Hr.
    + inversion Hr; subst r1.
      apply (create_many_grows _ _ _ E2).
      unfold Stored.get_one. rewrite Z.add_0_r.
      apply (kget_set_eq Z.eqb Z.eqb_eq).
    + replace (max_id + 1 + Z.of_nat (S j))%Z
        with (max_id + 1 + 1 + Z.of_nat j)%Z by lia.
      now apply Hn.
Qed.

End CreateFacts.

(** X24: [create_one] stores the new resource under the largest identity
    in use plus one, an identity that was free, and leaves every other
    entry as it was; when the constructor of the Retrieve schema raises,
    the storage is untouched; and on an empty storage it cannot take the
    maximum, so it raises [ValueError] whatever the data. *)
Theorem X24_create_one (Retrieve_new : Z -> instance -> result instance)
    (data : instance) (storage : Stored.Storage) :
  (storage = [] ->
   exists e, Stored.create_one Retrieve_new data storage = (Raise e, storage)
             /\ is_ValueError e = true)
  /\ (forall r storage',
         Stored.create_one Retrieve_new data storage = (Ok r, storage') ->
         exists new_id,
           Retrieve_new new_id data = Ok r
           /\ (forall k, In k (map fst storage) -> (k < new_id)%Z)
           /\ Stored.get_one new_id storage = None
           /\ Stored.get_one new_id storage' = Some r
           /\ (forall k, k <> new_id ->
                         Stored.get_one k storage' = Stored.get_one k storage))
  /\ (forall e storage',
         Stored.create_one Retrieve_new data storage = (Raise e, storage') ->
         storage' = storage).
Proof.
  split; [|split].
  - intros ->. eexists. split; reflexivity.
  - intros r storage' H.
    destruct (@create_one_ok Retrieve_new _ _ _ _ H) as (m & Hm & Hr & ->).
    exists (m + 1)%Z. repeat split; auto.
    + intros k Hk. apply (@max_key_spec _ _ Hm) in Hk. lia.
    + now apply create_one_fresh.
    + apply (kget_set_eq Z.eqb Z.eqb_eq).
    + intros k Hk. apply (kget_set_neq Z.eqb Z.eqb_eq). congruence.
  - intros e storage'. apply create_one_fails.
Qed.

(** X24 on the sample's storage, which holds the identities 1 and 2: the
    new resource gets the identity 3. *)
Lemma X24_create_one_witness :
  exists new_id,
    Fixtures.Retrieve_new new_id (Fixtures.xy 7 "seven")
    = Ok (Sample.retrieve 3 7 "seven" JNull)
    /\ (forall k, In k (map fst Sample.storage) -> (k < new_id)%Z)
    /\ Stored.get_one new_id Sample.storage = None
    /\ Stored.get_one new_id
         (Sample.storage ++ [(3%Z, Sample.retrieve 3 7 "seven" JNull)])%list
       = Some (Sample.retrieve 3 7 "seven" JNull)
    /\ (forall k, k <> new_id ->
                  Stored.get_one k
                    (Sample.storage
                     ++ [(3%Z, Sample.retrieve 3 7 "seven" JNull)])%list
                  = Stored.get_one k Sample.storage).
Proof.
  exact (proj1 (proj2 (@X24_create_one Fixtures.Retrieve_new
                         (Fixtures.xy 7 "seven") Sample.storage))
               (Sample.retrieve 3 7 "seven" JNull)
               (Sample.storage
                ++ [(3%Z, Sample.retrieve 3 7 "seven" JNull)])%list
               eq_refl).
Defined.

(** X25: [create_many] creates the resources one after the other: when it
    succeeds it answers as many resources as it was given, stored under
    consecutive identities that start after the largest one in use; and
    whether it succeeds or fails, it never removes or replaces an entry
    that was there. *)
Theorem X25_create_many (Retrieve_new : Z -> instance -> result instance)
    (data : list instance) (storage storage' : Stored.Storage)
    (outcome : result (list instance)) :
  Stored.create_many Retrieve_new data storage = (outcome, storage') ->
  (forall k x, Stored.get_one k storage = Some x ->
               Stored.get_one k storage' = Some x)
  /\ (forall res max_id,
         outcome = Ok res ->
         Stored.max_key storage = Ok max_id ->
         List.length res = List.length data
         /\ forall j r,
              nth_error res j = Some r ->
              Stored.get_one (max_id + 1 + Z.of_nat j) storage' = Some r).
Proof.
  intros H. split.
  - intros k x. eapply create_many_grows; eauto.
  - intros res max_id -> Hm. eapply create_many_ids; eauto.
Qed.

(** X25 on the sample's storage: two resources get the identities 3
    and 4. *)
Lemma X25_create_many_witness :
  List.length [Sample.retrieve 3 7 "seven" JNull;
               Sample.retrieve 4 8 "eight" JNull]
  = List.length [Fixtures.xy 7 "seven"; Fixtures.xy 8 "eight"]
  /\ forall j r,
       nth_error [Sample.retrieve 3 7 "seven" JNull;
                  Sample.retrieve 4 8 "eight" JNull] j = Some r ->
       Stored.get_one (2 + 1 + Z.of_nat j)
         (Sample.storage
          ++ [(3%Z, Sample.retrieve 3 7 "seven" JNull);
              (4%Z, Sample.retrieve 4 8 "eight" JNull)])%list
       = Some r.
Proof.
  exact (proj2 (@X25_create_many Fixtures.Retrieve_new
                  [Fixtures.xy 7 "seven"; Fixtures.xy 8 "eight"]
                  Sample.storage
                  (Sample.storage
                   ++ [(3%Z, Sample.retrieve 3 7 "seven" JNull);
                       (4%Z, Sample.retrieve 4 8 "eight" JNull)])%list
                  (Ok [Sample.retrieve 3 7 "seven" JNull;
                       Sample.retrieve 4 8 "eight" JNull])
                  eq_refl)
               _ 2%Z eq_refl eq_refl).
Defined.

Section DeleteFacts.

Variable int_ : value -> result Z.

Lemma delete_one_spec (pk : Z) (storage storage' : Stored.Storage)
    (r : option instance) :
  NoDup (map fst storage) ->
  Stored.delete_one pk storage = (r, storage') ->
  r = Stored.get_one pk storage
  /\ Stored.get_one pk storage' = None
  /\ (forall k, k <> pk ->
                Stored.get_one k storage' = Stored.get_one k storage)
  /\ NoDup (map fst storage').
Proof.
  unfold Stored.delete_one, Stored.get_one. intros Hnd.
  destruct (PyDict.get Z.eqb pk storage) as [x|] eqn:E;
    intros H; inversion H; subst.
  - repeat split.
    + now apply (kget_remove_eq Z.eqb Z.eqb_eq).
    + intros k Hk. apply (kget_remove_neq Z.eqb Z.eqb_eq). congruence.
    + now apply remove_keys_NoDup.
  - repeat split; auto.
Qed.

Lemma delete_each_spec (id : list value) (ks : list Z)
    (storage : Stored.Storage) :
  rmap int_ id = Ok ks ->
  NoDup (map fst storage) ->
  exists ret storage',
    Stored.delete_each int_ id storage = (Ok ret, storage')
    /\ NoDup (map fst storage')
    /\ (forall k, In k ks -> Stored.get_one k storage' = None)
    /\ (forall k, ~ In k ks ->
                  Stored.get_one k storage' = Stored.get_one k storage)
    /\ (forall r, In r ret
                  <-> exists k, In k ks /\ Stored.get_one k storage = Some r)
    /\ (List.length ret <= List.length id)%nat.
Proof.
  revert ks storage. induction id as [|pk id IH]; intros ks storage; simpl.
  - intros H Hnd; inversion H; subst.
    exists [], storage. repeat split; auto.
    + intros k [].
    + intros [].
    + intros (k & [] & _).
  - destruct (int_ pk) as [k0|e] eqn:Ek; [|discriminate].
    destruct (rmap int_ id) as [ks'|e] eqn:Er; [|discriminate].
    intros H Hnd; inversion H; subst. clear H.
    destruct (Stored.delete_one k0 storage) as [r0 s1] eqn:Ed.
    destruct (@delete_one_spec _ _ _ _ Hnd Ed) as (Hr0 & Hgone & Hsame & Hnd1).
    destruct (IH ks' s1 eq_refl Hnd1)
      as (ret & s2 & -> & Hnd2 & Hnone & Hkeep & Hret & Hlen).
    eexists. exists s2. split; [reflexivity|].
    split; [exact Hnd2|]. split; [|split; [|split]].
    + intros k [<-|Hk]; [|now apply Hnone].
      destruct (in_dec Z.eq_dec k0 ks') as [Hin|Hnin]; [now apply Hnone|].
      now rewrite Hkeep.
    + intros k Hk. rewrite Hkeep by (intros Hin; apply Hk; now right).
      apply Hsame. intros ->. apply Hk. now left.
    + intros r.
      assert (Hiff : In r ret
                     <-> exists k, In k ks' /\ k <> k0
                                   /\ Stored.get_one k storage = Some r).
      { rewrite Hret. split; intros (k & Hk & Hg).
        - assert (Hne : k <> k0) by (intros ->; congruence).
          exists k. repeat split; auto. now rewrite <- Hsame.
        - destruct Hg as [Hne Hg]. exists k. split; auto.
          now rewrite Hsame. }
      subst r0. destruct (Stored.get_one k0 storage) as [x|] eqn:Eg.
      * simpl. rewrite Hiff. split.
        -- intros [<-|(k & Hk & _ & Hg)].
           ++ exists k0. split; [now left | exact Eg].
           ++ exists k. split; [now right | exact Hg].
        -- intros (k & [<-|Hk] & Hg); [left; congruence|].
           destruct (Z.eq_dec k k0) as [->|Hne]; [left; congruence|].
           right. exists k. auto.
      * rewrite Hiff. split.
        -- intros (k & Hk & _ & Hg). exists k. split; [now right | exact Hg].
        -- intros (k & [<-|Hk] & Hg); [congruence|].
           destruct (Z.eq_dec k k0) as [->|Hne]; [congruence|].
           exists k. auto.
    + destruct r0; simpl; lia.
Qed.

End DeleteFacts.

(** X26: deleting answers what was stored and removes it.  [delete_one]
    answers the entry of the identity, or nothing when there is none, and
    afterwards the identity is free and every other entry is as it was.
    [delete_many], given identities that all convert to integers, answers
    the resources that were stored under them and no others, never more
    resources than identities, after which none of these identities is
    stored and all others are as they were; given an empty list, or
    nothing, it answers the empty list and removes nothing. *)
Theorem X26_delete (int_ : value -> result Z) (storage : Stored.Storage) :
  NoDup (map fst storage) ->
  (forall pk r storage',
      Stored.delete_one pk storage = (r, storage') ->
      r = Stored.get_one pk storage
      /\ Stored.get_one pk storage' = None
      /\ (forall k, k <> pk ->
                    Stored.get_one k storage' = Stored.get_one k storage))
  /\ (forall id ks,
         rmap int_ id = Ok ks ->
         exists ret storage',
           Stored.delete_many int_ (Some id) storage = (Ok ret, storage')
           /\ (forall k, In k ks -> Stored.get_one k storage' = None)
           /\ (forall k, ~ In k ks ->
                         Stored.get_one k storage' = Stored.get_one k storage)
           /\ (forall r,
                  In r ret
                  <-> exists k, In k ks /\ Stored.get_one k storage = Some r)
           /\ (List.length ret <= List.length id)%nat)
  /\ Stored.delete_many int_ None storage = (Ok [], storage)
  /\ Stored.delete_many int_ (Some []) storage = (Ok [], storage).
Proof.
  intros Hnd. split; [|split; [|split; reflexivity]].
  - intros pk r storage' H.
    destruct (@delete_one_spec _ _ _ _ Hnd H) as (H1 & H2 & H3 & _). auto.
  - intros id ks Hk.
    destruct (@delete_each_spec int_ _ _ _ Hk Hnd)
      as (ret & s' & Hd & _ & H1 & H2 & H3 & H4).
    exists ret, s'. repeat split; auto; try apply H3.
    destruct id as [|pk id]; [|exact Hd].
    simpl in Hd. exact Hd.
Qed.

(** X26 on the sample's storage: deleting the identities 2, 9 and 2 again
    answers the resource 2 once and leaves the resource 1. *)
Lemma X26_delete_witness :
  exists ret storage',
    Stored.delete_many Fixtures.int_
      (Some [VStr "2"; VStr "9"; VStr "2"]) Sample.storage
    = (Ok ret, storage')
    /\ (forall k, In k [2; 9; 2]%Z -> Stored.get_one k storage' = None)
    /\ (forall k, ~ In k [2; 9; 2]%Z ->
                  Stored.get_one k storage' = Stored.get_one k Sample.storage)
    /\ (forall r,
           In r ret
           <-> exists k, In k [2; 9; 2]%Z
                         /\ Stored.get_one k Sample.storage = Some r)
    /\ (List.length ret <= List.length [VStr "2"; VStr "9"; VStr "2"])%nat.
Proof.
  refine (proj1 (proj2 (@X26_delete Fixtures.int_ Sample.storage _))
                [VStr "2"; VStr "9"; VStr "2"] [2; 9; 2]%Z eq_refl).
  repeat constructor; simpl; intuition discriminate.
Defined.

(** X27: [update_one] answers nothing and changes nothing when the identity
    is not stored; otherwise it answers the stored resource copied with the
    data's fields, stores it under the same identity, and leaves the
    identities in use and every other entry as they were. *)
Theorem X27_update_one (model_copy : instance -> instance -> instance)
    (pk : Z) (data : instance) (storage : Stored.Storage) :
  (Stored.get_one pk storage = None ->
   Stored.update_one model_copy pk data storage = (None, storage))
  /\ (forall old,
         Stored.get_one pk storage = Some old ->
         exists storage',
           Stored.update_one model_copy pk data storage
           = (Some (model_copy old data), storage')
           /\ Stored.get_one pk storage' = Some (model_copy old data)
           /\ (forall k, k <> pk ->
                         Stored.get_one k storage' = Stored.get_one k storage)
           /\ map fst storage' = map fst storage).
Proof.
  unfold Stored.update_one, Stored.get_one. split.
  - intros ->. reflexivity.
  - intros old Hg. rewrite Hg. eexists. split; [reflexivity|].
    repeat split.
    + apply (kget_set_eq Z.eqb Z.eqb_eq).
    + intros k Hk. apply (kget_set_neq Z.eqb Z.eqb_eq). congruence.
    + eapply set_keys_present; eauto.
Qed.

(** X27 on the sample's storage: updating the resource 1. *)
Lemma X27_update_one_witness :
  exists storage',
    Stored.update_one Fixtures.model_copy 1 (Fixtures.xy 7 "seven")
                      Sample.storage
    = (Some (Fixtures.model_copy (Sample.retrieve 1 123 "value-1" JNull)
                                 (Fixtures.xy 7 "seven")), storage')
    /\ Stored.get_one 1 storage'
       = Some (Fixtures.model_copy (Sample.retrieve 1 123 "value-1" JNull)
                                   (Fixtures.xy 7 "seven"))
    /\ (forall k, k <> 1%Z ->
                  Stored.get_one k storage' = Stored.get_one k Sample.storage)
    /\ map fst storage' = map fst Sample.storage.
Proof.
  exact (proj2 (@X27_update_one Fixtures.model_copy 1
                  (Fixtures.xy 7 "seven") Sample.storage)
               (Sample.retrieve 1 123 "value-1" JNull) eq_refl).
Defined.
